(** * Data-cleaning pipeline of the clean-water truck dashboard

    A shallow embedding of [load_keuangan_data], [load_gps_data], the
    gate at the top of [main] and its month filter in [dashboard.py],
    together with the pandas operations these functions call.

    Conventions of the model.
    - A [DataFrame] is the value [pd.read_csv] hands back: the labels of
      its rows, and its columns as maps from row labels to values.  pandas
      keeps the label of a row through [dropna] and boolean indexing, so a
      row of the file is recognised in the cleaned table by its label.
      Column labels may repeat; [df[col]] is then a DataFrame, and the
      operations that a DataFrame lacks raise.
    - [pd.read_csv] itself is not modelled: a loader receives either the
      frame that was read, or the message of the exception that was raised.
    - Numbers are exact decimals, not IEEE doubles; the literals [inf] and
      [nan] are not numeric literals of the model (a [nan] text is
      therefore coerced to the missing value, as in pandas).  The exact
      reading and the float64 reading of a text agree on the texts that
      [View.plain_text] accepts: the numerals of at most 15 digits, which
      a float64 holds without loss, and the texts that no reader of
      numbers accepts.  What is proved of the values of numbers is stated
      for these texts.  Dates are not limited to the range of nanosecond
      timestamps; what is proved of a date that is kept is stated for the
      years 1678 to 2261.
    - Text is a byte string; case folding and stripping act on ASCII.
      [%Y] is written with four digits.
    - The effects on the page are the list of [st.error] and [st.write]
      calls; an exception that leaves a function is a result [Raise]. *)

From Stdlib Require Import ZArith QArith List String Ascii Bool Lia.
From Stdlib Require Import DecimalString DecimalPos Sorted.
Import ListNotations.

Local Open Scope string_scope.
Local Open Scope list_scope.
Local Open Scope Z_scope.

(** ** Text helpers (Python [str] methods) *)

Module Text.

Definition chars (s : string) : list ascii := list_ascii_of_string s.
Definition text (l : list ascii) : string := string_of_list_ascii l.

(** ASCII whitespace in the sense of [str.strip]. *)
Definition is_space (c : ascii) : bool :=
  let n := nat_of_ascii c in
  ((9 <=? n) && (n <=? 13) || (28 <=? n) && (n <=? 32))%nat.

Definition is_digit (c : ascii) : bool :=
  let n := nat_of_ascii c in ((48 <=? n) && (n <=? 57))%nat.

Definition digit_value (c : ascii) : Z := Z.of_nat (nat_of_ascii c) - 48.

Definition lower_char (c : ascii) : ascii :=
  let n := nat_of_ascii c in
  if ((65 <=? n) && (n <=? 90))%nat then ascii_of_nat (n + 32) else c.

Fixpoint lstrip (l : list ascii) : list ascii :=
  match l with
  | c :: t => if is_space c then lstrip t else l
  | [] => []
  end.

Definition strip_chars (l : list ascii) : list ascii :=
  rev (lstrip (rev (lstrip l))).

(** [str.strip()] *)
Definition strip (s : string) : string := text (strip_chars (chars s)).

(** [str.lower()] *)
Definition lower (s : string) : string := text (map lower_char (chars s)).

Fixpoint starts_with (p l : list ascii) : bool :=
  match p, l with
  | [], _ => true
  | a :: p', b :: l' => Ascii.eqb a b && starts_with p' l'
  | _ :: _, [] => false
  end.

(** Literal replacement of every occurrence of a non-empty pattern, left to
    right, without overlap.  [skip] counts the characters of a matched
    occurrence that are still to be consumed. *)
Fixpoint replace_from (skip : nat) (pat rep l : list ascii) : list ascii :=
  match l with
  | [] => []
  | c :: t =>
      match skip with
      | S k => replace_from k pat rep t
      | O =>
          if starts_with pat l
          then rep ++ replace_from (List.length pat - 1) pat rep t
          else c :: replace_from 0 pat rep t
      end
  end.

(** [str.replace(pat, rep)] with a literal pattern. *)
Definition replace (pat rep s : string) : string :=
  text (replace_from 0 (chars pat) (chars rep) (chars s)).

(** Longest prefix made of decimal digits, and what follows it. *)
Fixpoint span_digits (l : list ascii) : list ascii * list ascii :=
  match l with
  | c :: t =>
      if is_digit c
      then let (d, r) := span_digits t in (c :: d, r)
      else ([], l)
  | [] => ([], [])
  end.

Definition Z_of_digits (l : list ascii) : Z :=
  fold_left (fun acc c => 10 * acc + digit_value c) l 0.

(** [str(z)] for a Python integer. *)
Definition string_of_Z (z : Z) : string := NilZero.string_of_int (Z.to_int z).

(** Split at every occurrence of a separator character ([str.split(sep)]). *)
Fixpoint split_on (sep : ascii) (l : list ascii) : list (list ascii) :=
  match l with
  | [] => [[]]
  | c :: t =>
      if Ascii.eqb c sep then [] :: split_on sep t
      else match split_on sep t with
           | w :: ws => (c :: w) :: ws
           | [] => [[c]]
           end
  end.

End Text.

(** ** Numbers and cells *)

(** A number is an integer, or a decimal [m * 10^e] standing for a float. *)
Inductive number : Type :=
  | NInt (z : Z)
  | NFloat (m e : Z).

Definition number_value (n : number) : Q :=
  match n with
  | NInt z => inject_Z z
  | NFloat m e => (inject_Z m * Qpower (inject_Z 10) e)%Q
  end.

(** One value of a DataFrame.  [NaN] is the missing value ([NaN], [NaT]);
    [Timestamp] is a calendar date produced by [pd.to_datetime]. *)
Inductive cell : Type :=
  | NaN
  | Str (s : string)
  | Num (n : number)
  | Timestamp (y m d : Z).

Definition isna (c : cell) : bool :=
  match c with NaN => true | _ => false end.

Module Render.
Import Text.

Fixpoint zeros (n : nat) : list ascii :=
  match n with O => [] | S k => "0"%char :: zeros k end.

(** Decimal rendering of a non-negative integer on at least [w] digits. *)
Definition zero_pad (w : nat) (z : Z) : list ascii :=
  let d := chars (string_of_Z z) in
  zeros (w - List.length d) ++ d.

Fixpoint drop_zeros (l : list ascii) : list ascii :=
  match l with
  | c :: t => if Ascii.eqb c "0" then drop_zeros t else l
  | [] => []
  end.

(** [repr] of a float whose value is [m * 10^e]: positional notation while
    the decimal point lies within the digits' reach, scientific notation
    otherwise (the rule of Python's shortest [repr]). *)
Definition float_repr (m e : Z) : string :=
  if m =? 0 then "0.0" else
  let all := chars (string_of_Z (Z.abs m)) in
  let ds := rev (drop_zeros (rev all)) in
  let e' := e + Z.of_nat (List.length all - List.length ds) in
  let n := Z.of_nat (List.length ds) in
  let decpt := n + e' in
  let sign := if m <? 0 then ["-"%char] else [] in
  let body :=
    if (decpt <=? -4) || (16 <? decpt) then
      let x := decpt - 1 in
      let frac := match tl ds with [] => [] | r => "."%char :: r end in
      firstn 1 ds ++ frac ++ ["e"%char]
        ++ [if x <? 0 then "-"%char else "+"%char] ++ zero_pad 2 (Z.abs x)
    else if decpt <=? 0 then
      chars "0." ++ zeros (Z.to_nat (- decpt)) ++ ds
    else if n <=? decpt then
      ds ++ zeros (Z.to_nat (decpt - n)) ++ chars ".0"
    else
      firstn (Z.to_nat decpt) ds ++ ["."%char] ++ skipn (Z.to_nat decpt) ds
  in text (sign ++ body).

Definition number_repr (n : number) : string :=
  match n with
  | NInt z => string_of_Z z
  | NFloat m e => float_repr m e
  end.

Definition month_name (m : Z) : string :=
  match m with
  | 1 => "January" | 2 => "February" | 3 => "March" | 4 => "April"
  | 5 => "May" | 6 => "June" | 7 => "July" | 8 => "August"
  | 9 => "September" | 10 => "October" | 11 => "November"
  | 12 => "December" | _ => ""
  end.

(** [Timestamp.strftime('%Y-%m (%B)')] in the default (C) locale. *)
Definition strftime_month (y m : Z) : string :=
  text (zero_pad 4 y ++ ["-"%char] ++ zero_pad 2 m ++ chars " (")
    ++ month_name m ++ ")".

(** [str] of a timestamp at midnight: [YYYY-MM-DD]. *)
Definition date_repr (y m d : Z) : string :=
  text (zero_pad 4 y ++ ["-"%char] ++ zero_pad 2 m ++ ["-"%char]
          ++ zero_pad 2 d).

End Render.

(** [Series.astype(str)] on one value. *)
Definition astype_str (c : cell) : string :=
  match c with
  | NaN => "nan"
  | Str s => s
  | Num n => Render.number_repr n
  | Timestamp y m d => Render.date_repr y m d
  end.

(** ** Coercions: [pd.to_numeric] and [pd.to_datetime] *)

Module Parse.
Import Text.

Definition split_sign (l : list ascii) : bool * list ascii :=
  match l with
  | c :: t =>
      if Ascii.eqb c "-" then (true, t)
      else if Ascii.eqb c "+" then (false, t)
      else (false, l)
  | [] => (false, [])
  end.

Definition signed (neg : bool) (z : Z) : Z := if neg then - z else z.

(** What may follow the exponent marker: an optional sign and digits. *)
Definition exponent (l : list ascii) : option Z :=
  let (neg, l1) := split_sign l in
  let (d, r) := span_digits l1 in
  match d, r with
  | _ :: _, [] => Some (signed neg (Z_of_digits d))
  | _, _ => None
  end.

(** A decimal literal: surrounding blanks, a sign, digits with an optional
    fractional part, an optional exponent.  A literal without point and
    exponent is an integer. *)
Definition number_of_string (s : string) : option number :=
  let (neg, l1) := split_sign (strip_chars (chars s)) in
  let (ip, r1) := span_digits l1 in
  let '(point, fp, r2) :=
    match r1 with
    | c :: t =>
        if Ascii.eqb c "."
        then let (f, r) := span_digits t in (true, f, r)
        else (false, [], r1)
    | [] => (false, [], [])
    end in
  match ip ++ fp with
  | [] => None
  | ds =>
      let m := signed neg (Z_of_digits ds) in
      let e := - Z.of_nat (List.length fp) in
      match r2 with
      | [] => Some (if point then NFloat m e else NInt m)
      | c :: t =>
          if Ascii.eqb c "e" || Ascii.eqb c "E"
          then match exponent t with
               | Some x => Some (NFloat m (e + x))
               | None => None
               end
          else None
      end
  end.

Definition all_digits (l : list ascii) : bool := forallb is_digit l.

(** [%d]: [3[0-1]|[1-2]\d|0[1-9]|[1-9]| [1-9]] *)
Definition day_field (l : list ascii) : option Z :=
  match l with
  | [a] =>
      if is_digit a && negb (Ascii.eqb a "0") then Some (digit_value a)
      else None
  | [a; b] =>
      if Ascii.eqb a " " then
        if is_digit b && negb (Ascii.eqb b "0") then Some (digit_value b)
        else None
      else
        let v := Z_of_digits l in
        if all_digits l && (1 <=? v) && (v <=? 31) then Some v else None
  | _ => None
  end.

(** [%m]: [1[0-2]|0[1-9]|[1-9]] *)
Definition month_field (l : list ascii) : option Z :=
  match l with
  | [a] =>
      if is_digit a && negb (Ascii.eqb a "0") then Some (digit_value a)
      else None
  | [_; _] =>
      let v := Z_of_digits l in
      if all_digits l && (1 <=? v) && (v <=? 12) then Some v else None
  | _ => None
  end.

(** [%Y]: [\d\d\d\d] *)
Definition year_field (l : list ascii) : option Z :=
  match l with
  | [_; _; _; _] => if all_digits l then Some (Z_of_digits l) else None
  | _ => None
  end.

Definition is_leap (y : Z) : bool :=
  ((y mod 4 =? 0) && negb (y mod 100 =? 0)) || (y mod 400 =? 0).

Definition days_in_month (y m : Z) : Z :=
  match m with
  | 2 => if is_leap y then 29 else 28
  | 4 | 6 | 9 | 11 => 30
  | _ => 31
  end.

(** A date of the proleptic Gregorian calendar, year 1 onwards. *)
Definition valid_date (y m d : Z) : bool :=
  (1 <=? y) && (1 <=? m) && (m <=? 12) && (1 <=? d)
  && (d <=? days_in_month y m).

(** Parsing with the format ['%d/%m/%Y']; the whole text has to match. *)
Definition date_of_string (s : string) : option (Z * Z * Z) :=
  match split_on "/" (chars s) with
  | [ds; ms; ys] =>
      match day_field ds, month_field ms, year_field ys with
      | Some d, Some m, Some y =>
          if valid_date y m d then Some (y, m, d) else None
      | _, _, _ => None
      end
  | _ => None
  end.

End Parse.

(** [Series.str.replace(pat, rep)] on one value: a value that is no text
    becomes missing. *)
Definition str_replace (pat rep : string) (c : cell) : cell :=
  match c with
  | Str s => Str (Text.replace pat rep s)
  | _ => NaN
  end.

(** [pd.to_numeric(..., errors='coerce')] on one value. *)
Definition to_numeric (c : cell) : cell :=
  match c with
  | Str s =>
      match Parse.number_of_string s with
      | Some n => Num n
      | None => NaN
      end
  | Num n => Num n
  | _ => NaN
  end.

(** [Series.fillna(v)] on one value. *)
Definition fillna (v : cell) (c : cell) : cell :=
  if isna c then v else c.

(** [pd.to_datetime(..., format='%d/%m/%Y', errors='coerce')] on one value:
    a value that is no text is rendered first, and never matches. *)
Definition to_datetime (c : cell) : cell :=
  match c with
  | NaN => NaN
  | Timestamp y m d => Timestamp y m d
  | _ =>
      match Parse.date_of_string (astype_str c) with
      | Some (y, m, d) => Timestamp y m d
      | None => NaN
      end
  end.

(** ** DataFrames *)

(** A column is a map from row labels to values. *)
Definition Series : Type := nat -> cell.

(** [index] lists the labels of the rows, in order; [columns] pairs every
    column label with its values.  Labels may repeat, as in pandas. *)
Record DataFrame : Type := mkDataFrame {
  index : list nat;
  columns : list (string * Series)
}.

Module Frame.

(** [df.columns] *)
Definition labels (df : DataFrame) : list string := map fst (columns df).

(** [col in df.columns] *)
Definition has_column (col : string) (df : DataFrame) : bool :=
  existsb (String.eqb col) (labels df).

Definition count_label (col : string) (df : DataFrame) : nat :=
  count_occ string_dec (labels df) col.

(** Relabelling: [df.columns = ...] and [df.rename(columns=...)]. *)
Definition map_labels (f : string -> string) (df : DataFrame) : DataFrame :=
  mkDataFrame (index df) (map (fun p => (f (fst p), snd p)) (columns df)).

(** An element-wise [f] applied to a column if its label is [col]. *)
Definition on_label (col : string) (f : cell -> cell) (p : string * Series)
  : string * Series :=
  if String.eqb (fst p) col then (fst p, fun i => f (snd p i)) else p.

(** [df[col] = f(df[col])] for an element-wise [f]. *)
Definition map_column (col : string) (f : cell -> cell) (df : DataFrame)
  : DataFrame :=
  mkDataFrame (index df) (map (on_label col f) (columns df)).

(** [df[col]] when the label occurs; the all-missing series otherwise. *)
Definition column (col : string) (df : DataFrame) : Series :=
  match find (fun p => String.eqb (fst p) col) (columns df) with
  | Some p => snd p
  | None => fun _ => NaN
  end.

(** Boolean indexing: the rows whose label satisfies [keep]. *)
Definition select_rows (keep : nat -> bool) (df : DataFrame) : DataFrame :=
  mkDataFrame (filter keep (index df)) (columns df).

(** [df.dropna(subset=cols)] *)
Definition dropna (cols : list string) (df : DataFrame) : DataFrame :=
  select_rows (fun i => forallb (fun c => negb (isna (column c df i))) cols)
              df.

(** [df[col] = s]: the column is replaced when the label occurs, and
    appended otherwise. *)
Definition set_column (col : string) (s : Series) (df : DataFrame)
  : DataFrame :=
  if has_column col df
  then mkDataFrame (index df)
         (map (fun p => if String.eqb (fst p) col then (fst p, s) else p)
              (columns df))
  else mkDataFrame (index df) (columns df ++ [(col, s)]).

(** [df.empty]: some axis has length zero. *)
Definition empty (df : DataFrame) : bool :=
  match index df, columns df with
  | _ :: _, _ :: _ => false
  | _, _ => true
  end.

(** The values of a column, row by row. *)
Definition values (col : string) (df : DataFrame) : list cell :=
  map (column col df) (index df).

(** The frame [pd.read_csv] builds from a header and the records below it:
    rows are labelled 0, 1, ...; a record shorter than the header is
    completed with missing values. *)
Definition of_records (header : list string) (records : list (list cell))
  : DataFrame :=
  mkDataFrame (seq 0 (List.length records))
    (map (fun j => (nth j header "", fun i => nth j (nth i records []) NaN))
         (seq 0 (List.length header))).

(** The values of a row, column by column. *)
Definition row (i : nat) (df : DataFrame) : list cell :=
  map (fun p => snd p i) (columns df).

(** No value is the empty text: [pd.read_csv] reads an empty field as the
    missing value. *)
Definition no_empty_text (df : DataFrame) : bool :=
  forallb (fun p : string * Series =>
             forallb (fun i => match snd p i with
                               | Str s => negb (String.eqb s "")
                               | _ => true
                               end) (index df))
          (columns df).

(** The columns whose label satisfies [p]. *)
Definition only (p : string -> bool) (df : DataFrame) : DataFrame :=
  mkDataFrame (index df) (filter (fun c => p (fst c)) (columns df)).

End Frame.

(** ** Exceptions and user-interface effects *)

Inductive exn : Type :=
  | ReadFailure (msg : string)      (* raised by [pd.read_csv] *)
  | KeyError (key : string)
  | ValueError (msg : string)
  | AttributeError (msg : string)
  | UnboundLocalError (name : string).

(** [str(e)] *)
Definition str_exn (e : exn) : string :=
  match e with
  | ReadFailure msg => msg
  | KeyError key => "'" ++ key ++ "'"
  | ValueError msg => msg
  | AttributeError msg => msg
  | UnboundLocalError name => name
  end.

Inductive ui_event : Type :=
  | StError (msg : string)
  | StWrite (caption : string) (value : list string).

(** How a call ends: with a value, or with an exception that escapes. *)
Inductive outcome (A : Type) : Type :=
  | Return (v : A)
  | Raise (e : exn).
Arguments Return {A} v.
Arguments Raise {A} e.

(** What [pd.read_csv] did with the file. *)
Inductive csv_read : Type :=
  | ReadError (msg : string)
  | ReadOk (df : DataFrame).

(** The state of a [try] block: it ran to its end with [df], or raised [e]
    while the local variable [df] was bound to [df], or not bound at all. *)
Inductive attempt : Type :=
  | Done (df : DataFrame)
  | Failed (e : exn) (df : option DataFrame).

Definition and_then (a : attempt) (k : DataFrame -> attempt) : attempt :=
  match a with
  | Done df => k df
  | Failed e d => Failed e d
  end.

Notation "a >>= k" := (and_then a k) (at level 50, left associativity).

(** [df[col]] selects a Series when the label occurs once and a DataFrame
    when it occurs several times; it raises [KeyError] when it is absent. *)
Inductive selection : Type := Absent | OneSeries | SubFrame.

Definition getitem (col : string) (df : DataFrame) : selection :=
  match Frame.count_label col df with
  | O => Absent
  | S O => OneSeries
  | S (S _) => SubFrame
  end.

Definition no_str_accessor : exn :=
  AttributeError "'DataFrame' object has no attribute 'str'".

Definition duplicate_keys : exn :=
  ValueError "cannot assemble with duplicate keys".

(** The static alias table of [df.rename(columns=...)]. *)
Definition rename_label (mapping : list (string * string)) (l : string)
  : string :=
  match find (fun p => String.eqb (fst p) l) mapping with
  | Some p => snd p
  | None => l
  end.

(** [df.columns.str.strip().str.lower()] on one label. *)
Definition normalise_label (l : string) : string :=
  Text.lower (Text.strip l).

(** ** [load_keuangan_data] *)

Module Keuangan.

Definition column_mapping : list (string * string) :=
  [("plat nomor", "nopol");
   ("volume (l)", "jumlahair");
   ("jumlah air", "jumlahair")].

Definition numeric_columns : list string :=
  ["pemasukan"; "pengeluaran"; "jumlahair"].

Definition categorical_columns : list string :=
  ["nopol"; "sopir"; "jenis transaksi"].

Definition sentinel : string := "Tidak Diketahui".

(** The label every header resolves to. *)
Definition canonical (l : string) : string :=
  rename_label column_mapping (normalise_label l).

(** [df['tanggal'] = pd.to_datetime(df['tanggal'], ...)] *)
Definition convert_dates (df : DataFrame) : attempt :=
  match getitem "tanggal" df with
  | Absent => Failed (KeyError "tanggal") (Some df)
  | SubFrame => Failed duplicate_keys (Some df)
  | OneSeries => Done (Frame.map_column "tanggal" to_datetime df)
  end.

(** [df[col].astype(str).str.replace('Rp', '').str.replace('.', '')] *)
Definition strip_currency (c : cell) : cell :=
  str_replace "." "" (str_replace "Rp" "" (Str (astype_str c))).

(** [pd.to_numeric(df[col], errors='coerce').fillna(0)] *)
Definition coerce_number (c : cell) : cell :=
  fillna (Num (NInt 0)) (to_numeric c).

(** One turn of the loop over the numeric columns. *)
Definition clean_numeric (col : string) (df : DataFrame) : attempt :=
  if Frame.has_column col df then
    match getitem col df with
    | SubFrame => Failed no_str_accessor (Some df)
    | _ =>
        let df1 := Frame.map_column col strip_currency df in
        Done (Frame.map_column col coerce_number df1)
    end
  else Done df.

Definition clean_numerics (df : DataFrame) : attempt :=
  fold_left (fun a col => a >>= clean_numeric col) numeric_columns (Done df).

(** One turn of the loop over the categorical columns. *)
Definition fill_categorical (col : string) (df : DataFrame) : DataFrame :=
  if Frame.has_column col df
  then Frame.map_column col (fillna (Str sentinel)) df
  else df.

Definition fill_categoricals (df : DataFrame) : DataFrame :=
  fold_left (fun d col => fill_categorical col d) categorical_columns df.

(** [Series.dt.strftime('%Y-%m (%B)')] on one value. *)
Definition strftime (c : cell) : cell :=
  match c with
  | Timestamp y m _ => Str (Render.strftime_month y m)
  | _ => NaN
  end.

(** [df['Nama_Bulan'] = df['tanggal'].dt.strftime('%Y-%m (%B)')] *)
Definition add_month (df : DataFrame) : DataFrame :=
  Frame.set_column "Nama_Bulan"
    (fun i => strftime (Frame.column "tanggal" df i)) df.

(** The body of the [try] block. *)
Definition try_body (r : csv_read) : attempt :=
  match r with
  | ReadError msg => Failed (ReadFailure msg) None
  | ReadOk df0 =>
      let df1 := Frame.map_labels normalise_label df0 in
      let df2 := Frame.map_labels (rename_label column_mapping) df1 in
      convert_dates df2 >>= fun df3 =>
      clean_numerics (Frame.dropna ["tanggal"] df3) >>= fun df4 =>
      Done (add_month (fill_categoricals df4))
  end.

Definition failure_message (e : exn) : string :=
  ("Gagal memuat keuangan_data.csv: " ++ str_exn e)%string.

(** The whole function: the [except] clause reports the exception, then
    reads the local variable [df], which is unbound when [pd.read_csv]
    itself raised. *)
Definition load_keuangan_data (r : csv_read)
  : list ui_event * outcome (option DataFrame) :=
  match try_body r with
  | Done df => ([], Return (Some df))
  | Failed e (Some df) =>
      ([StError (failure_message e);
        StWrite "Struktur data yang ditemukan:" (Frame.labels df)],
       Return None)
  | Failed e None =>
      ([StError (failure_message e)], Raise (UnboundLocalError "df"))
  end.

End Keuangan.

(** ** [load_gps_data] *)

Module Gps.

Definition coordinate_columns : list string := ["latitude"; "longitude"].

Definition no_valid_data : string :=
  "Tidak ada data GPS valid yang dapat ditampilkan".

Definition failure_message (e : exn) : string :=
  ("Gagal memuat data_gps.csv: " ++ str_exn e)%string.

(** [if 'nama lokasi' in df.columns: df = df.rename(...)] *)
Definition rename_location (df : DataFrame) : DataFrame :=
  if Frame.has_column "nama lokasi" df
  then Frame.map_labels (rename_label [("nama lokasi", "lokasi")]) df
  else df.

(** [pd.to_numeric(df[col].astype(str).str.replace(',', '.'), ...)] *)
Definition coerce_coordinate (c : cell) : cell :=
  to_numeric (str_replace "," "." (Str (astype_str c))).

(** One turn of the loop over the coordinate columns. *)
Definition convert_coordinate (col : string) (df : DataFrame) : attempt :=
  match getitem col df with
  | Absent => Failed (KeyError col) (Some df)
  | SubFrame => Failed no_str_accessor (Some df)
  | OneSeries => Done (Frame.map_column col coerce_coordinate df)
  end.

Definition convert_coordinates (df : DataFrame) : attempt :=
  fold_left (fun a col => a >>= convert_coordinate col)
            coordinate_columns (Done df).

(** [Series.between(lo, hi)] on one value, both ends included. *)
Definition between (lo hi : Z) (c : cell) : bool :=
  match c with
  | Num n =>
      Qle_bool (inject_Z lo) (number_value n)
      && Qle_bool (number_value n) (inject_Z hi)
  | _ => false
  end.

(** [df[df['latitude'].between(-90, 90) & df['longitude'].between(-180, 180)]] *)
Definition in_range (df : DataFrame) : DataFrame :=
  Frame.select_rows
    (fun i => between (-90) 90 (Frame.column "latitude" df i)
              && between (-180) 180 (Frame.column "longitude" df i))
    df.

(** The [try] block up to the emptiness test. *)
Definition try_body (r : csv_read) : attempt :=
  match r with
  | ReadError msg => Failed (ReadFailure msg) None
  | ReadOk df0 =>
      let df1 := Frame.map_labels normalise_label df0 in
      convert_coordinates (rename_location df1) >>= fun df2 =>
      Done (in_range (Frame.dropna coordinate_columns df2))
  end.

Definition load_gps_data (r : csv_read)
  : list ui_event * outcome (option DataFrame) :=
  match try_body r with
  | Done df =>
      if Frame.empty df
      then ([StError no_valid_data], Return None)
      else ([], Return (Some df))
  | Failed e _ => ([StError (failure_message e)], Return None)
  end.

End Gps.

(** ** The gate at the top of [main] *)

(** How a run of [main] goes on after the two loads: the script is stopped
    by [st.stop()], an exception escapes, or the test of line 115 is
    passed and the views of lines 118 to 204, which are not part of this
    function, are rendered from the two tables. *)
Inductive run : Type :=
  | Stopped
  | Crashed (e : exn)
  | Rendered (df_keuangan df_gps : DataFrame).

Definition main (keuangan gps : csv_read) : list ui_event * run :=
  let (ev1, r1) := Keuangan.load_keuangan_data keuangan in
  match r1 with
  | Raise e => (ev1, Crashed e)
  | Return df_keuangan =>
      let (ev2, r2) := Gps.load_gps_data gps in
      match r2 with
      | Raise e => (ev1 ++ ev2, Crashed e)
      | Return df_gps =>
          match df_keuangan, df_gps with
          | Some k, Some g => (ev1 ++ ev2, Rendered k g)
          | _, _ => (ev1 ++ ev2, Stopped)
          end
      end
  end.

(** ** Derived views, used to state the results *)

Module View.

(** What the financial pipeline does to the values of a column, as a
    function of the column's canonical label. *)
Definition clean_value (c : string) : cell -> cell :=
  if String.eqb c "tanggal" then to_datetime
  else if existsb (String.eqb c) Keuangan.numeric_columns
       then fun v => Keuangan.coerce_number (Keuangan.strip_currency v)
  else if existsb (String.eqb c) Keuangan.categorical_columns
       then fillna (Str Keuangan.sentinel)
  else fun v => v.

Definition clean_column (p : string * Series) : string * Series :=
  (Keuangan.canonical (fst p),
   fun i => clean_value (Keuangan.canonical (fst p)) (snd p i)).

(** The frame with its headers resolved to canonical labels. *)
Definition relabel (df : DataFrame) : DataFrame :=
  Frame.map_labels (rename_label Keuangan.column_mapping)
    (Frame.map_labels normalise_label df).

(** The rows that survive the date filter. *)
Definition dated_rows (df : DataFrame) : list nat :=
  index (Frame.dropna ["tanggal"]
           (Frame.map_column "tanggal" to_datetime (relabel df))).

(** The table a successful financial load returns. *)
Definition cleaned (df : DataFrame) : DataFrame :=
  Keuangan.add_month
    (mkDataFrame (dated_rows df) (map clean_column (columns df))).

(** The condition under which the financial load returns a table. *)
Definition loadable (df : DataFrame) : bool :=
  (Frame.count_label "tanggal" (relabel df) =? 1)%nat
  && forallb (fun c => (Frame.count_label c (relabel df) <=? 1)%nat)
             Keuangan.numeric_columns.

(** A label that is not among [gone]. *)
Definition kept (gone : list string) (l : string) : bool :=
  negb (existsb (String.eqb l) gone).

(** A header that does not resolve to a label among [gone]. *)
Definition kept_header (gone : list string) (l : string) : bool :=
  kept gone (Keuangan.canonical l).

(** The table without the columns labelled in [gone]. *)
Definition without (gone : list string) (df : DataFrame) : DataFrame :=
  Frame.only (kept gone) df.

(** The file without the columns whose header resolves to a label in
    [gone]. *)
Definition lacking (gone : list string) (df : DataFrame) : DataFrame :=
  Frame.only (kept_header gone) df.

(** Groups of characters written with a point between them, as the groups
    of three digits of an amount are. *)
Fixpoint dotted (groups : list (list ascii)) : list ascii :=
  match groups with
  | [] => []
  | [g] => g
  | g :: rest => g ++ "."%char :: dotted rest
  end.

(** The GPS frame with its headers resolved. *)
Definition gps_relabel (df : DataFrame) : DataFrame :=
  Gps.rename_location (Frame.map_labels normalise_label df).

(** The table a successful GPS load returns. *)
Definition gps_cleaned (df : DataFrame) : DataFrame :=
  Gps.in_range
    (Frame.dropna Gps.coordinate_columns
       (Frame.map_column "longitude" Gps.coerce_coordinate
          (Frame.map_column "latitude" Gps.coerce_coordinate
             (gps_relabel df)))).

(** The condition under which the GPS [try] block raises nothing. *)
Definition gps_loadable (df : DataFrame) : bool :=
  (Frame.count_label "latitude" (gps_relabel df) =? 1)%nat
  && (Frame.count_label "longitude" (gps_relabel df) =? 1)%nat.

(** The coordinates of a row of the file, as the loader coerces them. *)
Definition latitude_of (df : DataFrame) (i : nat) : cell :=
  Gps.coerce_coordinate (Frame.column "latitude" (gps_relabel df) i).

Definition longitude_of (df : DataFrame) (i : nat) : cell :=
  Gps.coerce_coordinate (Frame.column "longitude" (gps_relabel df) i).

(** A date written in the format ['%d/%m/%Y']. *)
Definition date_text (y m d : Z) : string :=
  Text.text (Render.zero_pad 2 d ++ "/"%char :: Render.zero_pad 2 m
               ++ "/"%char :: Render.zero_pad 4 y).

(** The text that [pd.to_numeric] is given for an amount, and for a
    coordinate. *)
Definition amount_text (c : cell) : string :=
  Text.replace "." "" (Text.replace "Rp" "" (astype_str c)).

Definition coordinate_text (c : cell) : string :=
  Text.replace "," "." (astype_str c).

(** A printable character that occurs in no numeric literal of any
    reader of numbers: no digit, sign, point, comma or underscore, no
    exponent marker, none of the letters of [inf], [infinity] and [nan],
    and neither [x] nor [j]. *)
Definition foreign (c : ascii) : bool :=
  let n := nat_of_ascii c in
  ((33 <=? n) && (n <=? 126))%nat
  && negb (Text.is_digit c)
  && negb (existsb (Ascii.eqb (Text.lower_char c))
                   (Text.chars "+-.,_einftyaxjd")).

(** The sign, the digits before the point and the digits after it of a
    plain numeral: an optional minus sign, digits, and possibly a point
    followed by digits. *)
Definition numeral_parts (l : list ascii)
  : option (bool * list ascii * list ascii) :=
  let (neg, l1) := match l with
                   | c :: t => if Ascii.eqb c "-" then (true, t)
                               else (false, l)
                   | [] => (false, [])
                   end in
  let (ip, r1) := Text.span_digits l1 in
  match ip, r1 with
  | _ :: _, [] => Some (neg, ip, [])
  | _ :: _, c :: t =>
      if Ascii.eqb c "." then
        let (fp, r2) := Text.span_digits t in
        match fp, r2 with
        | _ :: _, [] => Some (neg, ip, fp)
        | _, _ => None
        end
      else None
  | [], _ => None
  end.

(** A plain numeral of at most 15 digits.  A float64 holds such a number
    without loss: writing the float gives the numeral back, and two such
    numerals are in the order of their floats. *)
Definition short_numeral (l : list ascii) : bool :=
  match numeral_parts l with
  | Some (_, ip, fp) => (List.length (ip ++ fp) <=? 15)%nat
  | None => false
  end.

(** The texts that the model and [pd.to_numeric] read alike: a short
    numeral, the text of the missing value, or a text that holds a
    character foreign to numbers. *)
Definition plain_text (s : string) : bool :=
  short_numeral (Text.chars s) || String.eqb s "nan"
  || existsb foreign (Text.chars s).

(** An integer of any size is read alike as a coordinate: where a float64
    rounds it, it is far out of range. *)
Definition plain_coordinate (c : cell) : bool :=
  match c with
  | Num (NInt _) => true
  | _ => plain_text (coordinate_text c)
  end.

(** Every coordinate of the file is read alike. *)
Definition gps_plain (df : DataFrame) : bool :=
  forallb (fun i =>
             plain_coordinate (Frame.column "latitude" (gps_relabel df) i)
             && plain_coordinate
                  (Frame.column "longitude" (gps_relabel df) i))
          (index df).

End View.

(** ** The month filter of [main] *)

Module Dashboard.

Definition all_months_option : string := "Semua Bulan".

(** [Series.unique()]: the values in the order of their first
    appearance. *)
Fixpoint unique (l : list string) : list string :=
  match l with
  | [] => []
  | x :: t => x :: filter (fun y => negb (String.eqb x y)) (unique t)
  end.

Fixpoint insert (x : string) (l : list string) : list string :=
  match l with
  | [] => [x]
  | y :: t => if String.leb x y then x :: l else y :: insert x t
  end.

(** [sorted] on a list of texts, which Python compares code point by code
    point. *)
Definition sorted (l : list string) : list string :=
  fold_right insert [] l.

(** The values of a series when all of them are texts.  [sorted] on other
    values is outside the model. *)
Fixpoint texts (l : list cell) : option (list string) :=
  match l with
  | [] => Some []
  | Str s :: t => option_map (cons s) (texts t)
  | _ :: _ => None
  end.

(** [[all_months_option] + sorted(df_keuangan['Nama_Bulan'].unique())] *)
Definition bulan_list (df_keuangan : DataFrame) : option (list string) :=
  option_map (fun l => all_months_option :: sorted (unique l))
             (texts (Frame.values "Nama_Bulan" df_keuangan)).

(** [df_keuangan['Nama_Bulan'] == selected_month] on one value. *)
Definition is_month (selected_month : string) (c : cell) : bool :=
  match c with
  | Str s => String.eqb s selected_month
  | _ => false
  end.

(** [filtered_df], for the option picked in the select box. *)
Definition filtered (selected_month : string) (df_keuangan : DataFrame)
  : DataFrame :=
  if String.eqb selected_month all_months_option then df_keuangan
  else Frame.select_rows
         (fun i => is_month selected_month
                     (Frame.column "Nama_Bulan" df_keuangan i))
         df_keuangan.

(** The year of every date is written with four digits. *)
Definition four_digit_years (df : DataFrame) : bool :=
  forallb (fun i => match Frame.column "tanggal" df i with
                    | Timestamp y _ _ => (1000 <=? y) && (y <=? 9999)
                    | _ => true
                    end)
          (index df).

(** A month, as a year and a month of the year, comes before another. *)
Definition earlier (a b : Z * Z) : Prop :=
  fst a < fst b \/ (fst a = fst b /\ snd a < snd b).

Definition label (a : Z * Z) : string :=
  Render.strftime_month (fst a) (snd a).

(** The date of a row lies in the month [a]. *)
Definition in_month (a : Z * Z) (c : cell) : bool :=
  match c with
  | Timestamp y m _ => (y =? fst a) && (m =? snd a)
  | _ => false
  end.

End Dashboard.

(** ** Sample files *)

Module Samples.

(** The row of the specification's scenario. *)
Definition scenario : DataFrame :=
  Frame.of_records ["tanggal"; "nopol"; "pemasukan"]
    [[Str "15/03/2024"; Str "B1234XY"; Str "Rp1.500.000"]].

(** A file whose amounts are negative. *)
Definition negative : DataFrame :=
  Frame.of_records ["Tanggal"; "Pemasukan"; "Pengeluaran"; "Jumlah Air"]
    [[Str "15/03/2024"; Num (NInt (-500)); Str "Rp-2.000"; Num (NInt (-3))]].

(** A file with an unreadable date, missing categories and a header
    variant. *)
Definition mixed : DataFrame :=
  Frame.of_records
    [" Tanggal"; "Plat Nomor"; "Sopir"; "Jenis Transaksi"; "Pemasukan";
     "Pengeluaran"; "Volume (L)"; "Catatan"]
    [[Str "15/03/2024"; Str "B1234XY"; NaN; Str "Pengiriman";
      Str "Rp1.500.000"; Str "Rp250.000"; Num (NFloat 5000 0); NaN];
     [Str "not-a-date"; Str "B1234XY"; Str "Budi"; NaN;
      Str "Rp100.000"; NaN; Num (NFloat 1000 0); Str "x"];
     [Str "1/4/2024"; NaN; Str "Budi"; NaN;
      Str "gratis"; Str "Rp75.000"; NaN; NaN]].

(** A file without a date column. *)
Definition undated : DataFrame :=
  Frame.of_records ["Plat Nomor"; "Pemasukan"]
    [[Str "B1234XY"; Str "Rp1.500.000"]].

(** A file with nothing but dates. *)
Definition dates_only : DataFrame :=
  Frame.of_records ["Tanggal"] [[Str "15/03/2024"]; [Str "16/03/2024"]].

(** GPS points: decimal commas, a latitude out of range, a text that is
    no number. *)
Definition points : DataFrame :=
  Frame.of_records ["Nama Lokasi"; "Latitude"; "Longitude"]
    [[Str "Depo"; Str "1,234"; Str "103,456"];
     [Str "Kutub"; Str "95"; Str "110"];
     [Str "Entah"; Str "-6,5"; Str "timur"]].

(** GPS points that are all out of range. *)
Definition far_points : DataFrame :=
  Frame.of_records ["Nama Lokasi"; "Latitude"; "Longitude"]
    [[Str "Kutub"; Num (NInt 95); Num (NInt 110)]].

(** A file in which two headers are variants of the water-volume field. *)
Definition colliding : DataFrame :=
  Frame.of_records ["Tanggal"; "Volume (L)"; "Jumlah Air"]
    [[Str "15/03/2024"; Num (NInt 5000); Num (NInt 5000)]].

(** A file none of whose dates can be read. *)
Definition undatable : DataFrame :=
  Frame.of_records ["Tanggal"; "Sopir"; "Pemasukan"]
    [[Str "2024-03-15"; Str "Budi"; Str "Rp1.000"];
     [Str "31/02/2024"; Str "Budi"; Str "Rp2.000"];
     [NaN; Str "Adi"; Str "Rp3.000"]].

(** A GPS file without a longitude column. *)
Definition no_longitude : DataFrame :=
  Frame.of_records ["Nama Lokasi"; "Latitude"]
    [[Str "Depo"; Str "1,234"]].

(** Transactions of three months, not in the order of their dates. *)
Definition months : DataFrame :=
  Frame.of_records ["Tanggal"; "Pemasukan"]
    [[Str "15/03/2024"; Str "Rp1.000"];
     [Str "01/12/2023"; Str "Rp2.000"];
     [Str "20/03/2024"; Str "Rp3.000"];
     [Str "1/4/2024"; Str "Rp4.000"]].

(** A file whose plates are numbers. *)
Definition numbered : DataFrame :=
  Frame.of_records ["Tanggal"; "Nopol"; "Sopir"]
    [[Str "15/03/2024"; Num (NInt 7); Str "Budi"];
     [Str "16/03/2024"; Num (NInt 8); NaN]].

(** GPS points whose coordinates are whole numbers. *)
Definition points_int : DataFrame :=
  Frame.of_records ["Nama Lokasi"; "Latitude"; "Longitude"]
    [[Str "Depo"; Num (NInt (-6)); Num (NInt 107)];
     [Str "Kutub"; Num (NInt 95); Num (NInt 110)]].

End Samples.

(** Evaluation of the comparisons of two literal labels. *)
Ltac eval_label_tests :=
  repeat match goal with
  | |- context [String.eqb ?a ?b] =>
      let v := eval vm_compute in (String.eqb a b) in
      progress change (String.eqb a b) with v
  end.

(** * Results *)

(** ** Frames *)

Lemma on_label_pair_fst col f (p : string * Series) :
  fst (Frame.on_label col f p) = fst p.
Proof. unfold Frame.on_label. now destruct (String.eqb (fst p) col). Qed.

Section FrameFacts.

Variable df : DataFrame.

Lemma labels_map_column col f :
  Frame.labels (Frame.map_column col f df) = Frame.labels df.
Proof.
  unfold Frame.labels, Frame.map_column; simpl.
  rewrite map_map. apply map_ext. intros [l s].
  unfold Frame.on_label; simpl. now destruct (String.eqb l col).
Qed.

Lemma labels_select_rows keep :
  Frame.labels (Frame.select_rows keep df) = Frame.labels df.
Proof. reflexivity. Qed.

Lemma labels_map_labels f :
  Frame.labels (Frame.map_labels f df) = map f (Frame.labels df).
Proof.
  unfold Frame.labels, Frame.map_labels; simpl.
  now rewrite !map_map.
Qed.

Lemma has_column_false_iff col :
  Frame.has_column col df = false <-> ~ In col (Frame.labels df).
Proof.
  unfold Frame.has_column. split.
  - intros H Hin.
    assert (E : existsb (String.eqb col) (Frame.labels df) = true).
    { apply existsb_exists. exists col. split; [assumption|].
      apply String.eqb_refl. }
    congruence.
  - intros H. destruct (existsb _ _) eqn:E; [|reflexivity].
    apply existsb_exists in E. destruct E as [x [Hx E]].
    apply String.eqb_eq in E. subst x. contradiction.
Qed.

Lemma map_column_absent col f :
  Frame.has_column col df = false -> Frame.map_column col f df = df.
Proof.
  rewrite has_column_false_iff. destruct df as [idx cols].
  unfold Frame.map_column, Frame.labels; simpl. intros H. f_equal.
  induction cols as [|[l s] t IH]; simpl in *; [reflexivity|].
  unfold Frame.on_label at 1; simpl.
  destruct (String.eqb_spec l col) as [->|Hne].
  - exfalso. apply H. now left.
  - rewrite IH; [reflexivity|]. intros Hin. apply H. now right.
Qed.

End FrameFacts.

Lemma has_column_labels a b col :
  Frame.labels a = Frame.labels b ->
  Frame.has_column col a = Frame.has_column col b.
Proof. unfold Frame.has_column. now intros ->. Qed.

Lemma getitem_labels a b col :
  Frame.labels a = Frame.labels b -> getitem col a = getitem col b.
Proof. unfold getitem, Frame.count_label. now intros ->. Qed.

Lemma count_label_labels a b col :
  Frame.labels a = Frame.labels b ->
  Frame.count_label col a = Frame.count_label col b.
Proof. unfold Frame.count_label. now intros ->. Qed.

Lemma count_label_pos_has_column col d :
  (1 <= Frame.count_label col d)%nat -> Frame.has_column col d = true.
Proof.
  intros H. destruct (Frame.has_column col d) eqn:E; [reflexivity|].
  apply has_column_false_iff in E.
  apply (count_occ_not_In string_dec) in E.
  unfold Frame.count_label in H. lia.
Qed.

Lemma find_on_label c col f cols :
  find (fun p : string * Series => String.eqb (fst p) c)
       (map (Frame.on_label col f) cols)
  = option_map (Frame.on_label col f)
      (find (fun p : string * Series => String.eqb (fst p) c) cols).
Proof.
  induction cols as [|p t IH]; simpl; [reflexivity|].
  rewrite on_label_pair_fst.
  destruct (String.eqb (fst p) c); [reflexivity|exact IH].
Qed.

Lemma find_label_none c (cols : list (string * Series)) :
  find (fun p => String.eqb (fst p) c) cols = None ->
  ~ In c (map fst cols).
Proof.
  intros H Hin. apply in_map_iff in Hin. destruct Hin as [p [E Hin]].
  apply (find_none _ _ H) in Hin. simpl in Hin.
  rewrite E, String.eqb_refl in Hin. discriminate.
Qed.

Lemma find_label_some c (cols : list (string * Series)) p :
  find (fun p => String.eqb (fst p) c) cols = Some p ->
  In p cols /\ fst p = c.
Proof.
  intros H. apply find_some in H. destruct H as [Hin E].
  split; [assumption|]. now apply String.eqb_eq.
Qed.

Lemma column_map_column_same col f d i :
  Frame.has_column col d = true ->
  Frame.column col (Frame.map_column col f d) i = f (Frame.column col d i).
Proof.
  intros Hh. unfold Frame.column, Frame.map_column; simpl.
  rewrite find_on_label.
  destruct (find _ (columns d)) as [p|] eqn:E; simpl.
  - apply find_label_some in E. destruct E as [_ E].
    unfold Frame.on_label. rewrite E, String.eqb_refl. reflexivity.
  - apply find_label_none in E.
    apply has_column_false_iff in E. congruence.
Qed.

Lemma column_map_column_other c col f d :
  c <> col ->
  Frame.column c (Frame.map_column col f d) = Frame.column c d.
Proof.
  intros Hne. unfold Frame.column, Frame.map_column; simpl.
  rewrite find_on_label.
  destruct (find _ (columns d)) as [p|] eqn:E; simpl; [|reflexivity].
  apply find_label_some in E. destruct E as [_ E].
  unfold Frame.on_label. rewrite E.
  destruct (String.eqb_spec c col); [contradiction|reflexivity].
Qed.

Lemma column_absent c d i :
  Frame.has_column c d = false -> Frame.column c d i = NaN.
Proof.
  intros Hh. unfold Frame.column.
  destruct (find _ (columns d)) as [p|] eqn:E; [|reflexivity].
  apply find_label_some in E. destruct E as [Hin E].
  apply has_column_false_iff in Hh. exfalso. apply Hh.
  unfold Frame.labels. apply in_map_iff. now exists p.
Qed.

Lemma column_reindex c idx d :
  Frame.column c (mkDataFrame idx (columns d)) = Frame.column c d.
Proof. reflexivity. Qed.

Lemma column_select_rows c keep d :
  Frame.column c (Frame.select_rows keep d) = Frame.column c d.
Proof. reflexivity. Qed.

Lemma index_set_column k s d :
  index (Frame.set_column k s d) = index d.
Proof.
  unfold Frame.set_column. now destruct (Frame.has_column k d).
Qed.

Lemma column_set_column_same k s d :
  Frame.column k (Frame.set_column k s d) = s.
Proof.
  unfold Frame.set_column. destruct (Frame.has_column k d) eqn:Hh.
  - destruct d as [idx cols].
    unfold Frame.has_column, Frame.labels, Frame.column in *; simpl in *.
    induction cols as [|[l s0] t IH]; simpl in *; [discriminate|].
    rewrite (String.eqb_sym k l) in Hh.
    destruct (String.eqb l k) eqn:E; simpl.
    + now rewrite E.
    + rewrite E. apply IH. exact Hh.
  - apply has_column_false_iff in Hh. destruct d as [idx cols].
    unfold Frame.labels, Frame.column in *; simpl in *.
    induction cols as [|[l s0] t IH]; simpl in *.
    + now rewrite String.eqb_refl.
    + destruct (String.eqb_spec l k) as [->|Hne].
      * exfalso. apply Hh. now left.
      * apply IH. intros Hin. apply Hh. now right.
Qed.

Lemma column_set_column_other c k s d :
  c <> k -> Frame.column c (Frame.set_column k s d) = Frame.column c d.
Proof.
  intros Hne. unfold Frame.set_column.
  destruct (Frame.has_column k d); destruct d as [idx cols];
    unfold Frame.column; simpl.
  - induction cols as [|[l s0] t IH]; simpl; [reflexivity|].
    destruct (String.eqb_spec l k) as [->|Hlk]; simpl.
    + destruct (String.eqb_spec k c) as [->|_]; [contradiction|exact IH].
    + destruct (String.eqb l c); [reflexivity|exact IH].
  - induction cols as [|[l s0] t IH]; simpl.
    + destruct (String.eqb_spec k c) as [->|_]; [contradiction|reflexivity].
    + destruct (String.eqb l c); [reflexivity|exact IH].
Qed.

(** The columns that carry a label other than the one assigned to are
    those of the frame before the assignment. *)
Lemma In_set_column_other c k s0 s d :
  c <> k ->
  In (c, s) (columns (Frame.set_column k s0 d)) <-> In (c, s) (columns d).
Proof.
  intros Hne. unfold Frame.set_column.
  destruct (Frame.has_column k d); simpl.
  - rewrite in_map_iff. split.
    + intros [[l s1] [E Hin]]. simpl in E.
      destruct (String.eqb_spec l k) as [->|_].
      * inversion E. congruence.
      * now rewrite <- E.
    + intros Hin. exists (c, s). split; [|assumption]. simpl.
      destruct (String.eqb_spec c k); [contradiction|reflexivity].
  - rewrite in_app_iff. simpl. split.
    + intros [H|[H|[]]]; [assumption|]. inversion H. congruence.
    + intros H. now left.
Qed.

(** ** The financial pipeline in closed form *)

Section KeuanganFacts.

Import Keuangan View.

Lemma clean_numeric_once col d :
  (Frame.count_label col d <= 1)%nat ->
  clean_numeric col d
  = Done (Frame.map_column col coerce_number
            (Frame.map_column col strip_currency d)).
Proof.
  intros Hc. unfold clean_numeric.
  destruct (Frame.has_column col d) eqn:Hh.
  - unfold getitem. destruct (Frame.count_label col d) as [|[|n]];
      [reflexivity|reflexivity|lia].
  - rewrite (map_column_absent d col strip_currency Hh).
    now rewrite (map_column_absent d col coerce_number Hh).
Qed.

Lemma clean_numeric_twice col d :
  Frame.has_column col d = true ->
  (2 <= Frame.count_label col d)%nat ->
  clean_numeric col d = Failed no_str_accessor (Some d).
Proof.
  intros Hh Hc. unfold clean_numeric, getitem. rewrite Hh.
  destruct (Frame.count_label col d) as [|[|n]]; [lia|lia|reflexivity].
Qed.

Lemma fill_categorical_map col d :
  fill_categorical col d
  = Frame.map_column col (fillna (Str sentinel)) d.
Proof.
  unfold fill_categorical. destruct (Frame.has_column col d) eqn:Hh.
  - reflexivity.
  - now rewrite map_column_absent.
Qed.

Lemma on_label_pair col f c (s : Series) :
  Frame.on_label col f (c, s)
  = (c, if String.eqb c col then fun i => f (s i) else s).
Proof.
  unfold Frame.on_label; simpl. now destruct (String.eqb c col).
Qed.

(** One column through every step of the pipeline. *)
Lemma clean_column_steps (l : string) (s : Series) :
  Frame.on_label "jenis transaksi" (fillna (Str sentinel))
    (Frame.on_label "sopir" (fillna (Str sentinel))
      (Frame.on_label "nopol" (fillna (Str sentinel))
        (Frame.on_label "jumlahair" coerce_number
          (Frame.on_label "jumlahair" strip_currency
            (Frame.on_label "pengeluaran" coerce_number
              (Frame.on_label "pengeluaran" strip_currency
                (Frame.on_label "pemasukan" coerce_number
                  (Frame.on_label "pemasukan" strip_currency
                    (Frame.on_label "tanggal" to_datetime
                       (canonical l, s))))))))))
  = clean_column (l, s).
Proof.
  rewrite !on_label_pair.
  unfold clean_column, clean_value.
  cbv beta iota delta [fst snd existsb numeric_columns categorical_columns].
  generalize (canonical l) as c. intros c.
  destruct (String.eqb_spec c "tanggal") as [->|H1];
    [eval_label_tests; reflexivity|].
  destruct (String.eqb_spec c "pemasukan") as [->|H2];
    [eval_label_tests; reflexivity|].
  destruct (String.eqb_spec c "pengeluaran") as [->|H3];
    [eval_label_tests; reflexivity|].
  destruct (String.eqb_spec c "jumlahair") as [->|H4];
    [eval_label_tests; reflexivity|].
  destruct (String.eqb_spec c "nopol") as [->|H5];
    [eval_label_tests; reflexivity|].
  destruct (String.eqb_spec c "sopir") as [->|H6];
    [eval_label_tests; reflexivity|].
  destruct (String.eqb_spec c "jenis transaksi") as [->|H7];
    eval_label_tests; reflexivity.
Qed.

Lemma loadable_counts df :
  loadable df = true ->
  Frame.count_label "tanggal" (relabel df) = 1%nat
  /\ (Frame.count_label "pemasukan" (relabel df) <= 1)%nat
  /\ (Frame.count_label "pengeluaran" (relabel df) <= 1)%nat
  /\ (Frame.count_label "jumlahair" (relabel df) <= 1)%nat.
Proof.
  unfold loadable, numeric_columns; simpl forallb.
  rewrite !andb_true_iff, Nat.eqb_eq, !Nat.leb_le. tauto.
Qed.

(** A loadable frame goes through the [try] block without an exception,
    and comes out in closed form. *)
Lemma try_body_loadable df :
  loadable df = true -> try_body (ReadOk df) = Done (cleaned df).
Proof.
  intros H. destruct (loadable_counts df H) as (Ht & H1 & H2 & H3).
  unfold try_body. fold (relabel df).
  set (d2 := relabel df) in *.
  unfold convert_dates, getitem. rewrite Ht. simpl and_then.
  set (d4 := Frame.dropna ["tanggal"]
               (Frame.map_column "tanggal" to_datetime d2)).
  assert (L4 : Frame.labels d4 = Frame.labels d2).
  { unfold d4, Frame.dropna. rewrite labels_select_rows.
    apply labels_map_column. }
  unfold clean_numerics, numeric_columns; simpl fold_left.
  rewrite clean_numeric_once
    by (rewrite (count_label_labels d4 d2) by exact L4; exact H1).
  simpl and_then.
  rewrite clean_numeric_once
    by (erewrite count_label_labels;
        [exact H2 | now rewrite !labels_map_column]).
  simpl and_then.
  rewrite clean_numeric_once
    by (erewrite count_label_labels;
        [exact H3 | now rewrite !labels_map_column]).
  simpl and_then.
  unfold fill_categoricals, categorical_columns; simpl fold_left.
  rewrite !fill_categorical_map.
  unfold cleaned. do 2 f_equal.
  unfold Frame.map_column; simpl index; simpl columns.
  f_equal.
  unfold d4, Frame.dropna, Frame.select_rows, Frame.map_column;
    simpl columns.
  unfold d2, relabel, Frame.map_labels; simpl columns.
  rewrite !map_map. apply map_ext. intros [l s]. simpl fst; simpl snd.
  apply clean_column_steps.
Qed.

(** A frame that is not loadable raises inside the [try] block, after
    [df] was bound. *)
Lemma try_body_not_loadable df :
  loadable df = false ->
  exists e d, try_body (ReadOk df) = Failed e (Some d).
Proof.
  intros H. unfold try_body. fold (relabel df).
  set (d2 := relabel df) in *.
  unfold loadable in H. fold d2 in H.
  unfold convert_dates, getitem.
  destruct (Frame.count_label "tanggal" d2) as [|[|n]] eqn:Ht;
    [simpl; eauto| |simpl; eauto].
  simpl and_then. simpl in H.
  set (d4 := Frame.dropna ["tanggal"]
               (Frame.map_column "tanggal" to_datetime d2)).
  assert (L4 : Frame.labels d4 = Frame.labels d2).
  { unfold d4, Frame.dropna. rewrite labels_select_rows.
    apply labels_map_column. }
  assert (step : forall col d,
             Frame.labels d = Frame.labels d2 ->
             (Frame.count_label col d2 <=? 1)%nat = false ->
             clean_numeric col d = Failed no_str_accessor (Some d)).
  { intros col d L Hc. apply Nat.leb_gt in Hc.
    rewrite <- (count_label_labels d d2 col L) in Hc.
    apply clean_numeric_twice; [|lia].
    apply count_label_pos_has_column. lia. }
  assert (once : forall col d,
             Frame.labels d = Frame.labels d2 ->
             (Frame.count_label col d2 <=? 1)%nat = true ->
             clean_numeric col d
             = Done (Frame.map_column col coerce_number
                       (Frame.map_column col strip_currency d))).
  { intros col d L Hc. apply Nat.leb_le in Hc.
    rewrite <- (count_label_labels d d2 col L) in Hc.
    now apply clean_numeric_once. }
  unfold clean_numerics, numeric_columns; simpl fold_left.
  destruct (Frame.count_label "pemasukan" d2 <=? 1)%nat eqn:H1.
  2:{ rewrite (step _ _ L4 H1). simpl. eauto. }
  rewrite (once _ _ L4 H1). simpl and_then.
  match goal with |- context [clean_numeric "pengeluaran" ?d] =>
    set (d5 := d) end.
  assert (L5 : Frame.labels d5 = Frame.labels d2).
  { unfold d5. now rewrite !labels_map_column. }
  destruct (Frame.count_label "pengeluaran" d2 <=? 1)%nat eqn:H2.
  2:{ rewrite (step _ _ L5 H2). simpl. eauto. }
  rewrite (once _ _ L5 H2). simpl and_then.
  match goal with |- context [clean_numeric "jumlahair" ?d] =>
    set (d6 := d) end.
  assert (L6 : Frame.labels d6 = Frame.labels d2).
  { unfold d6. now rewrite !labels_map_column. }
  destruct (Frame.count_label "jumlahair" d2 <=? 1)%nat eqn:H3.
  2:{ rewrite (step _ _ L6 H3). simpl. eauto. }
  simpl in H. discriminate.
Qed.

(** The financial load returns a table exactly on the loadable frames, and
    the table is the closed form. *)
Lemma load_keuangan_success df ev out :
  load_keuangan_data (ReadOk df) = (ev, Return (Some out)) ->
  loadable df = true /\ ev = [] /\ out = cleaned df.
Proof.
  unfold load_keuangan_data. intros H.
  destruct (loadable df) eqn:L.
  - rewrite (try_body_loadable df L) in H. inversion H. auto.
  - destruct (try_body_not_loadable df L) as (e & d & E).
    rewrite E in H. discriminate.
Qed.

Lemma load_keuangan_loadable df :
  loadable df = true ->
  load_keuangan_data (ReadOk df) = ([], Return (Some (cleaned df))).
Proof.
  intros L. unfold load_keuangan_data. now rewrite try_body_loadable.
Qed.

Lemma columns_relabel df :
  columns (relabel df)
  = map (fun p => (canonical (fst p), snd p)) (columns df).
Proof.
  unfold relabel, Frame.map_labels; simpl. rewrite map_map.
  apply map_ext. now intros [l s].
Qed.

Lemma find_relabel c (cols : list (string * Series)) :
  find (fun p => String.eqb (fst p) c)
       (map (fun p => (canonical (fst p), snd p)) cols)
  = option_map (fun p => (canonical (fst p), snd p))
      (find (fun p => String.eqb (canonical (fst p)) c) cols).
Proof.
  induction cols as [|p t IH]; simpl; [reflexivity|].
  destruct (String.eqb (canonical (fst p)) c); [reflexivity|exact IH].
Qed.

Lemma find_clean_column c (cols : list (string * Series)) :
  find (fun p => String.eqb (fst p) c) (map clean_column cols)
  = option_map clean_column
      (find (fun p => String.eqb (canonical (fst p)) c) cols).
Proof.
  induction cols as [|p t IH]; simpl; [reflexivity|].
  destruct (String.eqb (canonical (fst p)) c); [reflexivity|exact IH].
Qed.

Lemma index_cleaned df : index (cleaned df) = dated_rows df.
Proof. unfold cleaned, add_month. now rewrite index_set_column. Qed.

(** A cleaned column holds the cleaned values of the input column. *)
Lemma column_cleaned c df i :
  c <> "Nama_Bulan" ->
  Frame.has_column c (relabel df) = true ->
  Frame.column c (cleaned df) i
  = clean_value c (Frame.column c (relabel df) i).
Proof.
  intros Hne Hh. unfold cleaned, add_month.
  rewrite column_set_column_other by assumption.
  unfold Frame.column at 1 2. cbn [columns].
  rewrite columns_relabel, find_clean_column, find_relabel.
  destruct (find _ (columns df)) as [p|] eqn:E; simpl.
  - apply find_some in E. destruct E as [_ E].
    apply String.eqb_eq in E. now rewrite E.
  - exfalso.
    assert (N : Frame.has_column c (relabel df) = false).
    { apply has_column_false_iff.
      unfold Frame.labels. rewrite columns_relabel.
      apply (find_label_none c).
      rewrite find_relabel, E. reflexivity. }
    congruence.
Qed.

Lemma column_month df i :
  Frame.column "Nama_Bulan" (cleaned df) i
  = strftime (Frame.column "tanggal" (cleaned df) i).
Proof.
  unfold cleaned at 1, add_month.
  rewrite column_set_column_same.
  unfold cleaned, add_month.
  rewrite column_set_column_other by discriminate. reflexivity.
Qed.

(** Every column of the cleaned table other than the month bucket is an
    input column under its canonical label, with cleaned values. *)
Lemma In_columns_cleaned c s df :
  c <> "Nama_Bulan" ->
  In (c, s) (columns (cleaned df)) ->
  exists l s0, In (l, s0) (columns df) /\ canonical l = c
               /\ s = fun i => clean_value c (s0 i).
Proof.
  intros Hne Hin. unfold cleaned, add_month in Hin.
  apply In_set_column_other in Hin; [|assumption]. simpl in Hin.
  apply in_map_iff in Hin. destruct Hin as [[l s0] [E Hin]].
  unfold clean_column in E; simpl in E. inversion E; subst.
  exists l, s0. auto.
Qed.

(** The rows kept by the date filter. *)
Lemma In_dated_rows df i :
  In i (dated_rows df) <->
  In i (index df)
  /\ isna (to_datetime (Frame.column "tanggal" (relabel df) i)) = false.
Proof.
  unfold dated_rows, Frame.dropna, Frame.select_rows; simpl index.
  rewrite filter_In. simpl forallb. rewrite andb_true_r, negb_true_iff.
  destruct (Frame.has_column "tanggal" (relabel df)) eqn:Hh.
  - now rewrite column_map_column_same.
  - rewrite map_column_absent by assumption.
    now rewrite (column_absent _ _ i Hh).
Qed.

Lemma labels_relabel df :
  Frame.labels (relabel df) = map canonical (Frame.labels df).
Proof.
  unfold Frame.labels. rewrite columns_relabel, !map_map. reflexivity.
Qed.

Lemma column_present c d i :
  Frame.column c d i <> NaN -> Frame.has_column c d = true.
Proof.
  intros H. destruct (Frame.has_column c d) eqn:E; [reflexivity|].
  now rewrite (column_absent c d i E) in H.
Qed.

Lemma to_datetime_cases v :
  to_datetime v = NaN \/ exists y m d, to_datetime v = Timestamp y m d.
Proof.
  destruct v as [|s|n|y m d]; simpl; eauto.
  - destruct (Parse.date_of_string s) as [[[y m] d]|]; eauto.
  - destruct (Parse.date_of_string _) as [[[y m] d]|]; eauto.
Qed.


Lemma clean_value_numeric c :
  In c numeric_columns ->
  clean_value c = fun v => coerce_number (strip_currency v).
Proof.
  intros [<-|[<-|[<-|[]]]]; reflexivity.
Qed.

Lemma clean_value_categorical c :
  In c categorical_columns -> clean_value c = fillna (Str sentinel).
Proof.
  intros [<-|[<-|[<-|[]]]]; reflexivity.
Qed.

End KeuanganFacts.

Lemma In_column c d :
  Frame.has_column c d = true -> In (c, Frame.column c d) (columns d).
Proof.
  intros Hh. unfold Frame.column.
  destruct (find _ (columns d)) as [[l s]|] eqn:E.
  - apply find_label_some in E. destruct E as [Hin E].
    simpl in E. subst l. exact Hin.
  - apply find_label_none in E. apply has_column_false_iff in E. congruence.
Qed.

(** ** The financial loader *)


(** C3: a row whose date cell is ["15/03/2024"] and whose income cell is
    ["Rp1.500.000"] comes out of a successful load with the date
    2024-03-15, the income 1500000 and the month bucket
    ["2024-03 (March)"]. *)
Theorem scenario_row_is_parsed df ev out i :
  Keuangan.load_keuangan_data (ReadOk df) = (ev, Return (Some out)) ->
  In i (index df) ->
  Frame.column "tanggal" (View.relabel df) i = Str "15/03/2024" ->
  Frame.column "pemasukan" (View.relabel df) i = Str "Rp1.500.000" ->
  In i (index out)
  /\ Frame.column "tanggal" out i = Timestamp 2024 3 15
  /\ Frame.column "pemasukan" out i = Num (NInt 1500000)
  /\ number_value (NInt 1500000) = inject_Z 1500000
  /\ Frame.column "Nama_Bulan" out i = Str "2024-03 (March)".
Proof.
  intros Hload Hi Hd Hp.
  apply load_keuangan_success in Hload. destruct Hload as (_ & _ & ->).
  assert (Ed : Frame.column "tanggal" (View.cleaned df) i
               = Timestamp 2024 3 15).
  { rewrite column_cleaned; [|discriminate|].
    - rewrite Hd. reflexivity.
    - apply (column_present _ _ i). rewrite Hd. discriminate. }
  split.
  { rewrite index_cleaned. apply In_dated_rows. split; [exact Hi|].
    rewrite Hd. reflexivity. }
  split; [exact Ed|]. split.
  { rewrite column_cleaned; [|discriminate|].
    - rewrite Hp. reflexivity.
    - apply (column_present _ _ i). rewrite Hp. discriminate. }
  split; [reflexivity|].
  rewrite column_month, Ed. reflexivity.
Qed.

Lemma scenario_row_is_parsed_witness :
  In 0%nat (index (View.cleaned Samples.scenario))
  /\ Frame.column "tanggal" (View.cleaned Samples.scenario) 0%nat
     = Timestamp 2024 3 15
  /\ Frame.column "pemasukan" (View.cleaned Samples.scenario) 0%nat
     = Num (NInt 1500000)
  /\ number_value (NInt 1500000) = inject_Z 1500000
  /\ Frame.column "Nama_Bulan" (View.cleaned Samples.scenario) 0%nat
     = Str "2024-03 (March)".
Proof.
  apply (scenario_row_is_parsed Samples.scenario []).
  - apply load_keuangan_loadable. vm_compute. reflexivity.
  - simpl. auto.
  - reflexivity.
  - reflexivity.
Defined.

Section DateFormat.

Import Text.

Lemma valid_date_bounds y m d :
  Parse.valid_date y m d = true ->
  1 <= y /\ 1 <= m <= 12 /\ 1 <= d <= 31.
Proof.
  unfold Parse.valid_date. rewrite !andb_true_iff, !Z.leb_le.
  intros [[[[Hy Hm1] Hm2] Hd1] Hd2].
  assert (Parse.days_in_month y m <= 31).
  { unfold Parse.days_in_month.
    destruct m as [|[[[|[]|]|[[]|[]|]|]|[[|[]|]|[[]|[]|]|]|]|];
      try lia; destruct (Parse.is_leap y); lia. }
  lia.
Qed.

Lemma digit_not_slash c : is_digit c = true -> Ascii.eqb c "/" = false.
Proof.
  destruct c as [[] [] [] [] [] [] [] []]; vm_compute; intros H;
    try discriminate H; reflexivity.
Qed.

Lemma split_on_field a r :
  forallb is_digit a = true ->
  split_on "/" (a ++ "/"%char :: r) = a :: split_on "/" r.
Proof.
  induction a as [|c t IH]; intros Ha; [reflexivity|].
  simpl in Ha. apply andb_true_iff in Ha. destruct Ha as [Hc Ht].
  cbn [app split_on]. now rewrite (digit_not_slash c Hc), (IH Ht).
Qed.

Lemma split_on_last a :
  forallb is_digit a = true -> split_on "/" a = [a].
Proof.
  induction a as [|c t IH]; intros Ha; [reflexivity|].
  simpl in Ha. apply andb_true_iff in Ha. destruct Ha as [Hc Ht].
  cbn [split_on]. now rewrite (digit_not_slash c Hc), (IH Ht).
Qed.

Lemma checked_range (P : Z -> bool) lo n :
  forallb (fun k => P (Z.of_nat k)) (seq lo n) = true ->
  forall z, Z.of_nat lo <= z < Z.of_nat lo + Z.of_nat n -> P z = true.
Proof.
  intros H z Hz. rewrite forallb_forall in H.
  specialize (H (Z.to_nat z)). rewrite Z2Nat.id in H by lia.
  apply H, in_seq. lia.
Qed.

Lemma field_read (field : list ascii -> option Z) w lo n :
  forallb (fun k => forallb is_digit (Render.zero_pad w (Z.of_nat k))
                    && match field (Render.zero_pad w (Z.of_nat k)) with
                       | Some v => v =? Z.of_nat k
                       | None => false
                       end)
          (seq lo n) = true ->
  forall z, Z.of_nat lo <= z < Z.of_nat lo + Z.of_nat n ->
    forallb is_digit (Render.zero_pad w z) = true
    /\ field (Render.zero_pad w z) = Some z.
Proof.
  intros H z Hz.
  pose proof (checked_range
                (fun z => forallb is_digit (Render.zero_pad w z)
                          && match field (Render.zero_pad w z) with
                             | Some v => v =? z
                             | None => false
                             end) lo n H z Hz) as C.
  cbv beta in C. apply andb_true_iff in C. destruct C as [C1 C2].
  split; [exact C1|].
  destruct (field (Render.zero_pad w z)) as [v|]; [|discriminate].
  apply Z.eqb_eq in C2. now subst.
Qed.

Lemma day_field_read d :
  1 <= d <= 31 ->
  forallb is_digit (Render.zero_pad 2 d) = true
  /\ Parse.day_field (Render.zero_pad 2 d) = Some d.
Proof.
  intros H. apply (field_read Parse.day_field 2 1 31); [|lia].
  vm_compute. reflexivity.
Qed.

Lemma month_field_read m :
  1 <= m <= 12 ->
  forallb is_digit (Render.zero_pad 2 m) = true
  /\ Parse.month_field (Render.zero_pad 2 m) = Some m.
Proof.
  intros H. apply (field_read Parse.month_field 2 1 12); [|lia].
  vm_compute. reflexivity.
Qed.

Lemma year_field_read y :
  1678 <= y <= 2261 ->
  forallb is_digit (Render.zero_pad 4 y) = true
  /\ Parse.year_field (Render.zero_pad 4 y) = Some y.
Proof.
  intros H. apply (field_read Parse.year_field 4 1678 584); [|lia].
  vm_compute. reflexivity.
Qed.

(** A date of the calendar written in the format is read back. *)
Lemma date_text_read y m d :
  Parse.valid_date y m d = true ->
  1678 <= y <= 2261 ->
  Parse.date_of_string (View.date_text y m d) = Some (y, m, d).
Proof.
  intros V Hy. pose proof (valid_date_bounds y m d V) as (_ & Hm & Hd).
  destruct (day_field_read d Hd) as [Dd Fd].
  destruct (month_field_read m Hm) as [Dm Fm].
  destruct (year_field_read y Hy) as [Dy Fy].
  unfold Parse.date_of_string, View.date_text.
  change (chars (Text.text ?l)) with (list_ascii_of_string
                                        (string_of_list_ascii l)).
  rewrite list_ascii_of_string_of_list_ascii.
  rewrite (split_on_field _ _ Dd), (split_on_field _ _ Dm),
    (split_on_last _ Dy).
  now rewrite Fd, Fm, Fy, V.
Qed.

End DateFormat.

(** C4: the date column is parsed with the one format [%d/%m/%Y] and the
    rows whose date does not parse are dropped: every row of the returned
    table is a row of the file whose date cell parsed, it carries that
    date, and a row whose date cell does not parse (such as
    ["not-a-date"]) is not in the table; a row whose date cell is a date
    of the calendar written in the format is in the table, with that
    date. *)
Theorem unparsable_dates_are_dropped df ev out :
  Keuangan.load_keuangan_data (ReadOk df) = (ev, Return (Some out)) ->
  (forall i, In i (index out) ->
     In i (index df)
     /\ exists y m d,
          Frame.column "tanggal" out i = Timestamp y m d
          /\ to_datetime (Frame.column "tanggal" (View.relabel df) i)
             = Timestamp y m d
          /\ (forall s, Frame.column "tanggal" (View.relabel df) i = Str s ->
                Parse.date_of_string s = Some (y, m, d)))
  /\ (forall i, to_datetime (Frame.column "tanggal" (View.relabel df) i) = NaN
        -> ~ In i (index out))
  /\ (forall i, Frame.column "tanggal" (View.relabel df) i = Str "not-a-date"
        -> ~ In i (index out))
  /\ (forall i y m d,
        In i (index df) ->
        Parse.valid_date y m d = true ->
        1678 <= y <= 2261 ->
        Frame.column "tanggal" (View.relabel df) i
        = Str (View.date_text y m d) ->
        In i (index out)
        /\ Frame.column "tanggal" out i = Timestamp y m d).
Proof.
  intros Hload.
  apply load_keuangan_success in Hload. destruct Hload as (L & _ & ->).
  apply loadable_counts in L. destruct L as (Ht & _).
  assert (Hh : Frame.has_column "tanggal" (View.relabel df) = true).
  { apply count_label_pos_has_column. lia. }
  rewrite index_cleaned.
  assert (drop : forall i,
             to_datetime (Frame.column "tanggal" (View.relabel df) i) = NaN ->
             ~ In i (View.dated_rows df)).
  { intros i E Hin. apply In_dated_rows in Hin. destruct Hin as [_ Hna].
    rewrite E in Hna. discriminate. }
  split; [|split; [|split]].
  - intros i Hin. apply In_dated_rows in Hin. destruct Hin as [Hi Hna].
    split; [exact Hi|].
    destruct (to_datetime_cases (Frame.column "tanggal" (View.relabel df) i))
      as [E|(y & m & d & E)].
    + rewrite E in Hna. discriminate.
    + exists y, m, d. split; [|split].
      * rewrite column_cleaned by (discriminate || assumption). exact E.
      * exact E.
      * intros s Es. rewrite Es in E. simpl in E.
        destruct (Parse.date_of_string s) as [[[y' m'] d']|];
          [|discriminate].
        inversion E. reflexivity.
  - exact drop.
  - intros i E. apply drop. rewrite E. reflexivity.
  - intros i y m d Hi V Hy E.
    assert (P : to_datetime (Frame.column "tanggal" (View.relabel df) i)
                = Timestamp y m d).
    { rewrite E. cbn [to_datetime astype_str].
      now rewrite (date_text_read y m d V Hy). }
    split.
    + apply In_dated_rows. split; [exact Hi|]. now rewrite P.
    + rewrite column_cleaned by (discriminate || assumption). exact P.
Qed.

Lemma unparsable_dates_are_dropped_witness :
  (forall i, In i (index (View.cleaned Samples.mixed)) ->
     In i (index Samples.mixed)
     /\ exists y m d,
          Frame.column "tanggal" (View.cleaned Samples.mixed) i
          = Timestamp y m d
          /\ to_datetime
               (Frame.column "tanggal" (View.relabel Samples.mixed) i)
             = Timestamp y m d
          /\ (forall s,
                Frame.column "tanggal" (View.relabel Samples.mixed) i = Str s
                -> Parse.date_of_string s = Some (y, m, d)))
  /\ (forall i,
        to_datetime (Frame.column "tanggal" (View.relabel Samples.mixed) i)
        = NaN
        -> ~ In i (index (View.cleaned Samples.mixed)))
  /\ (forall i,
        Frame.column "tanggal" (View.relabel Samples.mixed) i
        = Str "not-a-date"
        -> ~ In i (index (View.cleaned Samples.mixed)))
  /\ (forall i y m d,
        In i (index Samples.mixed) ->
        Parse.valid_date y m d = true ->
        1678 <= y <= 2261 ->
        Frame.column "tanggal" (View.relabel Samples.mixed) i
        = Str (View.date_text y m d) ->
        In i (index (View.cleaned Samples.mixed))
        /\ Frame.column "tanggal" (View.cleaned Samples.mixed) i
           = Timestamp y m d).
Proof.
  apply (unparsable_dates_are_dropped Samples.mixed []).
  apply load_keuangan_loadable. vm_compute. reflexivity.
Defined.

Example date_texts :
  View.date_text 2024 3 15 = "15/03/2024"
  /\ View.date_text 2024 4 1 = "01/04/2024"
  /\ Frame.column "tanggal" (View.relabel Samples.mixed) 0%nat
     = Str (View.date_text 2024 3 15)
  /\ Parse.valid_date 2024 3 15 = true
  /\ Parse.valid_date 2024 2 30 = false.
Proof. repeat split; reflexivity. Qed.

Example mixed_rows_kept :
  index (View.cleaned Samples.mixed) = [0%nat; 2%nat]
  /\ Frame.values "tanggal" (View.cleaned Samples.mixed)
     = [Timestamp 2024 3 15; Timestamp 2024 4 1].
Proof. split; reflexivity. Qed.

Lemma no_empty_text_spec df l s i :
  Frame.no_empty_text df = true ->
  In (l, s) (columns df) -> In i (index df) -> s i <> Str "".
Proof.
  unfold Frame.no_empty_text. intros H Hc Hi E.
  rewrite forallb_forall in H. specialize (H _ Hc). simpl in H.
  rewrite forallb_forall in H. specialize (H _ Hi).
  rewrite E in H. discriminate.
Qed.

(** C7, as stated, fails: a plate column that [pd.read_csv] read as
    numbers has no missing value to fill and keeps its numbers, which are
    no strings. *)
Lemma numbered_plate_is_no_text :
  Frame.no_empty_text Samples.numbered = true
  /\ Frame.column "nopol" (View.relabel Samples.numbered) 0%nat
     = Num (NInt 7)
  /\ exists out,
       Keuangan.load_keuangan_data (ReadOk Samples.numbered)
       = ([], Return (Some out))
       /\ In 0%nat (index out)
       /\ Frame.column "nopol" out 0%nat = Num (NInt 7)
       /\ forall t, Frame.column "nopol" out 0%nat <> Str t.
Proof.
  split; [reflexivity|]. split; [reflexivity|].
  exists (View.cleaned Samples.numbered).
  split; [apply load_keuangan_loadable; reflexivity|].
  split; [vm_compute; auto|].
  assert (E : Frame.column "nopol" (View.cleaned Samples.numbered) 0%nat
              = Num (NInt 7)) by reflexivity.
  split; [exact E|]. intros t. rewrite E. discriminate.
Qed.

(** C7, amended: in the table of a successful load, every value of the
    columns [nopol], [sopir] and [jenis transaksi] is present and is not
    the empty text: it is the value of the file, or the sentinel where the
    file had no value.  It is a non-empty string where the file had a text
    or no value; a number of the file stays that number. *)
Theorem categorical_fields_are_filled df ev out c s i :
  Frame.no_empty_text df = true ->
  Keuangan.load_keuangan_data (ReadOk df) = (ev, Return (Some out)) ->
  In c Keuangan.categorical_columns ->
  In (c, s) (columns out) ->
  In i (index out) ->
  s i <> NaN /\ s i <> Str ""
  /\ exists l s0,
       In (l, s0) (columns df) /\ Keuangan.canonical l = c
       /\ s i = (if isna (s0 i) then Str "Tidak Diketahui" else s0 i)
       /\ (s0 i = NaN \/ (exists t, s0 i = Str t) ->
           exists t, s i = Str t /\ t <> "")
       /\ (forall n, s0 i = Num n -> s i = Num n).
Proof.
  intros Hne Hload Hc Hin Hi.
  apply load_keuangan_success in Hload. destruct Hload as (_ & _ & ->).
  rewrite index_cleaned in Hi. apply In_dated_rows in Hi.
  destruct Hi as [Hi _].
  apply In_columns_cleaned in Hin.
  2:{ destruct Hc as [<-|[<-|[<-|[]]]]; discriminate. }
  destruct Hin as (l & s0 & Hl & Hcanon & ->).
  rewrite (clean_value_categorical c Hc).
  pose proof (no_empty_text_spec df l s0 i Hne Hl Hi) as Hs0.
  unfold fillna, Keuangan.sentinel.
  split; [|split].
  - destruct (s0 i); simpl; discriminate.
  - destruct (s0 i) eqn:E; simpl; try discriminate. exact Hs0.
  - exists l, s0. split; [exact Hl|]. split; [exact Hcanon|].
    split; [reflexivity|]. split.
    + intros [E|[t E]]; rewrite E; simpl.
      * eexists. split; [reflexivity|discriminate].
      * exists t. split; [reflexivity|]. intros ->. now apply Hs0.
    + intros n E. now rewrite E.
Qed.

Lemma categorical_fields_are_filled_witness :
  Frame.column "sopir" (View.cleaned Samples.mixed) 0%nat <> NaN
  /\ Frame.column "sopir" (View.cleaned Samples.mixed) 0%nat <> Str ""
  /\ exists l s0,
       In (l, s0) (columns Samples.mixed) /\ Keuangan.canonical l = "sopir"
       /\ Frame.column "sopir" (View.cleaned Samples.mixed) 0%nat
          = (if isna (s0 0%nat) then Str "Tidak Diketahui" else s0 0%nat)
       /\ (s0 0%nat = NaN \/ (exists t, s0 0%nat = Str t) ->
           exists t,
             Frame.column "sopir" (View.cleaned Samples.mixed) 0%nat = Str t
             /\ t <> "")
       /\ (forall n, s0 0%nat = Num n ->
             Frame.column "sopir" (View.cleaned Samples.mixed) 0%nat
             = Num n).
Proof.
  apply (categorical_fields_are_filled Samples.mixed []
           (View.cleaned Samples.mixed) "sopir"
           (Frame.column "sopir" (View.cleaned Samples.mixed)) 0%nat).
  - vm_compute. reflexivity.
  - apply load_keuangan_loadable. vm_compute. reflexivity.
  - simpl. auto.
  - apply In_column. vm_compute. reflexivity.
  - simpl. auto.
Defined.

(** A quantity read as a float is rendered with its decimal point before
    the points are removed: 5000.0 litres come out as 50000. *)
Example float_quantity_is_rescaled :
  Frame.column "jumlahair" (View.relabel Samples.mixed) 0%nat
  = Num (NFloat 5000 0)
  /\ astype_str (Num (NFloat 5000 0)) = "5000.0"
  /\ Frame.values "jumlahair" (View.cleaned Samples.mixed)
     = [Num (NInt 50000); Num (NInt 0)]
  /\ Frame.values "pemasukan" (View.cleaned Samples.mixed)
     = [Num (NInt 1500000); Num (NInt 0)].
Proof. repeat split; reflexivity. Qed.

Example mixed_categories :
  Frame.values "nopol" (View.cleaned Samples.mixed)
  = [Str "B1234XY"; Str "Tidak Diketahui"]
  /\ Frame.values "sopir" (View.cleaned Samples.mixed)
     = [Str "Tidak Diketahui"; Str "Budi"]
  /\ Frame.values "jenis transaksi" (View.cleaned Samples.mixed)
     = [Str "Pengiriman"; Str "Tidak Diketahui"].
Proof. repeat split; reflexivity. Qed.

(** C8, evaluated on the code: when [pd.read_csv] raises, the financial
    loader reports the failure and then raises [UnboundLocalError] out of
    its [except] clause instead of returning [None]; the GPS loader, whose
    [except] clause does not read [df], returns [None]. *)
Theorem unreadable_file_escapes msg :
  Keuangan.load_keuangan_data (ReadError msg)
  = ([StError ("Gagal memuat keuangan_data.csv: " ++ msg)%string],
     Raise (UnboundLocalError "df"))
  /\ Gps.load_gps_data (ReadError msg)
     = ([StError ("Gagal memuat data_gps.csv: " ++ msg)%string],
        Return None)
  /\ snd (main (ReadError msg) (ReadError msg))
     = Crashed (UnboundLocalError "df").
Proof. repeat split. Qed.

(** C9: a readable file none of whose headers resolves to [tanggal] makes
    the loader report a [KeyError] and return [None], never a table. *)
Theorem missing_date_column_fails df :
  ~ In "tanggal" (map Keuangan.canonical (Frame.labels df)) ->
  Keuangan.load_keuangan_data (ReadOk df)
  = ([StError "Gagal memuat keuangan_data.csv: 'tanggal'";
      StWrite "Struktur data yang ditemukan:"
              (map Keuangan.canonical (Frame.labels df))],
     Return None).
Proof.
  intros H. rewrite <- labels_relabel in *.
  unfold Keuangan.load_keuangan_data, Keuangan.try_body.
  fold (View.relabel df).
  unfold Keuangan.convert_dates, getitem, Frame.count_label.
  rewrite (proj1 (count_occ_not_In string_dec _ _) H).
  reflexivity.
Qed.

Lemma missing_date_column_fails_witness :
  Keuangan.load_keuangan_data (ReadOk Samples.undated)
  = ([StError "Gagal memuat keuangan_data.csv: 'tanggal'";
      StWrite "Struktur data yang ditemukan:"
              (map Keuangan.canonical (Frame.labels Samples.undated))],
     Return None).
Proof.
  apply (missing_date_column_fails Samples.undated).
  vm_compute. intros [H|[H|[]]]; discriminate H.
Defined.

Example undated_labels :
  map Keuangan.canonical (Frame.labels Samples.undated)
  = ["nopol"; "pemasukan"].
Proof. reflexivity. Qed.

(** ** Files that lack optional columns *)

Section AbsentColumns.

Import Keuangan View.

Variable gone : list string.

Local Abbreviation keep' := (kept gone).
Local Abbreviation keep := (kept_header gone).

Lemma labels_only p d :
  Frame.labels (Frame.only p d) = filter p (Frame.labels d).
Proof.
  unfold Frame.labels, Frame.only; simpl.
  induction (columns d) as [|[l s] t IH]; simpl; [reflexivity|].
  destruct (p l); simpl; now rewrite IH.
Qed.

Lemma count_occ_filter (p : string -> bool) c l :
  count_occ string_dec (filter p l) c
  = if p c then count_occ string_dec l c else 0%nat.
Proof.
  induction l as [|x t IH]; simpl; [now destruct (p c)|].
  destruct (string_dec x c) as [->|Hne].
  - destruct (p c); simpl; [|exact IH].
    destruct (string_dec c c); [|contradiction]. now rewrite IH.
  - destruct (p x); simpl; [|exact IH].
    destruct (string_dec x c); [contradiction|exact IH].
Qed.

Lemma map_canonical_filter l :
  map canonical (filter keep l) = filter keep' (map canonical l).
Proof.
  induction l as [|x t IH]; simpl; [reflexivity|].
  unfold kept_header at 1. destruct (keep' (canonical x)); simpl; now rewrite IH.
Qed.

Lemma count_label_only c df :
  Frame.count_label c (relabel (Frame.only keep df))
  = if keep' c then Frame.count_label c (relabel df) else 0%nat.
Proof.
  unfold Frame.count_label.
  rewrite !labels_relabel, labels_only, map_canonical_filter.
  apply count_occ_filter.
Qed.

Lemma keep'_true c : ~ In c gone -> keep' c = true.
Proof.
  intros H. unfold kept. apply negb_true_iff.
  destruct (existsb _ gone) eqn:E; [|reflexivity].
  apply existsb_exists in E. destruct E as [x [Hx E]].
  apply String.eqb_eq in E. subst x. contradiction.
Qed.

Lemma keep'_false c : In c gone -> keep' c = false.
Proof.
  intros H. unfold kept. apply negb_false_iff.
  apply existsb_exists. exists c. split; [exact H|apply String.eqb_refl].
Qed.

Lemma find_filter_keep c (cols : list (string * Series)) :
  keep' c = true ->
  find (fun p => String.eqb (canonical (fst p)) c)
       (filter (fun p => keep (fst p)) cols)
  = find (fun p => String.eqb (canonical (fst p)) c) cols.
Proof.
  intros Hk. induction cols as [|p t IH]; simpl; [reflexivity|].
  destruct (String.eqb_spec (canonical (fst p)) c) as [E|Hne].
  - unfold kept_header. rewrite E, Hk. simpl. rewrite <- E at 1.
    now rewrite String.eqb_refl.
  - destruct (keep (fst p)); simpl; [|exact IH].
    destruct (String.eqb_spec (canonical (fst p)) c); [contradiction|].
    exact IH.
Qed.

Lemma find_filter_keep' c (cols : list (string * Series)) :
  keep' c = true ->
  find (fun p => String.eqb (fst p) c)
       (filter (fun p => keep' (fst p)) cols)
  = find (fun p => String.eqb (fst p) c) cols.
Proof.
  intros Hk. induction cols as [|p t IH]; simpl; [reflexivity|].
  destruct (String.eqb_spec (fst p) c) as [E|Hne].
  - rewrite E, Hk. simpl. rewrite <- E at 1. now rewrite String.eqb_refl.
  - destruct (keep' (fst p)); simpl; [|exact IH].
    destruct (String.eqb_spec (fst p) c); [contradiction|]. exact IH.
Qed.

Lemma column_relabel_only c df :
  keep' c = true ->
  Frame.column c (relabel (Frame.only keep df))
  = Frame.column c (relabel df).
Proof.
  intros Hk. unfold Frame.column.
  rewrite !columns_relabel, !find_relabel. unfold Frame.only; cbn [columns].
  now rewrite find_filter_keep.
Qed.

Lemma column_only c d :
  keep' c = true ->
  Frame.column c (Frame.only keep' d) = Frame.column c d.
Proof.
  intros Hk. unfold Frame.column, Frame.only; cbn [columns].
  now rewrite find_filter_keep'.
Qed.

Lemma has_column_only c d :
  keep' c = true ->
  Frame.has_column c (Frame.only keep' d) = Frame.has_column c d.
Proof.
  intros Hk. unfold Frame.has_column. rewrite labels_only.
  induction (Frame.labels d) as [|x t IH]; simpl; [reflexivity|].
  destruct (String.eqb_spec c x) as [<-|Hne].
  - rewrite Hk. simpl. now rewrite String.eqb_refl.
  - destruct (keep' x); simpl; [|exact IH].
    destruct (String.eqb_spec c x); [contradiction|exact IH].
Qed.

Lemma set_column_only k s d :
  keep' k = true ->
  Frame.set_column k s (Frame.only keep' d)
  = Frame.only keep' (Frame.set_column k s d).
Proof.
  intros Hk. unfold Frame.set_column.
  rewrite (has_column_only k d Hk).
  destruct (Frame.has_column k d); unfold Frame.only; cbn [columns index];
    f_equal.
  - induction (columns d) as [|[l s0] t IH]; simpl; [reflexivity|].
    destruct (String.eqb_spec l k) as [->|Hne]; simpl.
    + rewrite Hk. simpl. rewrite String.eqb_refl. now rewrite IH.
    + destruct (keep' l); simpl; [|exact IH].
      destruct (String.eqb_spec l k); [contradiction|].
      now rewrite IH.
  - rewrite filter_app. simpl. now rewrite Hk.
Qed.

Lemma clean_columns_only (cols : list (string * Series)) :
  map clean_column (filter (fun p => keep (fst p)) cols)
  = filter (fun p => keep' (fst p)) (map clean_column cols).
Proof.
  induction cols as [|p t IH]; simpl; [reflexivity|].
  unfold kept_header at 1. destruct (keep' (canonical (fst p))); simpl;
    now rewrite IH.
Qed.

Hypothesis gone_optional :
  forall c, In c gone -> In c (numeric_columns ++ categorical_columns).

Lemma date_is_kept : keep' "tanggal" = true.
Proof.
  apply keep'_true. intros H. apply gone_optional in H.
  simpl in H. repeat destruct H as [H|H]; try discriminate H. exact H.
Qed.

Lemma month_is_kept : keep' "Nama_Bulan" = true.
Proof.
  apply keep'_true. intros H. apply gone_optional in H.
  simpl in H. repeat destruct H as [H|H]; try discriminate H. exact H.
Qed.

Lemma loadable_only df :
  loadable df = true -> loadable (Frame.only keep df) = true.
Proof.
  intros L. destruct (loadable_counts df L) as (Ht & H1 & H2 & H3).
  unfold loadable, numeric_columns. simpl forallb.
  rewrite !count_label_only, date_is_kept, Ht.
  rewrite !andb_true_iff. repeat split.
  - destruct (keep' "pemasukan"); apply Nat.leb_le; lia.
  - destruct (keep' "pengeluaran"); apply Nat.leb_le; lia.
  - destruct (keep' "jumlahair"); apply Nat.leb_le; lia.
Qed.

Lemma dated_rows_only df :
  loadable df = true ->
  dated_rows (Frame.only keep df) = dated_rows df.
Proof.
  intros L. pose proof (loadable_only df L) as L'.
  apply loadable_counts in L. apply loadable_counts in L'.
  destruct L as (Ht & _). destruct L' as (Ht' & _).
  unfold dated_rows, Frame.dropna, Frame.select_rows. cbn [index].
  apply filter_ext. intros i. simpl forallb.
  rewrite !column_map_column_same
    by (apply count_label_pos_has_column; lia).
  now rewrite column_relabel_only by apply date_is_kept.
Qed.

Lemma cleaned_only df :
  loadable df = true ->
  cleaned (Frame.only keep df) = Frame.only keep' (cleaned df).
Proof.
  intros L. unfold cleaned, add_month.
  rewrite (dated_rows_only df L).
  replace (mkDataFrame (dated_rows df)
             (map clean_column (columns (Frame.only keep df))))
    with (Frame.only keep'
            (mkDataFrame (dated_rows df) (map clean_column (columns df))))
    by (unfold Frame.only; cbn [columns index];
        now rewrite clean_columns_only).
  rewrite (column_only "tanggal" _ date_is_kept).
  apply set_column_only. apply month_is_kept.
Qed.

End AbsentColumns.

(** C10: taking any of the monetary, quantity and categorical columns out
    of a file that loads gives a file that loads, and its table is the
    table of the full file without those columns: no column is made up for
    an absent one, and the other columns are cleaned as before. *)
Theorem optional_columns_may_be_absent df ev out gone :
  (forall c, In c gone ->
     In c (Keuangan.numeric_columns ++ Keuangan.categorical_columns)) ->
  Keuangan.load_keuangan_data (ReadOk df) = (ev, Return (Some out)) ->
  Keuangan.load_keuangan_data (ReadOk (View.lacking gone df))
  = ([], Return (Some (View.without gone out)))
  /\ (forall c, In c gone ->
        Frame.has_column c (View.without gone out) = false)
  /\ (forall c, ~ In c gone ->
        Frame.column c (View.without gone out) = Frame.column c out).
Proof.
  intros Hg Hload.
  apply load_keuangan_success in Hload. destruct Hload as (L & _ & ->).
  split; [|split].
  - unfold View.lacking, View.without.
    rewrite <- (cleaned_only gone Hg df L).
    apply load_keuangan_loadable.
    exact (loadable_only gone Hg df L).
  - intros c Hc. apply has_column_false_iff.
    unfold View.without. rewrite labels_only. intros Hin.
    apply filter_In in Hin. destruct Hin as [_ Hk].
    rewrite (keep'_false gone c Hc) in Hk. discriminate.
  - intros c Hc. unfold View.without.
    apply (column_only gone). now apply keep'_true.
Qed.

Lemma optional_columns_may_be_absent_witness :
  Keuangan.load_keuangan_data
    (ReadOk (View.lacking ["pengeluaran"; "jumlahair"; "sopir"]
               Samples.mixed))
  = ([], Return (Some (View.without ["pengeluaran"; "jumlahair"; "sopir"]
                         (View.cleaned Samples.mixed))))
  /\ (forall c, In c ["pengeluaran"; "jumlahair"; "sopir"] ->
        Frame.has_column c
          (View.without ["pengeluaran"; "jumlahair"; "sopir"]
             (View.cleaned Samples.mixed)) = false)
  /\ (forall c, ~ In c ["pengeluaran"; "jumlahair"; "sopir"] ->
        Frame.column c
          (View.without ["pengeluaran"; "jumlahair"; "sopir"]
             (View.cleaned Samples.mixed))
        = Frame.column c (View.cleaned Samples.mixed)).
Proof.
  apply (optional_columns_may_be_absent Samples.mixed []).
  - simpl. intros c [<-|[<-|[<-|[]]]]; auto 10.
  - apply load_keuangan_loadable. vm_compute. reflexivity.
Defined.

Example lacking_labels :
  Frame.labels
    (View.without ["pengeluaran"; "jumlahair"; "sopir"]
       (View.cleaned Samples.mixed))
  = ["tanggal"; "nopol"; "jenis transaksi"; "pemasukan"; "catatan";
     "Nama_Bulan"].
Proof. reflexivity. Qed.

(** A file with dates and nothing else loads. *)
Example dates_only_loads :
  exists out,
    Keuangan.load_keuangan_data (ReadOk Samples.dates_only)
    = ([], Return (Some out))
    /\ Frame.labels out = ["tanggal"; "Nama_Bulan"]
    /\ index out = [0%nat; 1%nat]
    /\ Frame.values "Nama_Bulan" out
       = [Str "2024-03 (March)"; Str "2024-03 (March)"].
Proof.
  exists (View.cleaned Samples.dates_only). split.
  - apply load_keuangan_loadable. reflexivity.
  - repeat split; reflexivity.
Qed.

(** ** The GPS pipeline in closed form *)

Section GpsFacts.

Import Gps View.

Lemma convert_coordinate_once col d :
  Frame.count_label col d = 1%nat ->
  convert_coordinate col d
  = Done (Frame.map_column col coerce_coordinate d).
Proof. intros H. unfold convert_coordinate, getitem. now rewrite H. Qed.

Lemma convert_coordinate_fails col d :
  Frame.count_label col d <> 1%nat ->
  exists e, convert_coordinate col d = Failed e (Some d).
Proof.
  intros H. unfold convert_coordinate, getitem.
  destruct (Frame.count_label col d) as [|[|n]]; eauto. contradiction.
Qed.

Lemma gps_try_body_loadable df :
  gps_loadable df = true -> try_body (ReadOk df) = Done (gps_cleaned df).
Proof.
  unfold gps_loadable. rewrite andb_true_iff, !Nat.eqb_eq.
  intros [Hlat Hlon]. unfold try_body. fold (gps_relabel df).
  unfold convert_coordinates, coordinate_columns; simpl fold_left.
  rewrite (convert_coordinate_once _ _ Hlat). simpl and_then.
  rewrite convert_coordinate_once.
  - reflexivity.
  - erewrite count_label_labels; [exact Hlon|apply labels_map_column].
Qed.

Lemma gps_try_body_not_loadable df :
  gps_loadable df = false ->
  exists e d, try_body (ReadOk df) = Failed e d.
Proof.
  unfold gps_loadable. intros H. unfold try_body. fold (gps_relabel df).
  unfold convert_coordinates, coordinate_columns; simpl fold_left.
  destruct (Nat.eqb_spec (Frame.count_label "latitude" (gps_relabel df)) 1)
    as [Hlat|Hlat].
  - rewrite (convert_coordinate_once _ _ Hlat). simpl and_then.
    simpl in H. apply Nat.eqb_neq in H.
    destruct (convert_coordinate_fails "longitude"
                (Frame.map_column "latitude" coerce_coordinate
                   (gps_relabel df))) as [e E].
    + erewrite count_label_labels; [exact H|apply labels_map_column].
    + rewrite E. simpl. eauto.
  - destruct (convert_coordinate_fails "latitude" (gps_relabel df) Hlat)
      as [e E].
    rewrite E. simpl. eauto.
Qed.

(** The GPS load returns a table exactly when the [try] block raises
    nothing and leaves at least one row. *)
Lemma load_gps_success df ev out :
  load_gps_data (ReadOk df) = (ev, Return (Some out)) ->
  gps_loadable df = true /\ ev = [] /\ out = gps_cleaned df
  /\ Frame.empty out = false.
Proof.
  unfold load_gps_data. intros H. destruct (gps_loadable df) eqn:L.
  - rewrite (gps_try_body_loadable df L) in H.
    destruct (Frame.empty (gps_cleaned df)) eqn:E; inversion H.
    subst. auto.
  - destruct (gps_try_body_not_loadable df L) as (e & d & E).
    rewrite E in H. discriminate.
Qed.

Lemma load_gps_loadable df :
  gps_loadable df = true ->
  Frame.empty (gps_cleaned df) = false ->
  load_gps_data (ReadOk df) = ([], Return (Some (gps_cleaned df))).
Proof.
  intros L E. unfold load_gps_data.
  now rewrite (gps_try_body_loadable df L), E.
Qed.

Lemma gps_has_columns df :
  gps_loadable df = true ->
  Frame.has_column "latitude" (gps_relabel df) = true
  /\ Frame.has_column "longitude" (gps_relabel df) = true.
Proof.
  unfold gps_loadable. rewrite andb_true_iff, !Nat.eqb_eq.
  intros [Hlat Hlon]. split; apply count_label_pos_has_column; lia.
Qed.

Lemma column_latitude df i :
  gps_loadable df = true ->
  Frame.column "latitude" (gps_cleaned df) i = latitude_of df i.
Proof.
  intros L. destruct (gps_has_columns df L) as [Hlat _].
  unfold gps_cleaned, in_range, Frame.dropna.
  rewrite !column_select_rows.
  rewrite column_map_column_other by discriminate.
  now rewrite column_map_column_same.
Qed.

Lemma column_longitude df i :
  gps_loadable df = true ->
  Frame.column "longitude" (gps_cleaned df) i = longitude_of df i.
Proof.
  intros L. destruct (gps_has_columns df L) as [_ Hlon].
  unfold gps_cleaned, in_range, Frame.dropna.
  rewrite !column_select_rows.
  rewrite column_map_column_same.
  - now rewrite column_map_column_other by discriminate.
  - erewrite has_column_labels; [exact Hlon|apply labels_map_column].
Qed.

Lemma index_gps_relabel df : index (gps_relabel df) = index df.
Proof.
  unfold gps_relabel, rename_location.
  destruct (Frame.has_column _ _); reflexivity.
Qed.

Lemma between_not_missing lo hi c : between lo hi c = true -> isna c = false.
Proof. destruct c; simpl; congruence. Qed.

(** The rows kept by the coordinate filters. *)
Lemma In_index_gps_cleaned df i :
  gps_loadable df = true ->
  (In i (index (gps_cleaned df)) <->
   In i (index df)
   /\ between (-90) 90 (latitude_of df i) = true
   /\ between (-180) 180 (longitude_of df i) = true).
Proof.
  intros L. destruct (gps_has_columns df L) as [Hlat Hlon].
  assert (Hlon' : Frame.has_column "longitude"
                    (Frame.map_column "latitude" coerce_coordinate
                       (gps_relabel df)) = true).
  { erewrite has_column_labels; [exact Hlon|apply labels_map_column]. }
  unfold gps_cleaned, in_range, Frame.dropna, Frame.select_rows.
  cbn [index columns]. rewrite !filter_In.
  unfold coordinate_columns. simpl forallb.
  set (d := Frame.map_column "longitude" coerce_coordinate
              (Frame.map_column "latitude" coerce_coordinate
                 (gps_relabel df))).
  assert (Elat : Frame.column "latitude" d i = latitude_of df i).
  { unfold d. rewrite column_map_column_other by discriminate.
    now rewrite column_map_column_same. }
  assert (Elon : Frame.column "longitude" d i = longitude_of df i).
  { unfold d. rewrite column_map_column_same by assumption.
    now rewrite column_map_column_other by discriminate. }
  rewrite !column_reindex.
  rewrite Elat, Elon. rewrite !andb_true_iff, !negb_true_iff.
  change (index d) with (index (gps_relabel df)).
  rewrite index_gps_relabel.
  split.
  - intros [[Hi _] [Ha Hb]]. auto.
  - intros [Hi [Ha Hb]]. repeat split; auto.
    + now apply between_not_missing in Ha.
    + now apply between_not_missing in Hb.
Qed.


End GpsFacts.

Lemma not_empty d i c :
  In i (index d) -> Frame.has_column c d = true -> Frame.empty d = false.
Proof.
  unfold Frame.empty, Frame.has_column, Frame.labels.
  destruct (index d); [contradiction|].
  destruct (columns d); [discriminate|reflexivity].
Qed.


(** ** The GPS loader *)



Example points_kept :
  index (View.gps_cleaned Samples.points) = [0%nat]
  /\ Frame.labels (View.gps_cleaned Samples.points)
     = ["lokasi"; "latitude"; "longitude"]
  /\ map (fun i => View.latitude_of Samples.points i)
         (index Samples.points)
     = [Num (NFloat 1234 (-3)); Num (NInt 95); Num (NFloat (-65) (-1))]
  /\ map (fun i => View.longitude_of Samples.points i)
         (index Samples.points)
     = [Num (NFloat 103456 (-3)); Num (NInt 110); NaN].
Proof. repeat split; reflexivity. Qed.

(** C6: the decimal comma is replaced by a point before the coordinate is
    parsed: a row of latitude ["1,234"] and longitude ["103,456"] is
    retained with latitude 1.234 and longitude 103.456. *)
Theorem decimal_comma_is_parsed df i :
  View.gps_loadable df = true ->
  In i (index df) ->
  Frame.column "latitude" (View.gps_relabel df) i = Str "1,234" ->
  Frame.column "longitude" (View.gps_relabel df) i = Str "103,456" ->
  exists out,
    Gps.load_gps_data (ReadOk df) = ([], Return (Some out))
    /\ In i (index out)
    /\ Frame.column "latitude" out i = Num (NFloat 1234 (-3))
    /\ Frame.column "longitude" out i = Num (NFloat 103456 (-3))
    /\ (number_value (NFloat 1234 (-3)) == 1234 # 1000)%Q
    /\ (number_value (NFloat 103456 (-3)) == 103456 # 1000)%Q.
Proof.
  intros L Hi Hlat Hlon.
  assert (Ea : View.latitude_of df i = Num (NFloat 1234 (-3))).
  { unfold View.latitude_of. rewrite Hlat. reflexivity. }
  assert (Eb : View.longitude_of df i = Num (NFloat 103456 (-3))).
  { unfold View.longitude_of. rewrite Hlon. reflexivity. }
  assert (Hin : In i (index (View.gps_cleaned df))).
  { apply (In_index_gps_cleaned df i L). rewrite Ea, Eb.
    split; [exact Hi|split; reflexivity]. }
  exists (View.gps_cleaned df). split; [|split; [exact Hin|]].
  - apply (load_gps_loadable df L).
    apply (not_empty _ i "latitude" Hin).
    destruct (gps_has_columns df L) as [H _].
    unfold View.gps_cleaned, Gps.in_range, Frame.dropna.
    erewrite has_column_labels; [exact H|].
    rewrite !labels_select_rows, !labels_map_column. reflexivity.
  - rewrite (column_latitude df i L), (column_longitude df i L), Ea, Eb.
    repeat split; reflexivity.
Qed.

Lemma decimal_comma_is_parsed_witness :
  exists out,
    Gps.load_gps_data (ReadOk Samples.points) = ([], Return (Some out))
    /\ In 0%nat (index out)
    /\ Frame.column "latitude" out 0%nat = Num (NFloat 1234 (-3))
    /\ Frame.column "longitude" out 0%nat = Num (NFloat 103456 (-3))
    /\ (number_value (NFloat 1234 (-3)) == 1234 # 1000)%Q
    /\ (number_value (NFloat 103456 (-3)) == 103456 # 1000)%Q.
Proof.
  apply (decimal_comma_is_parsed Samples.points 0%nat).
  - vm_compute. reflexivity.
  - simpl. auto.
  - reflexivity.
  - reflexivity.
Defined.

(** C2, as stated, fails: when every GPS row is filtered out the loader
    returns [None], the value it returns on a load failure, and not an
    empty table; [main] then stops before any view is rendered, although
    the financial table was loaded. *)
Lemma no_valid_point_stops_the_dashboard :
  (exists t, Gps.try_body (ReadOk Samples.far_points) = Done t
             /\ index t = [])
  /\ Gps.load_gps_data (ReadOk Samples.far_points)
     = ([StError "Tidak ada data GPS valid yang dapat ditampilkan"],
        Return None)
  /\ snd (Gps.load_gps_data (ReadError "No such file")) = Return None
  /\ (exists k, Keuangan.load_keuangan_data (ReadOk Samples.scenario)
                = ([], Return (Some k)))
  /\ main (ReadOk Samples.scenario) (ReadOk Samples.far_points)
     = ([StError "Tidak ada data GPS valid yang dapat ditampilkan"],
        Stopped).
Proof.
  assert (G : Gps.try_body (ReadOk Samples.far_points)
              = Done (View.gps_cleaned Samples.far_points)).
  { apply gps_try_body_loadable. reflexivity. }
  assert (K : Keuangan.load_keuangan_data (ReadOk Samples.scenario)
              = ([], Return (Some (View.cleaned Samples.scenario)))).
  { apply load_keuangan_loadable. reflexivity. }
  assert (E : Gps.load_gps_data (ReadOk Samples.far_points)
              = ([StError "Tidak ada data GPS valid yang dapat ditampilkan"],
                 Return None)).
  { unfold Gps.load_gps_data. rewrite G. reflexivity. }
  split; [|split; [|split; [|split]]].
  - exists (View.gps_cleaned Samples.far_points). split; [exact G|].
    reflexivity.
  - exact E.
  - reflexivity.
  - eexists. exact K.
  - unfold main. rewrite K, E. reflexivity.
Qed.

(** C2, amended: when the GPS file was read and no row passes the
    coordinate filters, the loader returns no table ([None]) and reports
    "Tidak ada data GPS valid yang dapat ditampilkan", a message that no
    load failure produces. *)
Theorem no_valid_point_is_reported df t :
  Gps.try_body (ReadOk df) = Done t ->
  index t = [] ->
  Gps.load_gps_data (ReadOk df)
  = ([StError "Tidak ada data GPS valid yang dapat ditampilkan"],
     Return None)
  /\ (forall e,
        StError "Tidak ada data GPS valid yang dapat ditampilkan"
        <> StError (Gps.failure_message e)).
Proof.
  intros Hbody Hidx. split.
  - unfold Gps.load_gps_data. rewrite Hbody.
    unfold Frame.empty. rewrite Hidx. reflexivity.
  - intros e. unfold Gps.failure_message. simpl. discriminate.
Qed.

Lemma no_valid_point_is_reported_witness :
  Gps.load_gps_data (ReadOk Samples.far_points)
  = ([StError "Tidak ada data GPS valid yang dapat ditampilkan"],
     Return None)
  /\ (forall e,
        StError "Tidak ada data GPS valid yang dapat ditampilkan"
        <> StError (Gps.failure_message e)).
Proof.
  apply (no_valid_point_is_reported Samples.far_points
           (View.gps_cleaned Samples.far_points)).
  - apply gps_try_body_loadable. vm_compute. reflexivity.
  - vm_compute. reflexivity.
Defined.

(** * Further properties of the loaders *)

(** ** When the financial loader returns a table *)

(** X1: the financial loader returns a table exactly when one header resolves
    to [tanggal] and none of [pemasukan], [pengeluaran], [jumlahair] is the
    label of two columns; in every other case of a file that was read it
    returns [None]. *)
Theorem keuangan_table_iff df :
  ((exists ev out,
      Keuangan.load_keuangan_data (ReadOk df) = (ev, Return (Some out)))
   <->
   count_occ string_dec (map Keuangan.canonical (Frame.labels df)) "tanggal"
   = 1%nat
   /\ forall c, In c Keuangan.numeric_columns ->
        (count_occ string_dec (map Keuangan.canonical (Frame.labels df)) c
         <= 1)%nat)
  /\ ((forall ev out,
         Keuangan.load_keuangan_data (ReadOk df) <> (ev, Return (Some out)))
      -> exists ev, Keuangan.load_keuangan_data (ReadOk df)
                    = (ev, Return None)).
Proof.
  rewrite <- labels_relabel.
  assert (crit : View.loadable df = true <->
                 count_occ string_dec (Frame.labels (View.relabel df))
                   "tanggal" = 1%nat
                 /\ forall c, In c Keuangan.numeric_columns ->
                      (count_occ string_dec (Frame.labels (View.relabel df)) c
                       <= 1)%nat).
  { unfold View.loadable, Frame.count_label.
    rewrite andb_true_iff, Nat.eqb_eq, forallb_forall.
    split; intros [H1 H2]; (split; [exact H1|]); intros c Hc;
      apply Nat.leb_le; auto. }
  split.
  - rewrite <- crit. split.
    + intros (ev & out & H). now apply load_keuangan_success in H.
    + intros L. exists [], (View.cleaned df).
      now apply load_keuangan_loadable.
  - intros Hno. destruct (View.loadable df) eqn:L.
    + exfalso. apply (Hno [] (View.cleaned df)).
      now apply load_keuangan_loadable.
    + destruct (try_body_not_loadable df L) as (e & d & E).
      unfold Keuangan.load_keuangan_data. rewrite E. eauto.
Qed.

(** X2: an exception leaves the financial loader in one case only: when
    [pd.read_csv] raised.  For a file that was read it returns. *)
Theorem keuangan_raises_iff r e :
  snd (Keuangan.load_keuangan_data r) = Raise e
  <-> (exists msg, r = ReadError msg) /\ e = UnboundLocalError "df".
Proof.
  split.
  - destruct r as [msg|df]; simpl.
    + intros H. inversion H. eauto.
    + unfold Keuangan.load_keuangan_data.
      destruct (Keuangan.try_body (ReadOk df)) as [d|x [d|]] eqn:E;
        simpl; try discriminate.
      exfalso. destruct (View.loadable df) eqn:L.
      * rewrite (try_body_loadable df L) in E. discriminate.
      * destruct (try_body_not_loadable df L) as (e' & d' & E').
        rewrite E' in E. discriminate.
  - intros [[msg ->] ->]. reflexivity.
Qed.

(** X3: two headers that resolve to the same numeric label make the load fail:
    [df[col]] is then a DataFrame, which has no [.str]; the loader reports
    it and returns [None]. *)
Theorem duplicate_numeric_column_fails df c :
  Frame.count_label "tanggal" (View.relabel df) = 1%nat ->
  In c Keuangan.numeric_columns ->
  (2 <= Frame.count_label c (View.relabel df))%nat ->
  Keuangan.load_keuangan_data (ReadOk df)
  = ([StError
        "Gagal memuat keuangan_data.csv: 'DataFrame' object has no attribute 'str'";
      StWrite "Struktur data yang ditemukan:"
              (map Keuangan.canonical (Frame.labels df))],
     Return None).
Proof.
  intros Ht Hc H2.
  assert (body : exists d,
             Keuangan.try_body (ReadOk df) = Failed no_str_accessor (Some d)
             /\ Frame.labels d = Frame.labels (View.relabel df)).
  { unfold Keuangan.try_body. fold (View.relabel df).
    set (d2 := View.relabel df) in *.
    unfold Keuangan.convert_dates, getitem. rewrite Ht. simpl and_then.
    set (d4 := Frame.dropna ["tanggal"]
                 (Frame.map_column "tanggal" to_datetime d2)).
    assert (L4 : Frame.labels d4 = Frame.labels d2).
    { unfold d4, Frame.dropna. rewrite labels_select_rows.
      apply labels_map_column. }
    assert (twice : forall col d,
               Frame.labels d = Frame.labels d2 ->
               (2 <= Frame.count_label col d2)%nat ->
               Keuangan.clean_numeric col d
               = Failed no_str_accessor (Some d)).
    { intros col d L Hn.
      rewrite <- (count_label_labels d d2 col L) in Hn.
      apply clean_numeric_twice; [|exact Hn].
      apply count_label_pos_has_column. lia. }
    assert (once : forall col d,
               Frame.labels d = Frame.labels d2 ->
               (Frame.count_label col d2 <= 1)%nat ->
               Keuangan.clean_numeric col d
               = Done (Frame.map_column col Keuangan.coerce_number
                         (Frame.map_column col Keuangan.strip_currency d))).
    { intros col d L Hn.
      rewrite <- (count_label_labels d d2 col L) in Hn.
      now apply clean_numeric_once. }
    unfold Keuangan.clean_numerics, Keuangan.numeric_columns.
    simpl fold_left.
    destruct (le_lt_dec (Frame.count_label "pemasukan" d2) 1) as [H1|H1].
    2:{ rewrite (twice _ _ L4 H1). simpl. eauto. }
    rewrite (once _ _ L4 H1). simpl and_then.
    match goal with |- context [Keuangan.clean_numeric "pengeluaran" ?d] =>
      set (d5 := d) end.
    assert (L5 : Frame.labels d5 = Frame.labels d2).
    { unfold d5. now rewrite !labels_map_column. }
    destruct (le_lt_dec (Frame.count_label "pengeluaran" d2) 1) as [H3|H3].
    2:{ rewrite (twice _ _ L5 H3). simpl. eauto. }
    rewrite (once _ _ L5 H3). simpl and_then.
    match goal with |- context [Keuangan.clean_numeric "jumlahair" ?d] =>
      set (d6 := d) end.
    assert (L6 : Frame.labels d6 = Frame.labels d2).
    { unfold d6. now rewrite !labels_map_column. }
    destruct (le_lt_dec (Frame.count_label "jumlahair" d2) 1) as [H4|H4].
    2:{ rewrite (twice _ _ L6 H4). simpl. eauto. }
    exfalso. destruct Hc as [<-|[<-|[<-|[]]]]; lia. }
  destruct body as (d & E & L).
  unfold Keuangan.load_keuangan_data. rewrite E, L, labels_relabel.
  reflexivity.
Qed.

Lemma duplicate_numeric_column_fails_witness :
  Keuangan.load_keuangan_data (ReadOk Samples.colliding)
  = ([StError
        "Gagal memuat keuangan_data.csv: 'DataFrame' object has no attribute 'str'";
      StWrite "Struktur data yang ditemukan:"
              (map Keuangan.canonical (Frame.labels Samples.colliding))],
     Return None).
Proof.
  apply (duplicate_numeric_column_fails Samples.colliding "jumlahair").
  - vm_compute. reflexivity.
  - simpl. auto.
  - vm_compute. lia.
Defined.

(** ** What the financial loader leaves as it is *)


Lemma chars_text l : Text.chars (Text.text l) = l.
Proof. apply list_ascii_of_string_of_list_ascii. Qed.

Lemma text_chars s : Text.text (Text.chars s) = s.
Proof. apply string_of_list_ascii_of_string. Qed.





Lemma dated_rows_filter df :
  View.dated_rows df
  = filter (fun i => negb (isna (to_datetime
                                   (Frame.column "tanggal"
                                      (View.relabel df) i))))
           (index df).
Proof.
  unfold View.dated_rows, Frame.dropna, Frame.select_rows. cbn [index].
  apply filter_ext. intros i. simpl forallb. rewrite andb_true_r.
  destruct (Frame.has_column "tanggal" (View.relabel df)) eqn:Hh.
  - now rewrite column_map_column_same.
  - rewrite map_column_absent by assumption.
    now rewrite (column_absent _ _ i Hh).
Qed.



(** X5: a file none of whose dates can be read is not reported: the financial
    loader returns a table without rows, and [main] goes on to render
    whenever the GPS load returned a table. *)
Theorem undatable_file_gives_empty_table df :
  View.loadable df = true ->
  (forall i, In i (index df) ->
     to_datetime (Frame.column "tanggal" (View.relabel df) i) = NaN) ->
  exists out,
    Keuangan.load_keuangan_data (ReadOk df) = ([], Return (Some out))
    /\ index out = []
    /\ Frame.empty out = true
    /\ forall g evg gt,
         Gps.load_gps_data g = (evg, Return (Some gt)) ->
         main (ReadOk df) g = (evg, Rendered out gt).
Proof.
  intros L Hna. exists (View.cleaned df).
  assert (E : index (View.cleaned df) = []).
  { rewrite index_cleaned, dated_rows_filter.
    induction (index df) as [|i t IH]; [reflexivity|]. simpl.
    rewrite (Hna i) by now left. simpl. apply IH.
    intros j Hj. apply Hna. now right. }
  split; [now apply load_keuangan_loadable|].
  split; [exact E|]. split.
  - unfold Frame.empty. now rewrite E.
  - intros g evg gt Hg. unfold main.
    rewrite (load_keuangan_loadable df L), Hg. reflexivity.
Qed.

Lemma undatable_file_gives_empty_table_witness :
  exists out,
    Keuangan.load_keuangan_data (ReadOk Samples.undatable)
    = ([], Return (Some out))
    /\ index out = []
    /\ Frame.empty out = true
    /\ forall g evg gt,
         Gps.load_gps_data g = (evg, Return (Some gt)) ->
         main (ReadOk Samples.undatable) g = (evg, Rendered out gt).
Proof.
  apply (undatable_file_gives_empty_table Samples.undatable).
  - vm_compute. reflexivity.
  - intros i Hi. simpl in Hi.
    destruct Hi as [<-|[<-|[<-|[]]]]; reflexivity.
Defined.

(** ** When the GPS loader returns a table *)

Lemma gps_loadable_counts df :
  View.gps_loadable df = true <->
  Frame.count_label "latitude" (View.gps_relabel df) = 1%nat
  /\ Frame.count_label "longitude" (View.gps_relabel df) = 1%nat.
Proof.
  unfold View.gps_loadable. now rewrite andb_true_iff, !Nat.eqb_eq.
Qed.

Lemma labels_gps_cleaned df :
  Frame.labels (View.gps_cleaned df) = Frame.labels (View.gps_relabel df).
Proof.
  unfold View.gps_cleaned, Gps.in_range, Frame.dropna.
  now rewrite !labels_select_rows, !labels_map_column.
Qed.

(** X6: the GPS loader never lets an exception out, and a table that it
    returns has at least one row.  For a file whose coordinates are read
    alike as exact decimals and as float64 ([View.gps_plain]), it returns
    a table exactly when each of [latitude] and [longitude] is the label
    of one column and at least one row has both coordinates in range. *)
Theorem gps_table_iff df :
  (View.gps_plain df = true ->
   ((exists ev out,
       Gps.load_gps_data (ReadOk df) = (ev, Return (Some out)))
    <->
    Frame.count_label "latitude" (View.gps_relabel df) = 1%nat
    /\ Frame.count_label "longitude" (View.gps_relabel df) = 1%nat
    /\ exists i, In i (index df)
                 /\ Gps.between (-90) 90 (View.latitude_of df i) = true
                 /\ Gps.between (-180) 180 (View.longitude_of df i) = true))
  /\ (forall ev out,
        Gps.load_gps_data (ReadOk df) = (ev, Return (Some out)) ->
        index out <> [])
  /\ (forall r, exists ev v, Gps.load_gps_data r = (ev, Return v)).
Proof.
  split; [|split].
  - intros _. split.
    + intros (ev & out & H). apply load_gps_success in H.
      destruct H as (L & _ & -> & Hne).
      destruct (proj1 (gps_loadable_counts df) L) as [Hlat Hlon].
      split; [exact Hlat|]. split; [exact Hlon|].
      unfold Frame.empty in Hne.
      destruct (index (View.gps_cleaned df)) as [|i t] eqn:E;
        [discriminate|].
      exists i. apply (In_index_gps_cleaned df i L). rewrite E. now left.
    + intros (Hlat & Hlon & i & Hi & Ha & Hb).
      assert (L : View.gps_loadable df = true).
      { apply gps_loadable_counts. auto. }
      exists [], (View.gps_cleaned df). apply (load_gps_loadable df L).
      apply (not_empty _ i "latitude").
      * apply (In_index_gps_cleaned df i L). auto.
      * erewrite has_column_labels; [|apply labels_gps_cleaned].
        apply count_label_pos_has_column. lia.
  - intros ev out H. apply load_gps_success in H.
    destruct H as (_ & _ & _ & Hne). unfold Frame.empty in Hne.
    destruct (index out); [discriminate|discriminate].
  - intros r. unfold Gps.load_gps_data.
    destruct (Gps.try_body r) as [d|e d]; [|eauto].
    destruct (Frame.empty d); eauto.
Qed.

(** X7: a GPS file without one of the coordinate columns is reported with the
    name of the first coordinate that is missing, and no table is
    returned. *)
Theorem gps_missing_coordinate_fails df col :
  In col Gps.coordinate_columns ->
  ~ In col (Frame.labels (View.gps_relabel df)) ->
  (col = "longitude" ->
   Frame.count_label "latitude" (View.gps_relabel df) = 1%nat) ->
  Gps.load_gps_data (ReadOk df)
  = ([StError ("Gagal memuat data_gps.csv: '" ++ col ++ "'")%string],
     Return None).
Proof.
  intros Hc Hno Hfirst.
  assert (Z0 : Frame.count_label col (View.gps_relabel df) = 0%nat).
  { unfold Frame.count_label. now apply count_occ_not_In. }
  unfold Gps.load_gps_data, Gps.try_body. fold (View.gps_relabel df).
  unfold Gps.convert_coordinates, Gps.coordinate_columns; simpl fold_left.
  assert (miss : forall d,
             Frame.labels d = Frame.labels (View.gps_relabel df) ->
             Gps.convert_coordinate col d = Failed (KeyError col) (Some d)).
  { intros d Ld. unfold Gps.convert_coordinate, getitem.
    now rewrite (count_label_labels _ _ col Ld), Z0. }
  destruct Hc as [<-|[<-|[]]].
  - simpl and_then. rewrite (miss _ eq_refl). reflexivity.
  - simpl and_then.
    rewrite (convert_coordinate_once _ _ (Hfirst eq_refl)). simpl and_then.
    rewrite miss by apply labels_map_column. reflexivity.
Qed.

Lemma gps_missing_coordinate_fails_witness :
  Gps.load_gps_data (ReadOk Samples.no_longitude)
  = ([StError ("Gagal memuat data_gps.csv: '" ++ "longitude" ++ "'")%string],
     Return None).
Proof.
  apply (gps_missing_coordinate_fails Samples.no_longitude "longitude").
  - simpl. auto.
  - vm_compute. intros [H|[H|[]]]; discriminate H.
  - intros _. vm_compute. reflexivity.
Defined.

Lemma filter_twice {A} (f g : A -> bool) l :
  filter f (filter g l) = filter (fun x => g x && f x) l.
Proof.
  induction l as [|x t IH]; simpl; [reflexivity|].
  destruct (g x); simpl; [|exact IH].
  destruct (f x); now rewrite IH.
Qed.

Lemma labels_gps_relabel df :
  Frame.labels (View.gps_relabel df)
  = map (fun l => if String.eqb (normalise_label l) "nama lokasi"
                  then "lokasi" else normalise_label l)
        (Frame.labels df).
Proof.
  unfold View.gps_relabel, Gps.rename_location.
  assert (R : forall n, rename_label [("nama lokasi", "lokasi")] n
                        = if String.eqb n "nama lokasi" then "lokasi" else n).
  { intros n. unfold rename_label. cbn [find fst snd].
    rewrite (String.eqb_sym "nama lokasi" n).
    now destruct (String.eqb n "nama lokasi"). }
  destruct (Frame.has_column "nama lokasi" _) eqn:Hh.
  - rewrite !labels_map_labels, map_map. apply map_ext. intros l. apply R.
  - apply has_column_false_iff in Hh. rewrite labels_map_labels in *.
    apply map_ext_in. intros l Hl.
    destruct (String.eqb_spec (normalise_label l) "nama lokasi") as [E|_];
      [|reflexivity].
    exfalso. apply Hh. rewrite <- E. now apply in_map.
Qed.

(** X8: a successful GPS load keeps the rows of the file in their order,
    leaving out those that fail a coordinate test and none else; it keeps
    the columns of the file in their order, under their lower-case
    stripped labels with [nama lokasi] renamed to [lokasi]; and a column
    that is no coordinate holds the values of the file.  The file is one
    whose coordinates are read alike as exact decimals and as float64
    ([View.gps_plain]). *)
Theorem gps_keeps_rows_and_columns df ev out :
  Gps.load_gps_data (ReadOk df) = (ev, Return (Some out)) ->
  View.gps_plain df = true ->
  index out
  = filter (fun i => Gps.between (-90) 90 (View.latitude_of df i)
                     && Gps.between (-180) 180 (View.longitude_of df i))
           (index df)
  /\ Frame.labels out
     = map (fun l => if String.eqb (normalise_label l) "nama lokasi"
                     then "lokasi" else normalise_label l)
           (Frame.labels df)
  /\ (forall c i, c <> "latitude" -> c <> "longitude" ->
        Frame.column c out i = Frame.column c (View.gps_relabel df) i).
Proof.
  intros Hload _. apply load_gps_success in Hload.
  destruct Hload as (L & _ & -> & _).
  destruct (gps_has_columns df L) as [Hlat Hlon].
  split; [|split].
  - unfold View.gps_cleaned, Gps.in_range, Frame.dropna, Frame.select_rows.
    set (d := Frame.map_column "longitude" Gps.coerce_coordinate
                (Frame.map_column "latitude" Gps.coerce_coordinate
                   (View.gps_relabel df))).
    assert (Elat : forall i,
               Frame.column "latitude" d i = View.latitude_of df i).
    { intros i. unfold d.
      rewrite column_map_column_other by discriminate.
      now rewrite column_map_column_same. }
    assert (Elon : forall i,
               Frame.column "longitude" d i = View.longitude_of df i).
    { intros i. unfold d. rewrite column_map_column_same.
      - now rewrite column_map_column_other by discriminate.
      - erewrite has_column_labels; [exact Hlon|apply labels_map_column]. }
    cbn [index columns]. rewrite filter_twice.
    change (index d) with (index (View.gps_relabel df)).
    rewrite index_gps_relabel.
    apply filter_ext. intros i. rewrite !column_reindex.
    unfold Gps.coordinate_columns. simpl forallb.
    rewrite Elat, Elon.
    destruct (View.latitude_of df i), (View.longitude_of df i); simpl;
      try reflexivity; now rewrite ?andb_false_r.
  - rewrite labels_gps_cleaned. apply labels_gps_relabel.
  - intros c i H1 H2.
    unfold View.gps_cleaned, Gps.in_range, Frame.dropna.
    rewrite !column_select_rows.
    now rewrite !column_map_column_other by assumption.
Qed.

Lemma gps_keeps_rows_and_columns_witness :
  index (View.gps_cleaned Samples.points)
  = filter (fun i =>
              Gps.between (-90) 90 (View.latitude_of Samples.points i)
              && Gps.between (-180) 180 (View.longitude_of Samples.points i))
           (index Samples.points)
  /\ Frame.labels (View.gps_cleaned Samples.points)
     = map (fun l => if String.eqb (normalise_label l) "nama lokasi"
                     then "lokasi" else normalise_label l)
           (Frame.labels Samples.points)
  /\ (forall c i, c <> "latitude" -> c <> "longitude" ->
        Frame.column c (View.gps_cleaned Samples.points) i
        = Frame.column c (View.gps_relabel Samples.points) i).
Proof.
  apply (gps_keeps_rows_and_columns Samples.points []).
  - apply load_gps_loadable; vm_compute; reflexivity.
  - vm_compute. reflexivity.
Defined.

(** ** Integers go through the coercions unchanged *)

Section RoundTrip.

Import Text.

Local Abbreviation numeral d := (chars (NilEmpty.string_of_uint d)).

Lemma numeral_digits d : forallb is_digit (numeral d) = true.
Proof. induction d; simpl; trivial. Qed.

Lemma numeral_acc d : forall p,
  fold_left (fun acc c => 10 * acc + digit_value c) (numeral d) (Z.pos p)
  = Z.pos (Pos.of_uint_acc d p).
Proof.
  induction d; intros p;
    cbn [chars list_ascii_of_string NilEmpty.string_of_uint fold_left
         Pos.of_uint_acc];
    [reflexivity|..];
    rewrite <- IHd; f_equal;
    match goal with
    | |- context [digit_value ?c] =>
        let v := eval vm_compute in (digit_value c) in
        change (digit_value c) with v
    end; lia.
Qed.

Lemma numeral_value d :
  Z_of_digits (numeral d) = Z.of_N (Pos.of_uint d).
Proof.
  unfold Z_of_digits.
  induction d;
    cbn [chars list_ascii_of_string NilEmpty.string_of_uint fold_left
         Pos.of_uint];
    [reflexivity|exact IHd|..];
    match goal with
    | |- context [digit_value ?c] =>
        let v := eval vm_compute in (10 * 0 + digit_value c) in
        change (10 * 0 + digit_value c) with v
    end; apply numeral_acc.
Qed.

Lemma digit_is_plain c :
  is_digit c = true ->
  is_space c = false
  /\ Ascii.eqb c "-" = false /\ Ascii.eqb c "+" = false
  /\ Ascii.eqb "R" c = false /\ Ascii.eqb "." c = false
  /\ Ascii.eqb "," c = false.
Proof.
  destruct c as [[] [] [] [] [] [] [] []]; vm_compute; intros H;
    try discriminate H; repeat split.
Qed.

Lemma lstrip_solid l :
  Forall (fun c => is_space c = false) l -> lstrip l = l.
Proof. intros H. destruct H as [|c t Hc _]; simpl; [|rewrite Hc]; trivial. Qed.

Lemma strip_solid l :
  Forall (fun c => is_space c = false) l -> strip_chars l = l.
Proof.
  intros H. unfold strip_chars. rewrite (lstrip_solid l H).
  rewrite lstrip_solid by now apply Forall_rev.
  apply rev_involutive.
Qed.

Lemma span_digits_all l :
  forallb is_digit l = true -> span_digits l = (l, []).
Proof.
  induction l as [|c t IH]; simpl; [reflexivity|].
  rewrite andb_true_iff. intros [Hc Ht]. now rewrite Hc, (IH Ht).
Qed.

Lemma replace_absent p0 pt rep l :
  Forall (fun c => Ascii.eqb p0 c = false) l ->
  replace_from 0 (p0 :: pt) rep l = l.
Proof.
  induction 1 as [|c t Hc _ IH]; simpl; [reflexivity|].
  now rewrite Hc, IH.
Qed.

(** A run of digits, with or without a minus sign before it, is read as
    the integer it denotes. *)
Lemma number_of_digits (neg : bool) (l : list ascii) :
  l <> [] -> forallb is_digit l = true ->
  Parse.number_of_string
    (text ((if neg then ["-"%char] else []) ++ l))
  = Some (NInt (Parse.signed neg (Z_of_digits l))).
Proof.
  intros Hne Hd. unfold Parse.number_of_string. rewrite chars_text.
  assert (Hall : Forall (fun c => is_digit c = true) l).
  { apply Forall_forall. now apply forallb_forall. }
  assert (Hsolid : Forall (fun c => is_space c = false)
                     ((if neg then ["-"%char] else []) ++ l)).
  { apply Forall_app. split.
    - destruct neg; repeat constructor.
    - eapply Forall_impl; [|exact Hall]. intros c Hc.
      now apply digit_is_plain in Hc. }
  rewrite (strip_solid _ Hsolid).
  assert (Hsign : Parse.split_sign ((if neg then ["-"%char] else []) ++ l)
                  = (neg, l)).
  { destruct neg; [reflexivity|]. simpl.
    destruct l as [|c t]; [contradiction|].
    inversion Hall as [|? ? Hc _]; subst.
    apply digit_is_plain in Hc. destruct Hc as (_ & H1 & H2 & _).
    unfold Parse.split_sign. now rewrite H1, H2. }
  rewrite Hsign, (span_digits_all l Hd), app_nil_r.
  destruct l as [|c t]; [contradiction|]. reflexivity.
Qed.

Lemma string_of_Z_chars z :
  exists (neg : bool) (l : list ascii),
    l <> [] /\ forallb is_digit l = true
    /\ string_of_Z z = text ((if neg then ["-"%char] else []) ++ l)
    /\ Parse.signed neg (Z_of_digits l) = z.
Proof.
  unfold string_of_Z, NilZero.string_of_int.
  destruct z as [|p|p]; simpl Z.to_int.
  - exists false, ["0"%char]. repeat split; discriminate.
  - exists false, (numeral (Pos.to_uint p)).
    pose proof (Unsigned.to_uint_nonnil p) as Hn.
    pose proof (Unsigned.of_to p) as Hv.
    repeat split.
    + destruct (Pos.to_uint p); [contradiction|..]; discriminate.
    + apply numeral_digits.
    + simpl app. rewrite text_chars.
      unfold NilZero.string_of_uint.
      destruct (Pos.to_uint p); [contradiction|..]; reflexivity.
    + simpl. now rewrite numeral_value, Hv.
  - exists true, (numeral (Pos.to_uint p)).
    pose proof (Unsigned.to_uint_nonnil p) as Hn.
    pose proof (Unsigned.of_to p) as Hv.
    repeat split.
    + destruct (Pos.to_uint p); [contradiction|..]; discriminate.
    + apply numeral_digits.
    + unfold text. simpl app. simpl string_of_list_ascii.
      fold (text (numeral (Pos.to_uint p))). rewrite text_chars.
      unfold NilZero.string_of_uint.
      destruct (Pos.to_uint p); [contradiction|..]; reflexivity.
    + simpl. now rewrite numeral_value, Hv.
Qed.

(** [to_numeric] reads back the integer that [astype(str)] wrote. *)
Lemma number_of_string_of_Z z :
  Parse.number_of_string (string_of_Z z) = Some (NInt z).
Proof.
  destruct (string_of_Z_chars z) as (neg & l & Hne & Hd & -> & <-).
  now apply number_of_digits.
Qed.

(** The text of an integer holds none of the characters that the loaders
    replace. *)
Lemma replace_string_of_Z p0 pt rep z :
  Ascii.eqb p0 "-" = false ->
  (forall c, is_digit c = true -> Ascii.eqb p0 c = false) ->
  replace (text (p0 :: pt)) rep (string_of_Z z) = string_of_Z z.
Proof.
  intros Hm Hp. unfold replace. rewrite chars_text.
  rewrite replace_absent; [apply text_chars|].
  destruct (string_of_Z_chars z) as (neg & l & _ & Hd & -> & _).
  rewrite chars_text. apply Forall_app. split.
  - destruct neg; repeat constructor. exact Hm.
  - apply Forall_forall. intros c Hc. apply Hp.
    rewrite forallb_forall in Hd. now apply Hd.
Qed.

(** The text of a non-negative integer is made of its digits. *)
Lemma chars_string_of_Z_nonneg z :
  0 <= z ->
  forallb is_digit (chars (string_of_Z z)) = true
  /\ Z_of_digits (chars (string_of_Z z)) = z.
Proof.
  intros Hz. destruct z as [|p|p]; [split; reflexivity| |lia].
  assert (E : string_of_Z (Z.pos p)
              = NilEmpty.string_of_uint (Pos.to_uint p)).
  { unfold string_of_Z, NilZero.string_of_int. simpl Z.to_int.
    pose proof (Unsigned.to_uint_nonnil p) as Hn.
    unfold NilZero.string_of_uint.
    destruct (Pos.to_uint p); [contradiction|..]; reflexivity. }
  rewrite E. split; [apply numeral_digits|].
  rewrite numeral_value, (Unsigned.of_to p). reflexivity.
Qed.

End RoundTrip.

Lemma coerce_number_integer z :
  Keuangan.coerce_number (Keuangan.strip_currency (Num (NInt z)))
  = Num (NInt z).
Proof.
  unfold Keuangan.coerce_number, Keuangan.strip_currency, str_replace.
  simpl astype_str.
  change "Rp" with (Text.text ["R"%char; "p"%char]).
  change "." with (Text.text ["."%char]).
  rewrite !replace_string_of_Z;
    try reflexivity; try (intros c Hc; now apply digit_is_plain in Hc).
  unfold to_numeric. now rewrite number_of_string_of_Z.
Qed.

Lemma coerce_coordinate_integer z :
  Gps.coerce_coordinate (Num (NInt z)) = Num (NInt z).
Proof.
  unfold Gps.coerce_coordinate, str_replace. simpl astype_str.
  change "," with (Text.text [","%char]).
  rewrite replace_string_of_Z;
    try reflexivity; try (intros c Hc; now apply digit_is_plain in Hc).
  unfold to_numeric. now rewrite number_of_string_of_Z.
Qed.

(** X9: an amount that [pd.read_csv] read as an integer of at most 15
    digits is in the cleaned table as that integer, whatever its sign:
    writing it as text, removing ['Rp'] and ['.'] and reading it back
    changes nothing. *)
Theorem integer_amounts_are_kept df ev out c i z :
  Keuangan.load_keuangan_data (ReadOk df) = (ev, Return (Some out)) ->
  In c Keuangan.numeric_columns ->
  Frame.column c (View.relabel df) i = Num (NInt z) ->
  Z.abs z < 10 ^ 15 ->
  Frame.column c out i = Num (NInt z).
Proof.
  intros Hload Hc Hin _.
  apply load_keuangan_success in Hload. destruct Hload as (_ & _ & ->).
  rewrite column_cleaned.
  - rewrite Hin, (clean_value_numeric c Hc). apply coerce_number_integer.
  - destruct Hc as [<-|[<-|[<-|[]]]]; discriminate.
  - apply (column_present _ _ i). rewrite Hin. discriminate.
Qed.

Lemma integer_amounts_are_kept_witness :
  Frame.column "pemasukan" (View.cleaned Samples.negative) 0%nat
  = Num (NInt (-500)).
Proof.
  apply (integer_amounts_are_kept Samples.negative []
           (View.cleaned Samples.negative) "pemasukan" 0%nat (-500)).
  - apply load_keuangan_loadable. vm_compute. reflexivity.
  - simpl. auto.
  - reflexivity.
  - reflexivity.
Defined.

(** X10: a coordinate that [pd.read_csv] read as an integer is coerced to that
    integer, so the row is kept exactly when the integers are in range,
    and the table then holds them. *)
Theorem integer_coordinates_are_kept df ev out i a b :
  Gps.load_gps_data (ReadOk df) = (ev, Return (Some out)) ->
  In i (index df) ->
  Frame.column "latitude" (View.gps_relabel df) i = Num (NInt a) ->
  Frame.column "longitude" (View.gps_relabel df) i = Num (NInt b) ->
  (In i (index out) <-> -90 <= a <= 90 /\ -180 <= b <= 180)
  /\ Frame.column "latitude" out i = Num (NInt a)
  /\ Frame.column "longitude" out i = Num (NInt b).
Proof.
  intros Hload Hi Ha Hb. apply load_gps_success in Hload.
  destruct Hload as (L & _ & -> & _).
  assert (Ea : View.latitude_of df i = Num (NInt a)).
  { unfold View.latitude_of. rewrite Ha. apply coerce_coordinate_integer. }
  assert (Eb : View.longitude_of df i = Num (NInt b)).
  { unfold View.longitude_of. rewrite Hb. apply coerce_coordinate_integer. }
  split; [|split].
  - rewrite (In_index_gps_cleaned df i L), Ea, Eb.
    unfold Gps.between, number_value.
    rewrite !andb_true_iff, !Qle_bool_iff, <- !Zle_Qle. tauto.
  - now rewrite (column_latitude df i L).
  - now rewrite (column_longitude df i L).
Qed.

Lemma integer_coordinates_are_kept_witness :
  (In 1%nat (index (View.gps_cleaned Samples.points_int))
   <-> -90 <= 95 <= 90 /\ -180 <= 110 <= 180)
  /\ Frame.column "latitude" (View.gps_cleaned Samples.points_int) 1%nat
     = Num (NInt 95)
  /\ Frame.column "longitude" (View.gps_cleaned Samples.points_int) 1%nat
     = Num (NInt 110).
Proof.
  apply (integer_coordinates_are_kept Samples.points_int []).
  - apply load_gps_loadable; vm_compute; reflexivity.
  - simpl. auto.
  - reflexivity.
  - reflexivity.
Defined.

(** ** Amounts and coordinates written as text *)

Section WrittenNumbers.

Import Text.

Lemma replace_app_absent p0 pt rep g l :
  Forall (fun c => Ascii.eqb p0 c = false) g ->
  replace_from 0 (p0 :: pt) rep (g ++ l)
  = g ++ replace_from 0 (p0 :: pt) rep l.
Proof.
  induction 1 as [|c t Hc _ IH]; [reflexivity|].
  cbn [app replace_from starts_with]. now rewrite Hc, IH.
Qed.

Lemma digits_without p0 g :
  (forall c, is_digit c = true -> Ascii.eqb p0 c = false) ->
  forallb is_digit g = true ->
  Forall (fun c => Ascii.eqb p0 c = false) g.
Proof.
  intros Hp Hg. apply Forall_forall. intros c Hc. apply Hp.
  rewrite forallb_forall in Hg. now apply Hg.
Qed.

Lemma no_R c : is_digit c = true -> Ascii.eqb "R" c = false.
Proof. intros H. now apply digit_is_plain in H. Qed.

Lemma no_point c : is_digit c = true -> Ascii.eqb "." c = false.
Proof. intros H. now apply digit_is_plain in H. Qed.

Lemma no_comma c : is_digit c = true -> Ascii.eqb "," c = false.
Proof. intros H. now apply digit_is_plain in H. Qed.

(** Removing the points of dotted groups of digits leaves the digits. *)
Lemma undotted groups :
  Forall (fun g => forallb is_digit g = true) groups ->
  replace_from 0 ["."%char] [] (View.dotted groups) = List.concat groups.
Proof.
  induction 1 as [|g rest Hg Hrest IH]; [reflexivity|].
  destruct rest as [|g' rest'].
  - cbn [View.dotted List.concat]. rewrite app_nil_r.
    rewrite <- (app_nil_r g) at 1.
    rewrite replace_app_absent by (apply digits_without; auto using no_point).
    now rewrite app_nil_r.
  - change (View.dotted (g :: g' :: rest'))
      with (g ++ "."%char :: View.dotted (g' :: rest')).
    rewrite replace_app_absent by (apply digits_without; auto using no_point).
    cbn [List.concat]. f_equal.
    cbn [replace_from starts_with List.length Nat.sub app].
    rewrite Ascii.eqb_refl. cbn [andb app]. exact IH.
Qed.

Lemma dotted_without p0 groups :
  Ascii.eqb p0 "." = false ->
  (forall c, is_digit c = true -> Ascii.eqb p0 c = false) ->
  Forall (fun g => forallb is_digit g = true) groups ->
  Forall (fun c => Ascii.eqb p0 c = false) (View.dotted groups).
Proof.
  intros Hdot Hp. induction 1 as [|g rest Hg Hrest IH]; [constructor|].
  destruct rest as [|g' rest'].
  - cbn [View.dotted]. now apply digits_without.
  - change (View.dotted (g :: g' :: rest'))
      with (g ++ "."%char :: View.dotted (g' :: rest')).
    apply Forall_app. split; [now apply digits_without|].
    constructor; assumption.
Qed.

Lemma concat_digits groups :
  Forall (fun g => forallb is_digit g = true) groups ->
  forallb is_digit (List.concat groups) = true.
Proof.
  induction 1 as [|g rest Hg _ IH]; [reflexivity|].
  cbn [List.concat]. now rewrite forallb_app, Hg, IH.
Qed.

(** X11: a cell that [pd.read_csv] kept as a text, as it does in a column
    where some cell is no number, and that is written as groups of digits
    with points between them, at most 15 digits in all, with or without
    ['Rp'] before them, is read as the integer that the digits denote
    together: the points are taken out wherever they stand, so a point
    meant as a decimal point is taken out as well. *)
Theorem rupiah_amount_is_read (rp : bool) groups :
  Forall (fun g => forallb is_digit g = true) groups ->
  List.concat groups <> [] ->
  (List.length (List.concat groups) <= 15)%nat ->
  Keuangan.coerce_number
    (Keuangan.strip_currency
       (Str (text ((if rp then chars "Rp" else []) ++ View.dotted groups))))
  = Num (NInt (Z_of_digits (List.concat groups))).
Proof.
  intros Hg Hne _.
  unfold Keuangan.coerce_number, Keuangan.strip_currency, str_replace.
  cbn [astype_str].
  assert (E1 : replace "Rp" ""
                 (text ((if rp then chars "Rp" else []) ++ View.dotted groups))
               = text (View.dotted groups)).
  { unfold replace. rewrite chars_text. f_equal.
    assert (A : replace_from 0 (chars "Rp") (chars "") (View.dotted groups)
                = View.dotted groups).
    { apply replace_absent.
      apply dotted_without; auto using no_R. }
    destruct rp; [|exact A].
    change (chars "Rp" ++ View.dotted groups)
      with ("R"%char :: "p"%char :: View.dotted groups).
    change (chars "Rp") with ["R"%char; "p"%char] in *.
    change (chars "") with (@nil ascii) in *.
    cbn [replace_from starts_with List.length Nat.sub app].
    rewrite !Ascii.eqb_refl. cbn [andb app].
    destruct (View.dotted groups) as [|c t] eqn:Ed; [reflexivity|].
    exact A. }
  rewrite E1.
  assert (E2 : replace "." "" (text (View.dotted groups))
               = text (List.concat groups)).
  { unfold replace. rewrite chars_text. f_equal. now apply undotted. }
  rewrite E2. unfold to_numeric.
  pose proof (number_of_digits false (List.concat groups) Hne
                (concat_digits _ Hg)) as N.
  cbn [app] in N. rewrite N. reflexivity.
Qed.

Lemma rupiah_amount_is_read_witness :
  Keuangan.coerce_number
    (Keuangan.strip_currency
       (Str (text (chars "Rp"
                   ++ View.dotted [chars "1"; chars "500"; chars "000"]))))
  = Num (NInt (Z_of_digits (List.concat [chars "1"; chars "500"; chars "000"]))).
Proof.
  apply (rupiah_amount_is_read true [chars "1"; chars "500"; chars "000"]).
  - repeat constructor.
  - discriminate.
  - vm_compute. repeat constructor.
Defined.

Example rupiah_texts :
  text (chars "Rp" ++ View.dotted [chars "1"; chars "500"; chars "000"])
  = "Rp1.500.000"
  /\ Z_of_digits (List.concat [chars "1"; chars "500"; chars "000"]) = 1500000
  /\ text (View.dotted [chars "1500"; chars "50"]) = "1500.50"
  /\ Z_of_digits (List.concat [chars "1500"; chars "50"]) = 150050.
Proof. repeat split. Qed.

Lemma span_digits_until a c r :
  forallb is_digit a = true -> is_digit c = false ->
  span_digits (a ++ c :: r) = (a, c :: r).
Proof.
  intros Ha Hc. induction a as [|x t IH]; simpl.
  - now rewrite Hc.
  - simpl in Ha. apply andb_true_iff in Ha. destruct Ha as [Hx Ht].
    now rewrite Hx, (IH Ht).
Qed.

(** Digits with a point among them are read as a decimal. *)
Lemma number_of_fraction (neg : bool) (a b : list ascii) :
  forallb is_digit a = true -> forallb is_digit b = true ->
  a ++ b <> [] ->
  Parse.number_of_string
    (text ((if neg then ["-"%char] else []) ++ a ++ "."%char :: b))
  = Some (NFloat (Parse.signed neg (Z_of_digits (a ++ b)))
                 (- Z.of_nat (List.length b))).
Proof.
  intros Ha Hb Hne. unfold Parse.number_of_string. rewrite chars_text.
  assert (Sa : Forall (fun c => is_space c = false) a).
  { apply Forall_forall. intros c Hc. rewrite forallb_forall in Ha.
    now apply digit_is_plain, Ha. }
  assert (Sb : Forall (fun c => is_space c = false) b).
  { apply Forall_forall. intros c Hc. rewrite forallb_forall in Hb.
    now apply digit_is_plain, Hb. }
  rewrite strip_solid.
  2:{ apply Forall_app. split; [destruct neg; repeat constructor|].
      apply Forall_app. split; [exact Sa|]. now constructor. }
  assert (Hsign : Parse.split_sign
                    ((if neg then ["-"%char] else []) ++ a ++ "."%char :: b)
                  = (neg, a ++ "."%char :: b)).
  { destruct neg; [reflexivity|]. cbn [app].
    destruct a as [|c t]; [reflexivity|].
    simpl in Ha. apply andb_true_iff in Ha. destruct Ha as [Hc _].
    apply digit_is_plain in Hc. destruct Hc as (_ & H1 & H2 & _).
    cbn [app Parse.split_sign]. now rewrite H1, H2. }
  rewrite Hsign, (span_digits_until a "." b Ha eq_refl).
  rewrite Ascii.eqb_refl, (span_digits_all b Hb).
  destruct (a ++ b) as [|c t] eqn:E; [contradiction|]. reflexivity.
Qed.

(** X12: a coordinate that is a text written with a decimal comma, digits
    before it and digits after it, at most 15 digits in all, is read as
    the decimal with a point in the place of the comma, whatever its
    digits and its sign. *)
Theorem decimal_comma_coordinate (neg : bool) (a b : list ascii) :
  forallb is_digit a = true -> forallb is_digit b = true ->
  a <> [] -> b <> [] ->
  (List.length (a ++ b) <= 15)%nat ->
  Gps.coerce_coordinate
    (Str (text ((if neg then ["-"%char] else []) ++ a ++ ","%char :: b)))
  = Num (NFloat (Parse.signed neg (Z_of_digits (a ++ b)))
                (- Z.of_nat (List.length b))).
Proof.
  intros Ha Hb Hna _ _.
  assert (Hne : a ++ b <> []) by (destruct a; [contradiction|discriminate]).
  unfold Gps.coerce_coordinate, str_replace.
  cbn [astype_str].
  assert (E : replace "," "."
                (text ((if neg then ["-"%char] else [])
                       ++ a ++ ","%char :: b))
              = text ((if neg then ["-"%char] else [])
                      ++ a ++ "."%char :: b)).
  { unfold replace. rewrite chars_text. f_equal.
    change (chars ",") with [","%char]. change (chars ".") with ["."%char].
    rewrite replace_app_absent by (destruct neg; repeat constructor).
    rewrite replace_app_absent by (apply digits_without; auto using no_comma).
    do 2 f_equal.
    cbn [replace_from starts_with List.length Nat.sub app].
    rewrite Ascii.eqb_refl. cbn [andb app]. f_equal.
    apply replace_absent. apply digits_without; auto using no_comma. }
  rewrite E. unfold to_numeric. now rewrite number_of_fraction.
Qed.

Lemma decimal_comma_coordinate_witness :
  Gps.coerce_coordinate
    (Str (text ((if true then ["-"%char] else [])
                ++ chars "6" ++ ","%char :: chars "2088")))
  = Num (NFloat (Parse.signed true (Z_of_digits (chars "6" ++ chars "2088")))
                (- Z.of_nat (List.length (chars "2088")))).
Proof.
  apply (decimal_comma_coordinate true (chars "6") (chars "2088")).
  - reflexivity.
  - reflexivity.
  - discriminate.
  - discriminate.
  - vm_compute. repeat constructor.
Defined.

Example comma_texts :
  text (["-"%char] ++ chars "6" ++ ","%char :: chars "2088") = "-6,2088"
  /\ Parse.signed true (Z_of_digits (chars "6" ++ chars "2088")) = -62088
  /\ (number_value (NFloat (-62088) (-4)) == - (62088 # 10000))%Q.
Proof. repeat split. Qed.

End WrittenNumbers.

(** ** Dates and month labels *)

Section MonthLabels.

Import Text.

Lemma chars_append (s1 s2 : string) :
  chars (s1 ++ s2)%string = chars s1 ++ chars s2.
Proof.
  unfold chars. induction s1 as [|c t IH]; simpl; [reflexivity|].
  now rewrite IH.
Qed.

Lemma Z_of_digits_zeros n l :
  Z_of_digits (Render.zeros n ++ l) = Z_of_digits l.
Proof.
  unfold Z_of_digits. induction n as [|k IH]; [reflexivity|].
  cbn [Render.zeros app fold_left].
  change (10 * 0 + digit_value "0") with 0. exact IH.
Qed.

Lemma zeros_digits n : forallb is_digit (Render.zeros n) = true.
Proof. induction n as [|k IH]; [reflexivity|]. simpl. exact IH. Qed.

(** Padding with zeros keeps the number readable. *)
Lemma zero_pad_digits w z :
  0 <= z ->
  forallb is_digit (Render.zero_pad w z) = true
  /\ Z_of_digits (Render.zero_pad w z) = z.
Proof.
  intros Hz. destruct (chars_string_of_Z_nonneg z Hz) as [Hd Hv].
  unfold Render.zero_pad. split.
  - now rewrite forallb_app, zeros_digits, Hd.
  - now rewrite Z_of_digits_zeros.
Qed.

Lemma chars_strftime_month y m :
  chars (Render.strftime_month y m)
  = Render.zero_pad 4 y
      ++ "-"%char
         :: (Render.zero_pad 2 m
               ++ " "%char
                  :: "("%char :: chars (Render.month_name m ++ ")")%string).
Proof.
  unfold Render.strftime_month. rewrite chars_append, chars_text.
  rewrite <- !app_assoc. reflexivity.
Qed.

(** The year and the month can be read back from a month label. *)
Lemma strftime_month_inj y m y' m' :
  0 <= y -> 0 <= m -> 0 <= y' -> 0 <= m' ->
  Render.strftime_month y m = Render.strftime_month y' m' ->
  y = y' /\ m = m'.
Proof.
  intros Hy Hm Hy' Hm' E. apply (f_equal chars) in E.
  rewrite !chars_strftime_month in E.
  destruct (zero_pad_digits 4 y Hy) as [Dy Vy].
  destruct (zero_pad_digits 4 y' Hy') as [Dy' Vy'].
  destruct (zero_pad_digits 2 m Hm) as [Dm Vm].
  destruct (zero_pad_digits 2 m' Hm') as [Dm' Vm'].
  apply (f_equal span_digits) in E.
  rewrite (span_digits_until _ "-" _ Dy eq_refl) in E.
  rewrite (span_digits_until _ "-" _ Dy' eq_refl) in E.
  inversion E as [[E1 E2]].
  apply (f_equal span_digits) in E2.
  rewrite (span_digits_until _ " " _ Dm eq_refl) in E2.
  rewrite (span_digits_until _ " " _ Dm' eq_refl) in E2.
  inversion E2 as [[E3 E4]].
  split.
  - rewrite <- Vy, <- Vy'. now rewrite E1.
  - rewrite <- Vm, <- Vm'. now rewrite E3.
Qed.

Lemma date_of_string_valid s y m d :
  Parse.date_of_string s = Some (y, m, d) ->
  Parse.valid_date y m d = true.
Proof.
  unfold Parse.date_of_string.
  destruct (split_on "/" (chars s)) as [|ds [|ms [|ys [|x t]]]];
    try discriminate.
  destruct (Parse.day_field ds) as [d0|]; [|discriminate].
  destruct (Parse.month_field ms) as [m0|]; [|discriminate].
  destruct (Parse.year_field ys) as [y0|]; [|discriminate].
  destruct (Parse.valid_date y0 m0 d0) eqn:V; [|discriminate].
  intros H. inversion H. now subst.
Qed.

(** A date that [to_datetime] read from a value of the file is a date of
    the calendar. *)
Lemma to_datetime_valid v y m d :
  (forall y0 m0 d0, v <> Timestamp y0 m0 d0) ->
  to_datetime v = Timestamp y m d ->
  Parse.valid_date y m d = true.
Proof.
  intros Hv. destruct v as [|s|n|y0 m0 d0]; simpl.
  - discriminate.
  - destruct (Parse.date_of_string s) as [[[y1 m1] d1]|] eqn:E;
      [|discriminate].
    intros H. inversion H. subst. now apply date_of_string_valid in E.
  - destruct (Parse.date_of_string _) as [[[y1 m1] d1]|] eqn:E;
      [|discriminate].
    intros H. inversion H. subst. now apply date_of_string_valid in E.
  - now destruct (Hv y0 m0 d0).
Qed.

(** The date and the month label of a row of the cleaned table. *)
Lemma cleaned_date df i :
  View.loadable df = true ->
  In i (index (View.cleaned df)) ->
  (forall y m d,
     Frame.column "tanggal" (View.relabel df) i <> Timestamp y m d) ->
  exists y m d,
    Frame.column "tanggal" (View.cleaned df) i = Timestamp y m d
    /\ Parse.valid_date y m d = true
    /\ Frame.column "Nama_Bulan" (View.cleaned df) i
       = Str (Render.strftime_month y m).
Proof.
  intros L Hi Hv. rewrite index_cleaned in Hi.
  apply In_dated_rows in Hi. destruct Hi as [_ Hna].
  assert (Hh : Frame.has_column "tanggal" (View.relabel df) = true).
  { apply count_label_pos_has_column.
    apply loadable_counts in L. destruct L as [L _]. lia. }
  assert (Ec : Frame.column "tanggal" (View.cleaned df) i
               = to_datetime (Frame.column "tanggal" (View.relabel df) i)).
  { now rewrite (column_cleaned "tanggal" df i) by (discriminate || exact Hh). }
  destruct (to_datetime_cases
              (Frame.column "tanggal" (View.relabel df) i))
    as [E|(y & m & d & E)].
  - rewrite E in Hna. discriminate.
  - exists y, m, d. split; [now rewrite Ec|]. split.
    + now apply (to_datetime_valid _ y m d Hv).
    + rewrite column_month, Ec, E. reflexivity.
Qed.

(** X13: every date of the table that the financial loader returns is a date of
    the calendar (the month between 1 and 12, the day no later than the
    last day of that month in that year), and the row's [Nama_Bulan] is
    the label of the month of that date. *)
Theorem dates_are_calendar_dates df ev out i :
  Keuangan.load_keuangan_data (ReadOk df) = (ev, Return (Some out)) ->
  In i (index out) ->
  (forall y m d,
     Frame.column "tanggal" (View.relabel df) i <> Timestamp y m d) ->
  exists y m d,
    Frame.column "tanggal" out i = Timestamp y m d
    /\ Parse.valid_date y m d = true
    /\ 1 <= y /\ 1 <= m <= 12 /\ 1 <= d <= Parse.days_in_month y m
    /\ Frame.column "Nama_Bulan" out i = Str (Render.strftime_month y m).
Proof.
  intros H Hi Hv. apply load_keuangan_success in H.
  destruct H as (L & _ & ->).
  destruct (cleaned_date df i L Hi Hv) as (y & m & d & E1 & V & E2).
  exists y, m, d. split; [exact E1|]. split; [exact V|].
  pose proof V as V'. unfold Parse.valid_date in V'.
  rewrite !andb_true_iff, !Z.leb_le in V'.
  destruct V' as [[[[Hy Hm1] Hm2] Hd1] Hd2].
  repeat split; assumption.
Qed.

Lemma dates_are_calendar_dates_witness :
  exists y m d,
    Frame.column "tanggal" (View.cleaned Samples.mixed) 2%nat
    = Timestamp y m d
    /\ Parse.valid_date y m d = true
    /\ 1 <= y /\ 1 <= m <= 12 /\ 1 <= d <= Parse.days_in_month y m
    /\ Frame.column "Nama_Bulan" (View.cleaned Samples.mixed) 2%nat
       = Str (Render.strftime_month y m).
Proof.
  apply (dates_are_calendar_dates Samples.mixed [] _ 2%nat).
  - apply load_keuangan_loadable. vm_compute. reflexivity.
  - rewrite index_cleaned, dated_rows_filter. vm_compute. auto.
  - intros y m d. vm_compute. discriminate.
Defined.

(** X14: two rows of the table that the financial loader returns have the same
    [Nama_Bulan] exactly when their dates lie in the same month of the
    same year: the month filter and the monthly grouping never put two
    months together and never split one. *)
Theorem month_labels_tell_months df ev out i j :
  Keuangan.load_keuangan_data (ReadOk df) = (ev, Return (Some out)) ->
  In i (index out) ->
  In j (index out) ->
  (forall y m d,
     Frame.column "tanggal" (View.relabel df) i <> Timestamp y m d) ->
  (forall y m d,
     Frame.column "tanggal" (View.relabel df) j <> Timestamp y m d) ->
  exists y m d y' m' d',
    Frame.column "tanggal" out i = Timestamp y m d
    /\ Frame.column "tanggal" out j = Timestamp y' m' d'
    /\ (Frame.column "Nama_Bulan" out i = Frame.column "Nama_Bulan" out j
        <-> y = y' /\ m = m').
Proof.
  intros H Hi Hj Hvi Hvj. apply load_keuangan_success in H.
  destruct H as (L & _ & ->).
  destruct (cleaned_date df i L Hi Hvi) as (y & m & d & E1 & V & E2).
  destruct (cleaned_date df j L Hj Hvj) as (y' & m' & d' & E1' & V' & E2').
  exists y, m, d, y', m', d'. split; [exact E1|]. split; [exact E1'|].
  rewrite E2, E2'.
  apply valid_date_bounds in V. apply valid_date_bounds in V'.
  split.
  - intros E. inversion E as [E0].
    apply strftime_month_inj in E0; [exact E0|lia..].
  - intros [-> ->]. reflexivity.
Qed.

Lemma month_labels_tell_months_witness :
  exists y m d y' m' d',
    Frame.column "tanggal" (View.cleaned Samples.mixed) 0%nat
    = Timestamp y m d
    /\ Frame.column "tanggal" (View.cleaned Samples.mixed) 2%nat
       = Timestamp y' m' d'
    /\ (Frame.column "Nama_Bulan" (View.cleaned Samples.mixed) 0%nat
        = Frame.column "Nama_Bulan" (View.cleaned Samples.mixed) 2%nat
        <-> y = y' /\ m = m').
Proof.
  apply (month_labels_tell_months Samples.mixed [] _ 0%nat 2%nat).
  - apply load_keuangan_loadable. vm_compute. reflexivity.
  - rewrite index_cleaned, dated_rows_filter. vm_compute. auto.
  - rewrite index_cleaned, dated_rows_filter. vm_compute. auto.
  - intros y m d. vm_compute. discriminate.
  - intros y m d. vm_compute. discriminate.
Defined.

Example month_label_texts :
  Render.strftime_month 2024 3 = "2024-03 (March)"
  /\ Render.strftime_month 2024 4 = "2024-04 (April)".
Proof. repeat split. Qed.

End MonthLabels.

(** ** What a run of the dashboard comes to *)

(** The three ways in which the financial loader ends. *)
Lemma keuangan_outcomes r :
  (exists k, Keuangan.load_keuangan_data r = ([], Return (Some k)))
  \/ (exists e d,
        Keuangan.load_keuangan_data r
        = ([StError (Keuangan.failure_message e);
            StWrite "Struktur data yang ditemukan:" (Frame.labels d)],
           Return None))
  \/ (exists msg,
        r = ReadError msg
        /\ Keuangan.load_keuangan_data r
           = ([StError (Keuangan.failure_message (ReadFailure msg))],
              Raise (UnboundLocalError "df"))).
Proof.
  destruct r as [msg|df].
  - right. right. exists msg. split; reflexivity.
  - unfold Keuangan.load_keuangan_data. destruct (View.loadable df) eqn:L.
    + left. rewrite (try_body_loadable df L). eauto.
    + right. left. destruct (try_body_not_loadable df L) as (e & d & E).
      rewrite E. eauto.
Qed.

(** The two ways in which the GPS loader ends. *)
Lemma gps_outcomes r :
  (exists g, Gps.load_gps_data r = ([], Return (Some g))
             /\ index g <> [])
  \/ (exists msg, Gps.load_gps_data r = ([StError msg], Return None)).
Proof.
  unfold Gps.load_gps_data.
  destruct (Gps.try_body r) as [d|e d]; [|right; eauto].
  destruct (Frame.empty d) eqn:E; [right; eauto|].
  left. exists d. split; [reflexivity|].
  unfold Frame.empty in E. destruct (index d); discriminate.
Qed.

(** X15: the start of [main], up to its test of line 115.  The test is
    passed only with two tables that were loaded without any message, the
    GPS table with at least one row.  When the script is stopped there, an
    error message was shown before, and both files were loaded first, so
    that a failure of the financial file does not hide what the GPS loader
    reports.  An exception leaves [main] before the test only when the
    financial file could not be read; the GPS file is not loaded then.
    The GPS file is one whose coordinates are read alike as exact decimals
    and as float64. *)
Theorem dashboard_outcomes kr gr :
  (forall gdf, gr = ReadOk gdf -> View.gps_plain gdf = true) ->
  match snd (main kr gr) with
  | Rendered k g =>
      fst (main kr gr) = []
      /\ Keuangan.load_keuangan_data kr = ([], Return (Some k))
      /\ Gps.load_gps_data gr = ([], Return (Some g))
      /\ index g <> []
  | Stopped =>
      fst (main kr gr)
      = fst (Keuangan.load_keuangan_data kr) ++ fst (Gps.load_gps_data gr)
      /\ (snd (Keuangan.load_keuangan_data kr) = Return None
          \/ snd (Gps.load_gps_data gr) = Return None)
      /\ exists msg, In (StError msg) (fst (main kr gr))
  | Crashed e =>
      e = UnboundLocalError "df"
      /\ exists msg,
           kr = ReadError msg
           /\ fst (main kr gr)
              = [StError ("Gagal memuat keuangan_data.csv: " ++ msg)%string]
  end.
Proof.
  intros _. unfold main.
  destruct (keuangan_outcomes kr)
    as [[k K]|[(e & d & K)|(msg & -> & K)]];
    destruct (gps_outcomes gr) as [(g & G & Hg)|[m G]];
    rewrite K; try rewrite G; cbn [fst snd app].
  - repeat split; assumption.
  - split; [reflexivity|]. split; [now right|].
    exists m. now left.
  - split; [reflexivity|]. split; [now left|].
    eexists. left. reflexivity.
  - split; [reflexivity|]. split; [now left|].
    eexists. left. reflexivity.
  - split; [reflexivity|]. exists msg. split; reflexivity.
  - split; [reflexivity|]. exists msg. split; reflexivity.
Qed.

Lemma dashboard_outcomes_witness :
  match snd (main (ReadOk Samples.undated) (ReadOk Samples.far_points)) with
  | Rendered k g =>
      fst (main (ReadOk Samples.undated) (ReadOk Samples.far_points)) = []
      /\ Keuangan.load_keuangan_data (ReadOk Samples.undated)
         = ([], Return (Some k))
      /\ Gps.load_gps_data (ReadOk Samples.far_points)
         = ([], Return (Some g))
      /\ index g <> []
  | Stopped =>
      fst (main (ReadOk Samples.undated) (ReadOk Samples.far_points))
      = fst (Keuangan.load_keuangan_data (ReadOk Samples.undated))
          ++ fst (Gps.load_gps_data (ReadOk Samples.far_points))
      /\ (snd (Keuangan.load_keuangan_data (ReadOk Samples.undated))
          = Return None
          \/ snd (Gps.load_gps_data (ReadOk Samples.far_points))
             = Return None)
      /\ exists msg,
           In (StError msg)
              (fst (main (ReadOk Samples.undated)
                      (ReadOk Samples.far_points)))
  | Crashed e =>
      e = UnboundLocalError "df"
      /\ exists msg,
           ReadOk Samples.undated = ReadError msg
           /\ fst (main (ReadOk Samples.undated)
                     (ReadOk Samples.far_points))
              = [StError ("Gagal memuat keuangan_data.csv: " ++ msg)%string]
  end.
Proof.
  apply (dashboard_outcomes (ReadOk Samples.undated)
           (ReadOk Samples.far_points)).
  intros gdf E. injection E as <-. vm_compute. reflexivity.
Defined.

(** Both failures are shown before the script is stopped. *)
Example both_failures_are_shown :
  main (ReadOk Samples.undated) (ReadOk Samples.far_points)
  = ([StError "Gagal memuat keuangan_data.csv: 'tanggal'";
      StWrite "Struktur data yang ditemukan:" ["nopol"; "pemasukan"];
      StError "Tidak ada data GPS valid yang dapat ditampilkan"],
     Stopped).
Proof. vm_compute. reflexivity. Qed.

Lemma loadable_iff df :
  View.loadable df = true <->
  Frame.count_label "tanggal" (View.relabel df) = 1%nat
  /\ forall c, In c Keuangan.numeric_columns ->
       (Frame.count_label c (View.relabel df) <= 1)%nat.
Proof.
  unfold View.loadable.
  rewrite andb_true_iff, Nat.eqb_eq, forallb_forall.
  split; intros [H1 H2]; (split; [exact H1|]); intros c Hc;
    apply Nat.leb_le; auto.
Qed.

Lemma gps_rows_iff df :
  View.gps_loadable df = true ->
  (Frame.empty (View.gps_cleaned df) = false <->
   exists i, In i (index df)
             /\ Gps.between (-90) 90 (View.latitude_of df i) = true
             /\ Gps.between (-180) 180 (View.longitude_of df i) = true).
Proof.
  intros L. split.
  - intros Hne. unfold Frame.empty in Hne.
    destruct (index (View.gps_cleaned df)) as [|i t] eqn:E;
      [discriminate|].
    exists i. apply (In_index_gps_cleaned df i L). rewrite E. now left.
  - intros (i & Hi). apply (not_empty _ i "latitude").
    + now apply (In_index_gps_cleaned df i L).
    + erewrite has_column_labels; [|apply labels_gps_cleaned].
      apply count_label_pos_has_column.
      apply gps_loadable_counts in L. lia.
Qed.

(** X16: for two files that were read, the test of line 115 is passed
    exactly when, in the financial file, one header resolves to [tanggal]
    and none of the numeric labels is the label of two columns, and, in
    the GPS file, each coordinate is the label of one column and some row
    has both coordinates in range.  The GPS file is one whose coordinates
    are read alike as exact decimals and as float64. *)
Theorem dashboard_renders_iff kdf gdf :
  View.gps_plain gdf = true ->
  (exists ev k g, main (ReadOk kdf) (ReadOk gdf) = (ev, Rendered k g))
  <-> (Frame.count_label "tanggal" (View.relabel kdf) = 1%nat
       /\ forall c, In c Keuangan.numeric_columns ->
            (Frame.count_label c (View.relabel kdf) <= 1)%nat)
      /\ Frame.count_label "latitude" (View.gps_relabel gdf) = 1%nat
      /\ Frame.count_label "longitude" (View.gps_relabel gdf) = 1%nat
      /\ exists i, In i (index gdf)
           /\ Gps.between (-90) 90 (View.latitude_of gdf i) = true
           /\ Gps.between (-180) 180 (View.longitude_of gdf i) = true.
Proof.
  intros _. rewrite <- loadable_iff. unfold main. split.
  - intros (ev & k & g & H).
    destruct (Keuangan.load_keuangan_data (ReadOk kdf)) as [ev1 [[k'|]|e]]
      eqn:K; try discriminate.
    + destruct (Gps.load_gps_data (ReadOk gdf)) as [ev2 [[g'|]|e]]
        eqn:G; try discriminate.
      apply load_keuangan_success in K. destruct K as (L & _ & _).
      apply load_gps_success in G. destruct G as (L' & _ & -> & Hne).
      split; [exact L|].
      destruct (proj1 (gps_loadable_counts gdf) L') as [Hlat Hlon].
      split; [exact Hlat|]. split; [exact Hlon|].
      now apply gps_rows_iff.
    + destruct (Gps.load_gps_data (ReadOk gdf)) as [ev2 [[g'|]|e]];
        discriminate.
  - intros (L & Hlat & Hlon & Hrow).
    assert (L' : View.gps_loadable gdf = true).
    { apply gps_loadable_counts. auto. }
    apply (gps_rows_iff gdf L') in Hrow.
    rewrite (load_keuangan_loadable kdf L), (load_gps_loadable gdf L' Hrow).
    eauto.
Qed.

Lemma dashboard_renders_iff_witness :
  (exists ev k g,
     main (ReadOk Samples.scenario) (ReadOk Samples.points)
     = (ev, Rendered k g))
  <-> (Frame.count_label "tanggal" (View.relabel Samples.scenario) = 1%nat
       /\ forall c, In c Keuangan.numeric_columns ->
            (Frame.count_label c (View.relabel Samples.scenario) <= 1)%nat)
      /\ Frame.count_label "latitude" (View.gps_relabel Samples.points)
         = 1%nat
      /\ Frame.count_label "longitude" (View.gps_relabel Samples.points)
         = 1%nat
      /\ exists i, In i (index Samples.points)
           /\ Gps.between (-90) 90 (View.latitude_of Samples.points i)
              = true
           /\ Gps.between (-180) 180 (View.longitude_of Samples.points i)
              = true.
Proof.
  apply (dashboard_renders_iff Samples.scenario Samples.points).
  vm_compute. reflexivity.
Defined.

(** ** The month filter *)

Section MonthFilter.

Import Text.

Local Abbreviation le_text := (fun a b : string => String.leb a b = true).

Lemma In_insert x y l :
  In y (Dashboard.insert x l) <-> y = x \/ In y l.
Proof.
  induction l as [|z t IH]; simpl.
  - intuition.
  - destruct (String.leb x z); simpl; [intuition|].
    rewrite IH. intuition.
Qed.

Lemma In_sorted y l : In y (Dashboard.sorted l) <-> In y l.
Proof.
  unfold Dashboard.sorted. induction l as [|x t IH]; simpl; [tauto|].
  rewrite In_insert, IH. intuition.
Qed.

Lemma NoDup_insert x l :
  ~ In x l -> NoDup l -> NoDup (Dashboard.insert x l).
Proof.
  intros Hx Hl. induction l as [|z t IH]; simpl.
  - constructor; [auto|constructor].
  - destruct (String.leb x z).
    + now constructor.
    + inversion Hl as [|? ? Hz Ht]; subst. constructor.
      * rewrite In_insert. intros [->|H]; [|contradiction].
        apply Hx. now left.
      * apply IH; [|exact Ht]. intros H. apply Hx. now right.
Qed.

Lemma NoDup_sorted l : NoDup l -> NoDup (Dashboard.sorted l).
Proof.
  unfold Dashboard.sorted. induction 1 as [|x t Hx Ht IH]; simpl.
  - constructor.
  - apply NoDup_insert; [|exact IH].
    fold (Dashboard.sorted t). now rewrite In_sorted.
Qed.

Lemma leb_flip a b : String.leb a b = false -> String.leb b a = true.
Proof.
  intros H. destruct (String.leb_total a b) as [E|E]; congruence.
Qed.

Lemma Sorted_insert x l :
  Sorted le_text l -> Sorted le_text (Dashboard.insert x l).
Proof.
  induction 1 as [|z t Ht IH Hz]; simpl.
  - repeat constructor.
  - destruct (String.leb x z) eqn:E.
    + constructor; [now constructor|now constructor].
    + constructor; [exact IH|].
      apply leb_flip in E.
      destruct t as [|w t']; simpl.
      * now constructor.
      * destruct (String.leb x w); constructor; [exact E|].
        now inversion Hz.
Qed.

Lemma Sorted_sorted l : Sorted le_text (Dashboard.sorted l).
Proof.
  unfold Dashboard.sorted. induction l as [|x t IH]; simpl.
  - constructor.
  - now apply Sorted_insert.
Qed.

Lemma In_unique y l : In y (Dashboard.unique l) <-> In y l.
Proof.
  induction l as [|x t IH]; simpl; [tauto|].
  rewrite filter_In, IH, negb_true_iff.
  destruct (String.eqb_spec x y) as [->|N]; [intuition|].
  intuition congruence.
Qed.

Lemma NoDup_unique l : NoDup (Dashboard.unique l).
Proof.
  induction l as [|x t IH]; simpl; constructor.
  - rewrite filter_In, String.eqb_refl. intros [_ H]. discriminate.
  - now apply NoDup_filter.
Qed.

Lemma texts_all cs :
  (forall c, In c cs -> exists s, c = Str s) ->
  exists l, Dashboard.texts cs = Some l
            /\ forall s, In s l <-> In (Str s) cs.
Proof.
  induction cs as [|c t IH]; intros H.
  - exists []. split; [reflexivity|]. simpl. tauto.
  - destruct (H c (or_introl eq_refl)) as [s ->].
    destruct IH as (l & E & Hl); [intros c Hc; apply H; now right|].
    exists (s :: l). simpl. rewrite E. split; [reflexivity|].
    intros x. rewrite Hl. split.
    + intros [->|Hx]; auto.
    + intros [Hx|Hx]; [left; congruence|auto].
Qed.

(** *** The order of the month labels *)

Lemma fold_digits l : forall acc,
  fold_left (fun a c => 10 * a + digit_value c) l acc
  = acc * 10 ^ Z.of_nat (List.length l) + Z_of_digits l.
Proof.
  unfold Z_of_digits. induction l as [|c t IH]; intros acc.
  - simpl. lia.
  - cbn [fold_left List.length]. rewrite IH, (IH (10 * 0 + digit_value c)).
    rewrite Nat2Z.inj_succ, Z.pow_succ_r by lia. lia.
Qed.

Lemma Z_of_digits_cons c t :
  Z_of_digits (c :: t)
  = digit_value c * 10 ^ Z.of_nat (List.length t) + Z_of_digits t.
Proof.
  unfold Z_of_digits at 1. cbn [fold_left]. rewrite fold_digits. lia.
Qed.

Lemma digit_value_range c :
  is_digit c = true -> 0 <= digit_value c <= 9.
Proof.
  destruct c as [[] [] [] [] [] [] [] []]; vm_compute; intros H;
    try discriminate H; split; discriminate.
Qed.

Lemma Z_of_digits_range l :
  forallb is_digit l = true ->
  0 <= Z_of_digits l < 10 ^ Z.of_nat (List.length l).
Proof.
  induction l as [|c t IH]; intros H.
  - vm_compute. split; [discriminate|reflexivity].
  - simpl in H. apply andb_true_iff in H. destruct H as [Hc Ht].
    rewrite Z_of_digits_cons. cbn [List.length].
    rewrite Nat2Z.inj_succ, Z.pow_succ_r by lia.
    pose proof (digit_value_range c Hc). specialize (IH Ht). nia.
Qed.

Lemma ascii_compare_digits a b :
  Ascii.compare a b = (digit_value a ?= digit_value b).
Proof.
  unfold Ascii.compare, digit_value, nat_of_ascii.
  rewrite !N_nat_Z, <- N2Z.inj_compare.
  set (x := Z.of_N (N_of_ascii a)). set (y := Z.of_N (N_of_ascii b)).
  rewrite (Z.compare_sub x y), (Z.compare_sub (x - 48) (y - 48)).
  f_equal. lia.
Qed.

Lemma text_cons c l : text (c :: l) = String c (text l).
Proof. reflexivity. Qed.

Lemma compare_prefix p r r' :
  String.compare (text (p ++ r)) (text (p ++ r'))
  = String.compare (text r) (text r').
Proof.
  induction p as [|c t IH]; [reflexivity|].
  cbn [app]. rewrite !text_cons. cbn [String.compare].
  unfold Ascii.compare. now rewrite N.compare_refl.
Qed.

Lemma compare_cons c l l' :
  String.compare (text (c :: l)) (text (c :: l'))
  = String.compare (text l) (text l').
Proof. apply (compare_prefix [c]). Qed.

(** Numerals of the same width are ordered as the numbers they denote. *)
Lemma compare_digits a : forall b r r',
  List.length a = List.length b ->
  forallb is_digit a = true -> forallb is_digit b = true ->
  Z_of_digits a < Z_of_digits b ->
  String.compare (text (a ++ r)) (text (b ++ r')) = Lt.
Proof.
  induction a as [|x a' IH]; intros [|y b'] r r' Hlen Ha Hb Hlt;
    try discriminate Hlen.
  - vm_compute in Hlt. discriminate.
  - simpl in Ha, Hb. apply andb_true_iff in Ha, Hb.
    destruct Ha as [Hx Ha], Hb as [Hy Hb].
    injection Hlen as Hlen.
    rewrite !Z_of_digits_cons, <- Hlen in Hlt.
    pose proof (Z_of_digits_range a' Ha) as Ra.
    pose proof (Z_of_digits_range b' Hb) as Rb. rewrite <- Hlen in Rb.
    cbn [app]. rewrite !text_cons. cbn [String.compare].
    rewrite ascii_compare_digits.
    destruct (Z.compare_spec (digit_value x) (digit_value y)) as [E|E|E].
    + apply IH; auto. rewrite E in Hlt. lia.
    + reflexivity.
    + exfalso. nia.
Qed.

Lemma width_year y :
  0 <= y <= 9999 -> List.length (Render.zero_pad 4 y) = 4%nat.
Proof.
  intros Hy.
  assert (H : forallb (fun n => Nat.eqb (List.length
                                           (Render.zero_pad 4 (Z.of_nat n)))
                                        4)
                      (seq 0 (Z.to_nat 10000)) = true) by (vm_compute; reflexivity).
  rewrite forallb_forall in H.
  specialize (H (Z.to_nat y)). rewrite Z2Nat.id in H by lia.
  apply Nat.eqb_eq, H, in_seq. lia.
Qed.

Lemma width_month m :
  0 <= m <= 99 -> List.length (Render.zero_pad 2 m) = 2%nat.
Proof.
  intros Hm.
  assert (H : forallb (fun n => Nat.eqb (List.length
                                           (Render.zero_pad 2 (Z.of_nat n)))
                                        2)
                      (seq 0 (Z.to_nat 100)) = true) by (vm_compute; reflexivity).
  rewrite forallb_forall in H.
  specialize (H (Z.to_nat m)). rewrite Z2Nat.id in H by lia.
  apply Nat.eqb_eq, H, in_seq. lia.
Qed.

Lemma compare_label a b :
  0 <= fst a <= 9999 -> 0 <= snd a <= 99 ->
  0 <= fst b <= 9999 -> 0 <= snd b <= 99 ->
  Dashboard.earlier a b ->
  String.compare (Dashboard.label a) (Dashboard.label b) = Lt.
Proof.
  destruct a as [y m], b as [y' m']. unfold Dashboard.label. cbn [fst snd].
  intros Hy Hm Hy' Hm' He.
  rewrite <- (text_chars (Render.strftime_month y m)).
  rewrite <- (text_chars (Render.strftime_month y' m')).
  rewrite !chars_strftime_month.
  destruct (zero_pad_digits 4 y (proj1 Hy)) as [Dy Vy].
  destruct (zero_pad_digits 4 y' (proj1 Hy')) as [Dy' Vy'].
  destruct (zero_pad_digits 2 m (proj1 Hm)) as [Dm Vm].
  destruct (zero_pad_digits 2 m' (proj1 Hm')) as [Dm' Vm'].
  destruct He as [He|[He1 He2]]; cbn [fst snd] in *.
  - apply compare_digits; auto.
    + now rewrite !width_year.
    + now rewrite Vy, Vy'.
  - subst y'. rewrite compare_prefix.
    rewrite compare_cons.
    apply compare_digits; auto.
    + now rewrite !width_month.
    + now rewrite Vm, Vm'.
Qed.

(** Month labels are in the order of the months. *)
Lemma label_order a b :
  0 <= fst a <= 9999 -> 0 <= snd a <= 99 ->
  0 <= fst b <= 9999 -> 0 <= snd b <= 99 ->
  String.leb (Dashboard.label a) (Dashboard.label b) = true ->
  a <> b ->
  Dashboard.earlier a b.
Proof.
  intros Hy Hm Hy' Hm' Hle Hne.
  assert (T : Dashboard.earlier a b \/ a = b \/ Dashboard.earlier b a).
  { destruct a as [y m], b as [y' m']. unfold Dashboard.earlier.
    cbn [fst snd].
    destruct (Z.lt_trichotomy y y') as [?|[?|?]]; [auto| |auto].
    destruct (Z.lt_trichotomy m m') as [?|[?|?]]; [auto| |auto].
    right. left. congruence. }
  destruct T as [T|[T|T]]; [exact T|contradiction|].
  apply compare_label in T; try assumption.
  unfold String.leb in Hle. rewrite String.compare_antisym, T in Hle.
  discriminate.
Qed.

Lemma earlier_trans : Relations_1.Transitive Dashboard.earlier.
Proof.
  intros [a1 a2] [b1 b2] [c1 c2]. unfold Dashboard.earlier. cbn [fst snd].
  lia.
Qed.

Lemma label_inj a b :
  0 <= fst a -> 0 <= snd a -> 0 <= fst b -> 0 <= snd b ->
  Dashboard.label a = Dashboard.label b -> a = b.
Proof.
  destruct a as [y m], b as [y' m']. unfold Dashboard.label. cbn [fst snd].
  intros Hy Hm Hy' Hm' E.
  apply strftime_month_inj in E; try assumption.
  destruct E. congruence.
Qed.

Lemma label_not_all_months a :
  0 <= fst a -> 0 <= snd a ->
  String.eqb (Dashboard.label a) Dashboard.all_months_option = false.
Proof.
  intros Hy Hm. apply String.eqb_neq. intros E.
  apply (f_equal chars) in E. unfold Dashboard.label in E.
  rewrite chars_strftime_month in E.
  destruct (zero_pad_digits 4 (fst a) Hy) as [Dy _].
  apply (f_equal span_digits) in E.
  rewrite (span_digits_until _ "-" _ Dy eq_refl) in E.
  vm_compute in E. discriminate E.
Qed.

(** The rows of the cleaned table of a file whose dates are texts. *)
Lemma cleaned_rows df i :
  View.loadable df = true ->
  (forall i y m d, In i (index df) ->
     Frame.column "tanggal" (View.relabel df) i <> Timestamp y m d) ->
  In i (index (View.cleaned df)) ->
  exists a d,
    Frame.column "tanggal" (View.cleaned df) i = Timestamp (fst a) (snd a) d
    /\ 1 <= fst a /\ 1 <= snd a <= 12
    /\ Frame.column "Nama_Bulan" (View.cleaned df) i
       = Str (Dashboard.label a).
Proof.
  intros L Htext Hi.
  assert (Hin : In i (index df)).
  { rewrite index_cleaned in Hi. now apply In_dated_rows in Hi. }
  destruct (cleaned_date df i L Hi (fun y m d => Htext i y m d Hin))
    as (y & m & d & E1 & V & E2).
  apply valid_date_bounds in V.
  exists (y, m), d. cbn [fst snd]. repeat split; try assumption; lia.
Qed.

Lemma months_of_labels (Q : Z * Z -> Prop) l :
  (forall s, In s l -> exists a, Q a /\ s = Dashboard.label a) ->
  exists months, l = map Dashboard.label months /\ Forall Q months.
Proof.
  induction l as [|s t IH]; intros H.
  - exists []. split; [reflexivity|constructor].
  - destruct (H s (or_introl eq_refl)) as (a & Ha & ->).
    destruct IH as (months & -> & Hm); [intros x Hx; apply H; now right|].
    exists (a :: months). split; [reflexivity|now constructor].
Qed.

Lemma sorted_months months :
  Forall (fun a => 0 <= fst a <= 9999 /\ 0 <= snd a <= 99) months ->
  NoDup (map Dashboard.label months) ->
  Sorted le_text (map Dashboard.label months) ->
  StronglySorted Dashboard.earlier months.
Proof.
  intros HP Hnd Hs. apply (Sorted_StronglySorted earlier_trans).
  induction months as [|a t IH]; [constructor|].
  cbn [map] in Hnd, Hs.
  inversion HP as [|? ? Pa Pt]; subst.
  inversion Hnd as [|? ? Na Nt]; subst.
  inversion Hs as [|? ? St Hd]; subst.
  constructor; [now apply IH|].
  destruct t as [|b t']; constructor.
  inversion Pt as [|? ? Pb _]; subst.
  inversion Hd as [|? ? Hab]; subst.
  apply label_order; try tauto.
  intros ->. apply Na. now left.
Qed.

(** X17: the options of the month select box are [Semua Bulan] followed by the
    labels of the months in which the table has a transaction, each month
    once and the months in the order of the calendar.  The file is one
    whose dates are texts, as [pd.read_csv] gives them, with years of four
    digits. *)
Theorem month_list_is_chronological df ev out :
  Keuangan.load_keuangan_data (ReadOk df) = (ev, Return (Some out)) ->
  (forall i y m d, In i (index df) ->
     Frame.column "tanggal" (View.relabel df) i <> Timestamp y m d) ->
  Dashboard.four_digit_years out = true ->
  exists months,
    Dashboard.bulan_list out
    = Some ("Semua Bulan" :: map Dashboard.label months)
    /\ StronglySorted Dashboard.earlier months
    /\ forall y m,
         In (y, m) months
         <-> exists i d, In i (index out)
                         /\ Frame.column "tanggal" out i = Timestamp y m d.
Proof.
  intros H Htext H4. apply load_keuangan_success in H.
  destruct H as (L & _ & ->).
  set (out := View.cleaned df) in *.
  assert (Rows : forall i, In i (index out) ->
            exists a d,
              Frame.column "tanggal" out i = Timestamp (fst a) (snd a) d
              /\ (1000 <= fst a <= 9999 /\ 1 <= snd a <= 12)
              /\ Frame.column "Nama_Bulan" out i = Str (Dashboard.label a)).
  { intros i Hi.
    destruct (cleaned_rows df i L Htext Hi) as (a & d & E1 & _ & Hm & E2).
    exists a, d. split; [exact E1|]. split; [|exact E2].
    unfold Dashboard.four_digit_years in H4.
    rewrite forallb_forall in H4. specialize (H4 i Hi).
    fold out in E1. rewrite E1 in H4.
    apply andb_true_iff in H4. rewrite !Z.leb_le in H4. tauto. }
  destruct (texts_all (Frame.values "Nama_Bulan" out)) as (ls & Els & Hls).
  { intros c Hc. unfold Frame.values in Hc. apply in_map_iff in Hc.
    destruct Hc as (i & <- & Hi).
    destruct (Rows i Hi) as (a & d & _ & _ & E). eauto. }
  unfold Dashboard.bulan_list. rewrite Els. cbn [option_map].
  set (Q := fun a : Z * Z =>
              (1000 <= fst a <= 9999 /\ 1 <= snd a <= 12)
              /\ exists i d, In i (index out)
                   /\ Frame.column "tanggal" out i
                      = Timestamp (fst a) (snd a) d).
  destruct (months_of_labels Q (Dashboard.sorted (Dashboard.unique ls)))
    as (months & Em & Hm).
  { intros s Hs. rewrite In_sorted, In_unique, Hls in Hs.
    unfold Frame.values in Hs. apply in_map_iff in Hs.
    destruct Hs as (i & E & Hi).
    destruct (Rows i Hi) as (a & d & E1 & R & E2).
    exists a. split; [split; [exact R|eauto]|]. congruence. }
  exists months. split; [now rewrite Em|]. split.
  - apply sorted_months.
    + eapply Forall_impl; [|exact Hm]. intros a [R _]. cbv beta. lia.
    + rewrite <- Em. apply NoDup_sorted, NoDup_unique.
    + rewrite <- Em. apply Sorted_sorted.
  - intros y m. split.
    + intros Hin. rewrite Forall_forall in Hm.
      destruct (Hm _ Hin) as [_ (i & d & Hi & E)]. eauto.
    + intros (i & d & Hi & E).
      destruct (Rows i Hi) as (a & d' & E1 & R & E2).
      assert (Ha : a = (y, m)).
      { rewrite E in E1. inversion E1. now destruct a. }
      subst a.
      assert (Hl : In (Dashboard.label (y, m))
                      (map Dashboard.label months)).
      { rewrite <- Em, In_sorted, In_unique, Hls. unfold Frame.values.
        apply in_map_iff. exists i. now split. }
      apply in_map_iff in Hl. destruct Hl as (b & Eb & Hb).
      rewrite Forall_forall in Hm. destruct (Hm _ Hb) as [Rb _].
      apply label_inj in Eb; [now subst b|cbn [fst snd] in *; lia..].
Qed.

Lemma month_list_is_chronological_witness :
  exists months,
    Dashboard.bulan_list (View.cleaned Samples.months)
    = Some ("Semua Bulan" :: map Dashboard.label months)
    /\ StronglySorted Dashboard.earlier months
    /\ forall y m,
         In (y, m) months
         <-> exists i d,
               In i (index (View.cleaned Samples.months))
               /\ Frame.column "tanggal" (View.cleaned Samples.months) i
                  = Timestamp y m d.
Proof.
  apply (month_list_is_chronological Samples.months []).
  - apply load_keuangan_loadable. vm_compute. reflexivity.
  - intros i y m d Hi.
    do 4 (destruct i as [|i]; [vm_compute; discriminate|]).
    exfalso. vm_compute in Hi. repeat destruct Hi as [Hi|Hi]; try lia.
  - vm_compute. reflexivity.
Defined.

Example month_list_of_months :
  Dashboard.bulan_list (View.cleaned Samples.months)
  = Some ["Semua Bulan"; "2023-12 (December)"; "2024-03 (March)";
          "2024-04 (April)"].
Proof. vm_compute. reflexivity. Qed.

(** X18: picking the label of a month in the select box keeps the rows whose
    date lies in that month of that year, all of them and no other, with
    every column; picking [Semua Bulan] keeps the table as it is. *)
Theorem month_filter_selects_the_month df ev out a :
  Keuangan.load_keuangan_data (ReadOk df) = (ev, Return (Some out)) ->
  (forall i y m d, In i (index df) ->
     Frame.column "tanggal" (View.relabel df) i <> Timestamp y m d) ->
  0 <= fst a -> 0 <= snd a ->
  index (Dashboard.filtered (Dashboard.label a) out)
  = filter (fun i => Dashboard.in_month a (Frame.column "tanggal" out i))
           (index out)
  /\ columns (Dashboard.filtered (Dashboard.label a) out) = columns out
  /\ Dashboard.filtered "Semua Bulan" out = out.
Proof.
  intros H Htext Hy Hm. apply load_keuangan_success in H.
  destruct H as (L & _ & ->).
  unfold Dashboard.filtered at 1 2.
  rewrite (label_not_all_months a Hy Hm).
  split; [|split; reflexivity].
  unfold Frame.select_rows. cbn [index].
  apply filter_ext_in. intros i Hi.
  destruct (cleaned_rows df i L Htext Hi) as (b & d & E1 & Hb1 & Hb2 & E2).
  rewrite E1, E2. unfold Dashboard.is_month, Dashboard.in_month.
  destruct (String.eqb_spec (Dashboard.label b) (Dashboard.label a))
    as [E|N].
  - apply label_inj in E; [|lia..]. subst b.
    now rewrite !Z.eqb_refl.
  - symmetry. apply andb_false_iff.
    destruct (Z.eqb_spec (fst b) (fst a)) as [Ey|]; [|now left].
    destruct (Z.eqb_spec (snd b) (snd a)) as [Em|]; [|now right].
    exfalso. apply N. destruct a, b. cbn [fst snd] in *. now subst.
Qed.

Lemma month_filter_selects_the_month_witness :
  index (Dashboard.filtered (Dashboard.label (2024, 3))
           (View.cleaned Samples.months))
  = filter (fun i => Dashboard.in_month (2024, 3)
                       (Frame.column "tanggal"
                          (View.cleaned Samples.months) i))
           (index (View.cleaned Samples.months))
  /\ columns (Dashboard.filtered (Dashboard.label (2024, 3))
                (View.cleaned Samples.months))
     = columns (View.cleaned Samples.months)
  /\ Dashboard.filtered "Semua Bulan" (View.cleaned Samples.months)
     = View.cleaned Samples.months.
Proof.
  apply (month_filter_selects_the_month Samples.months []).
  - apply load_keuangan_loadable. vm_compute. reflexivity.
  - intros i y m d Hi.
    do 4 (destruct i as [|i]; [vm_compute; discriminate|]).
    exfalso. vm_compute in Hi. repeat destruct Hi as [Hi|Hi]; try lia.
  - cbn [fst]. lia.
  - cbn [snd]. lia.
Defined.

Example march_rows :
  index (Dashboard.filtered "2024-03 (March)" (View.cleaned Samples.months))
  = [0%nat; 2%nat].
Proof. vm_compute. reflexivity. Qed.

(** X19: every transaction of the table is shown under one month option and
    one only, and no month option shows an empty table: the counts that
    the side bar reports for the months add up to the whole table. *)
Theorem month_options_split_the_rows df ev out :
  Keuangan.load_keuangan_data (ReadOk df) = (ev, Return (Some out)) ->
  (forall i y m d, In i (index df) ->
     Frame.column "tanggal" (View.relabel df) i <> Timestamp y m d) ->
  exists options,
    Dashboard.bulan_list out = Some ("Semua Bulan" :: options)
    /\ NoDup options
    /\ ~ In "Semua Bulan" options
    /\ (forall s, In s options ->
          index (Dashboard.filtered s out) <> [])
    /\ (forall i, In i (index out) ->
          exists s, In s options
            /\ In i (index (Dashboard.filtered s out))
            /\ forall s', In s' options ->
                 In i (index (Dashboard.filtered s' out)) -> s' = s).
Proof.
  intros H Htext. apply load_keuangan_success in H.
  destruct H as (L & _ & ->).
  set (out := View.cleaned df) in *.
  assert (Rows : forall i, In i (index out) ->
            exists a, (0 <= fst a /\ 0 <= snd a)
              /\ Frame.column "Nama_Bulan" out i = Str (Dashboard.label a)).
  { intros i Hi.
    destruct (cleaned_rows df i L Htext Hi) as (a & d & _ & ? & ? & E).
    exists a. split; [lia|exact E]. }
  destruct (texts_all (Frame.values "Nama_Bulan" out)) as (ls & Els & Hls).
  { intros c Hc. unfold Frame.values in Hc. apply in_map_iff in Hc.
    destruct Hc as (i & <- & Hi). destruct (Rows i Hi) as (a & _ & E).
    eauto. }
  assert (Opt : forall s, In s (Dashboard.sorted (Dashboard.unique ls))
            <-> exists i, In i (index out)
                  /\ Frame.column "Nama_Bulan" out i = Str s).
  { intros s. rewrite In_sorted, In_unique, Hls. unfold Frame.values.
    rewrite in_map_iff. split; intros (i & A & B); exists i; auto. }
  assert (Shown : forall s i,
            In s (Dashboard.sorted (Dashboard.unique ls)) ->
            (In i (index (Dashboard.filtered s out))
             <-> In i (index out)
                 /\ Frame.column "Nama_Bulan" out i = Str s)).
  { intros s i Hs. apply Opt in Hs. destruct Hs as (j & Hj & Ej).
    destruct (Rows j Hj) as (a & [Hy Hm] & Ea).
    assert (s = Dashboard.label a) by congruence. subst s.
    unfold Dashboard.filtered. rewrite (label_not_all_months a Hy Hm).
    unfold Frame.select_rows. cbn [index]. rewrite filter_In.
    split; intros [Hi E]; (split; [exact Hi|]).
    - unfold Dashboard.is_month in E.
      destruct (Frame.column "Nama_Bulan" out i); try discriminate.
      apply String.eqb_eq in E. now subst.
    - rewrite E. unfold Dashboard.is_month. apply String.eqb_refl. }
  exists (Dashboard.sorted (Dashboard.unique ls)).
  split; [unfold Dashboard.bulan_list; now rewrite Els|].
  split; [apply NoDup_sorted, NoDup_unique|].
  split; [|split].
  - intros Hin. apply Opt in Hin. destruct Hin as (i & Hi & E).
    destruct (Rows i Hi) as (a & [Hy Hm] & Ea).
    pose proof (label_not_all_months a Hy Hm) as N.
    apply String.eqb_neq in N. apply N.
    unfold Dashboard.all_months_option. congruence.
  - intros s Hs Hnil. destruct (proj1 (Opt s) Hs) as (i & Hi & E).
    assert (Hin : In i (index (Dashboard.filtered s out))).
    { apply Shown; auto. }
    rewrite Hnil in Hin. contradiction.
  - intros i Hi. destruct (Rows i Hi) as (a & _ & Ea).
    assert (Hs : In (Dashboard.label a)
                    (Dashboard.sorted (Dashboard.unique ls))).
    { apply Opt. eauto. }
    exists (Dashboard.label a). split; [exact Hs|]. split.
    + apply Shown; auto.
    + intros s' Hs' Hin. apply Shown in Hin; [|exact Hs'].
      destruct Hin as [_ E]. congruence.
Qed.

Lemma month_options_split_the_rows_witness :
  exists options,
    Dashboard.bulan_list (View.cleaned Samples.months)
    = Some ("Semua Bulan" :: options)
    /\ NoDup options
    /\ ~ In "Semua Bulan" options
    /\ (forall s, In s options ->
          index (Dashboard.filtered s (View.cleaned Samples.months)) <> [])
    /\ (forall i, In i (index (View.cleaned Samples.months)) ->
          exists s, In s options
            /\ In i (index (Dashboard.filtered s
                              (View.cleaned Samples.months)))
            /\ forall s', In s' options ->
                 In i (index (Dashboard.filtered s'
                                (View.cleaned Samples.months))) ->
                 s' = s).
Proof.
  apply (month_options_split_the_rows Samples.months []).
  - apply load_keuangan_loadable. vm_compute. reflexivity.
  - intros i y m d Hi.
    do 4 (destruct i as [|i]; [vm_compute; discriminate|]).
    exfalso. vm_compute in Hi. repeat destruct Hi as [Hi|Hi]; try lia.
Defined.

End MonthFilter.

(** * Numbers that float64 holds without loss *)

Section PlainTexts.

Import Text.

Local Abbreviation numeric c :=
  (is_digit c || is_space c || existsb (Ascii.eqb c) (chars "+-.eE")).

Lemma span_digits_spec l : forall d r,
  span_digits l = (d, r) -> l = d ++ r /\ forallb is_digit d = true.
Proof.
  induction l as [|c t IH]; simpl; intros d r H.
  - inversion H. now split.
  - destruct (is_digit c) eqn:Ec.
    + destruct (span_digits t) as [d' r'] eqn:E. inversion H; subst.
      destruct (IH _ _ eq_refl) as [-> Hd]. simpl. now rewrite Ec.
    + inversion H. now split.
Qed.

Lemma numeral_parts_shape l neg ip fp :
  View.numeral_parts l = Some (neg, ip, fp) ->
  ip <> [] /\ forallb is_digit ip = true /\ forallb is_digit fp = true
  /\ l = (if neg then ["-"%char] else [])
           ++ ip ++ match fp with [] => [] | _ => "."%char :: fp end.
Proof.
  unfold View.numeral_parts.
  set (p := match l with
            | c :: t => if Ascii.eqb c "-" then (true, t) else (false, l)
            | [] => (false, [])
            end).
  assert (Hp : l = (if fst p then ["-"%char] else []) ++ snd p).
  { unfold p. destruct l as [|c t]; [reflexivity|].
    destruct (Ascii.eqb_spec c "-") as [->|_]; reflexivity. }
  destruct p as [neg' l1]. cbn [fst snd] in Hp.
  destruct (span_digits l1) as [ip' r1] eqn:E1.
  apply span_digits_spec in E1. destruct E1 as [-> Hip].
  destruct ip' as [|x ip']; [discriminate|].
  destruct r1 as [|c1 t1].
  - intros H. inversion H; subst. rewrite app_nil_r.
    repeat split; [discriminate|exact Hip].
  - destruct (Ascii.eqb_spec c1 ".") as [->|_]; [|discriminate].
    destruct (span_digits t1) as [fp' r2] eqn:E2.
    apply span_digits_spec in E2. destruct E2 as [-> Hfp].
    destruct fp' as [|y fp']; [discriminate|].
    destruct r2; [|discriminate].
    intros H. inversion H; subst. rewrite app_nil_r.
    repeat split; [discriminate|exact Hip|exact Hfp].
Qed.

(** A plain numeral is read as the number it denotes. *)
Lemma numeral_parts_read s neg ip fp :
  View.numeral_parts (chars s) = Some (neg, ip, fp) ->
  Parse.number_of_string s
  = Some match fp with
         | [] => NInt (Parse.signed neg (Z_of_digits ip))
         | _ => NFloat (Parse.signed neg (Z_of_digits (ip ++ fp)))
                       (- Z.of_nat (List.length fp))
         end.
Proof.
  intros H. apply numeral_parts_shape in H.
  destruct H as (Hne & Hip & Hfp & E).
  rewrite <- (text_chars s), E. destruct fp as [|y fp'].
  - rewrite app_nil_r. now apply number_of_digits.
  - apply number_of_fraction; try assumption.
    destruct ip; [contradiction|discriminate].
Qed.

Lemma lstrip_In c l : In c l -> is_space c = true \/ In c (lstrip l).
Proof.
  induction l as [|a t IH]; [contradiction|]. simpl.
  destruct (is_space a) eqn:Ea; intros [->|H]; auto.
  - right. now left.
  - right. now right.
Qed.

Lemma strip_In c l : In c l -> is_space c = true \/ In c (strip_chars l).
Proof.
  intros H. unfold strip_chars.
  destruct (lstrip_In c l H) as [Hs|H1]; [now left|].
  apply in_rev in H1.
  destruct (lstrip_In c _ H1) as [Hs|H2]; [now left|].
  right. now apply in_rev in H2.
Qed.

Lemma digits_numeric l c :
  forallb is_digit l = true -> In c l -> numeric c = true.
Proof.
  intros H Hc. rewrite forallb_forall in H. now rewrite (H c Hc).
Qed.

Lemma split_sign_In l neg l1 c :
  Parse.split_sign l = (neg, l1) -> In c l ->
  numeric c = true \/ In c l1.
Proof.
  unfold Parse.split_sign. destruct l as [|a t]; [contradiction|].
  destruct (Ascii.eqb_spec a "-") as [->|_].
  - intros H [<-|Hc]; inversion H; subst; auto.
  - destruct (Ascii.eqb_spec a "+") as [->|_];
      intros H Hc; inversion H; subst; auto.
    destruct Hc as [<-|Hc]; auto.
Qed.

Lemma exponent_numeric l x c :
  Parse.exponent l = Some x -> In c l -> numeric c = true.
Proof.
  unfold Parse.exponent.
  destruct (Parse.split_sign l) as [neg l1] eqn:E1.
  destruct (span_digits l1) as [d r] eqn:E2.
  apply span_digits_spec in E2. destruct E2 as [-> Hd].
  destruct d as [|y d]; [discriminate|]. destruct r; [|discriminate].
  intros _ Hc.
  destruct (split_sign_In _ _ _ c E1 Hc) as [|Hc1]; [assumption|].
  rewrite app_nil_r in Hc1. now apply (digits_numeric _ c Hd).
Qed.

Lemma tail_numeric (A B : Z -> number) r n c :
  match r with
  | [] => Some (A 0)
  | c0 :: t =>
      if Ascii.eqb c0 "e" || Ascii.eqb c0 "E"
      then match Parse.exponent t with
           | Some x => Some (B x)
           | None => None
           end
      else None
  end = Some n ->
  In c r -> numeric c = true.
Proof.
  destruct r as [|c0 t]; [contradiction|].
  destruct (Ascii.eqb c0 "e" || Ascii.eqb c0 "E") eqn:Ee; [|discriminate].
  destruct (Parse.exponent t) as [x|] eqn:Ex; [|discriminate].
  intros _ [<-|Hc].
  - apply orb_true_iff in Ee.
    destruct Ee as [Ee|Ee]; apply Ascii.eqb_eq in Ee; subst; reflexivity.
  - now apply (exponent_numeric t x).
Qed.

(** What the model reads as a number is written with digits, blanks,
    signs, a point and an exponent marker. *)
Lemma parsed_numeric s n c :
  Parse.number_of_string s = Some n -> In c (chars s) -> numeric c = true.
Proof.
  intros H Hc. destruct (strip_In c _ Hc) as [Hs|Hc1].
  { rewrite Hs. now rewrite orb_true_r. }
  unfold Parse.number_of_string in H.
  destruct (Parse.split_sign (strip_chars (chars s))) as [neg l1] eqn:E1.
  destruct (split_sign_In _ _ _ c E1 Hc1) as [|Hc2]; [assumption|].
  clear E1 Hc1 Hc.
  destruct (span_digits l1) as [ip r1] eqn:E2.
  apply span_digits_spec in E2. destruct E2 as [-> Hip].
  apply in_app_or in Hc2.
  destruct Hc2 as [Hc2|Hc2]; [now apply (digits_numeric _ c Hip)|].
  destruct r1 as [|c1 t1]; [contradiction|].
  destruct (Ascii.eqb_spec c1 ".") as [->|Hn].
  - destruct (span_digits t1) as [fp r2] eqn:E3.
    apply span_digits_spec in E3. destruct E3 as [-> Hfp].
    destruct Hc2 as [<-|Hc2]; [reflexivity|].
    apply in_app_or in Hc2.
    destruct Hc2 as [Hc2|Hc2]; [now apply (digits_numeric _ c Hfp)|].
    destruct (ip ++ fp) as [|y ds]; [discriminate|].
    now apply (tail_numeric
                 (fun _ => NFloat (Parse.signed neg (Z_of_digits (y :: ds)))
                                  (- Z.of_nat (List.length fp)))
                 (fun x => NFloat (Parse.signed neg (Z_of_digits (y :: ds)))
                                  (- Z.of_nat (List.length fp) + x))
                 r2 n c).
  - destruct (ip ++ []) as [|y ds]; [discriminate|].
    now apply (tail_numeric
                 (fun _ => NInt (Parse.signed neg (Z_of_digits (y :: ds))))
                 (fun x => NFloat (Parse.signed neg (Z_of_digits (y :: ds)))
                                  (- Z.of_nat 0 + x))
                 (c1 :: t1) n c).
Qed.

Lemma foreign_not_numeric c : View.foreign c = true -> numeric c = false.
Proof.
  destruct c as [[] [] [] [] [] [] [] []]; vm_compute; intros H;
    try discriminate H; reflexivity.
Qed.

(** A text that holds a character foreign to numbers is no number. *)
Lemma foreign_unparsable s :
  existsb View.foreign (chars s) = true ->
  Parse.number_of_string s = None.
Proof.
  intros H. apply existsb_exists in H. destruct H as (c & Hc & Hf).
  destruct (Parse.number_of_string s) as [n|] eqn:E; [|reflexivity].
  pose proof (parsed_numeric s n c E Hc) as Hn.
  rewrite (foreign_not_numeric c Hf) in Hn. discriminate.
Qed.

(** The model's reading of a plain text: the number that the numeral
    denotes, and no number otherwise. *)
Lemma plain_text_read s :
  View.plain_text s = true ->
  Parse.number_of_string s
  = match View.numeral_parts (chars s) with
    | Some (neg, ip, []) => Some (NInt (Parse.signed neg (Z_of_digits ip)))
    | Some (neg, ip, fp) =>
        Some (NFloat (Parse.signed neg (Z_of_digits (ip ++ fp)))
                     (- Z.of_nat (List.length fp)))
    | None => None
    end.
Proof.
  unfold View.plain_text, View.short_numeral. intros H.
  destruct (View.numeral_parts (chars s)) as [[[neg ip] fp]|] eqn:E.
  - rewrite (numeral_parts_read s neg ip fp E). now destruct fp.
  - simpl in H. apply orb_true_iff in H. destruct H as [H|H].
    + apply String.eqb_eq in H. now subst.
    + now apply foreign_unparsable.
Qed.

Example plain_texts :
  map View.plain_text
      ["1500000"; "-2000"; "1.234"; "-6.2088"; "nan"; "gratis"; "timur";
       "12 liter"]
  = [true; true; true; true; true; true; true; true]
  /\ map View.plain_text
         ["inf"; "-Infinity"; "1e400"; "99999999999999999999";
          "90.00000000000000001"; "1e5"; " 12"; "+5"; ".5"; "5."]
     = [false; false; false; false; false; false; false; false; false;
        false].
Proof. split; vm_compute; reflexivity. Qed.



Example amount_texts :
  map View.amount_text
      [Str "Rp1.500.000"; Str "Rp-2.000"; Num (NInt (-500)); Str "gratis";
       NaN; Num (NFloat 5000 0)]
  = ["1500000"; "-2000"; "-500"; "gratis"; "nan"; "50000"]
  /\ text (["-"%char] ++ chars "2000") = "-2000"
  /\ Parse.signed true (Z_of_digits (chars "2000")) = -2000
  /\ existsb View.foreign (chars "gratis") = true
  /\ Frame.values "pemasukan" (View.cleaned Samples.mixed)
     = [Num (NInt 1500000); Num (NInt 0)].
Proof. repeat split; vm_compute; reflexivity. Qed.

(** The files of the examples are within the reach of float64. *)
Example sample_files_are_plain :
  View.gps_plain Samples.points = true
  /\ View.gps_plain Samples.far_points = true
  /\ View.gps_plain Samples.points_int = true.
Proof. repeat split; vm_compute; reflexivity. Qed.

End PlainTexts.
